(** * Order execution and fill tracking: a shallow embedding

    The JavaScript sources embedded here are
    - [app/api/trade/utils.js]        (module [Utils]),
    - [app/api/trade/limit/route.js]  (module [LimitRoute]),
    - [src/trading/index.js]          (module [Trading]),
    - [src/trading/logger.js]         ([Trading.formatError]).

    A JavaScript Number is an IEEE 754 binary64 value: it is modelled by
    Rocq's primitive [float], whose operations are the same binary64
    operations with round-to-nearest-even.  Decimal literals of the source
    ([1e-9], [0.01], [0.99]) denote, as in JavaScript, the nearest binary64
    value.  A JavaScript string is modelled by Rocq's [string], holding
    its UTF-8 text.

    The asynchronous functions of the trading module are modelled one call
    at a time, as functions from the state before the call to how the call
    ends and the state after it.  The state holds the two variables of the
    module, the state of the outside world (the exchange and the clock) and
    the trace of what the run did that can be observed.  A promise is
    represented by how it settles. *)

From Stdlib Require Import ZArith List String Ascii Bool Lia.
From Stdlib Require Import Floats.
Import ListNotations.

Set Warnings "-inexact-float,-register-all".

(* ================================================================== *)
(** ** JavaScript numbers and the built-ins the sources call *)

Module JS.

Local Open Scope float_scope.

(** [Number.isFinite] on a Number. *)
Definition Number_isFinite (x : float) : bool := is_finite x.

(** [Math.min(x, y)]: NaN if either is NaN; [-0] is below [+0]. *)
Definition Math_min (x y : float) : float :=
  if is_nan x || is_nan y then nan
  else if x <? y then x
  else if y <? x then y
  else if get_sign x then x else y.

(** [Math.max(x, y)]: NaN if either is NaN; [+0] is above [-0]. *)
Definition Math_max (x y : float) : float :=
  if is_nan x || is_nan y then nan
  else if x <? y then y
  else if y <? x then x
  else if get_sign x then y else x.

(** The integer [floor (m * 2^e)] of a finite non-zero binary64 value given by
    sign, mantissa and exponent ([Z.div] rounds toward minus infinity). *)
Definition SF_floor_Z (s : bool) (m : positive) (e : Z) : Z :=
  let n := if s then Z.neg m else Z.pos m in
  if (0 <=? e)%Z then (n * 2 ^ e)%Z else (n / 2 ^ (- e))%Z.

(** The binary64 value nearest to an integer. *)
Definition of_Z (z : Z) : float :=
  SF2Prim (binary_normalize prec emax z 0 false).

(** [Math.floor]: the largest integral Number not above [x]; NaN, the
    infinities and both zeros are returned as they are. *)
Definition Math_floor (x : float) : float :=
  match Prim2SF x with
  | S754_finite s m e => of_Z (SF_floor_Z s m e)
  | _ => x
  end.

(** [10 ** d] for a non-negative integral [d]: ten to the [d] itself up to
    [d = 22], where that is a Number, and the Number nearest to it beyond,
    where the result of [**] is left to the engine.  The handler only uses
    [d = 2]. *)
Definition pow10 (d : nat) : float := of_Z (10 ^ Z.of_nat d).

(** [a > b] written as in the source. *)
Definition gtb (a b : float) : bool := b <? a.

(** *** Strings

    A string is held as its UTF-8 text, one [ascii] for each byte.
    [trim] removes the white space and the line terminators of ECMAScript:
    the six of one byte, U+00A0, and those of three bytes (U+1680, U+2000
    to U+200A, U+2028, U+2029, U+202F, U+205F, U+3000 and U+FEFF). *)

Definition is_space (c : ascii) : bool :=
  match nat_of_ascii c with
  | 9%nat | 10%nat | 11%nat | 12%nat | 13%nat | 32%nat => true
  | _ => false
  end.

Definition byte_is (c : ascii) (n : nat) : bool := (nat_of_ascii c =? n)%nat.

(** U+00A0. *)
Definition is_space2 (c1 c2 : ascii) : bool :=
  byte_is c1 194 && byte_is c2 160.

(** The white space of three bytes. *)
Definition is_space3 (c1 c2 c3 : ascii) : bool :=
  if byte_is c1 225 then byte_is c2 154 && byte_is c3 128
  else if byte_is c1 226 then
    if byte_is c2 128 then
      let n := nat_of_ascii c3 in
      ((128 <=? n)%nat && (n <=? 138)%nat)
      || (n =? 168)%nat || (n =? 169)%nat || (n =? 175)%nat
    else byte_is c2 129 && byte_is c3 159
  else if byte_is c1 227 then byte_is c2 128 && byte_is c3 128
  else if byte_is c1 239 then byte_is c2 187 && byte_is c3 191
  else false.

(** The text is one white-space character. *)
Definition is_white (s : string) : bool :=
  match s with
  | String c1 EmptyString => is_space c1
  | String c1 (String c2 EmptyString) => is_space2 c1 c2
  | String c1 (String c2 (String c3 EmptyString)) => is_space3 c1 c2 c3
  | _ => false
  end.

Fixpoint trimStart (s : string) : string :=
  match s with
  | EmptyString => EmptyString
  | String c1 r1 =>
      if is_space c1 then trimStart r1
      else
        match r1 with
        | EmptyString => s
        | String c2 r2 =>
            if is_space2 c1 c2 then trimStart r2
            else
              match r2 with
              | EmptyString => s
              | String c3 r3 =>
                  if is_space3 c1 c2 c3 then trimStart r3 else s
              end
        end
  end.

Fixpoint trimEnd (s : string) : string :=
  match s with
  | EmptyString => EmptyString
  | String c r =>
      let kept := String c (trimEnd r) in
      if is_white kept then EmptyString else kept
  end.

Definition String_trim (s : string) : string := trimEnd (trimStart s).

(** [toUpperCase] and [toLowerCase].  The letters of ASCII are mapped, and
    so is every other character whose image holds a letter of ASCII: for
    [toUpperCase] U+00DF, U+0131, U+0149, U+017F, U+01F0, U+1E96 to U+1E9A
    and U+FB00 to U+FB06; for [toLowerCase] U+0130 and U+212A.  Any other
    character is left as it is: its image holds no letter of ASCII either,
    and the sources only compare the result with words of ASCII. *)

Definition upper_ascii (c : ascii) : ascii :=
  let n := nat_of_ascii c in
  if (97 <=? n)%nat && (n <=? 122)%nat then ascii_of_nat (n - 32) else c.

Definition lower_ascii (c : ascii) : ascii :=
  let n := nat_of_ascii c in
  if (65 <=? n)%nat && (n <=? 90)%nat then ascii_of_nat (n + 32) else c.

Definition bytes (l : list nat) : string :=
  string_of_list_ascii (List.map ascii_of_nat l).

Definition upper2 (c1 c2 : ascii) : option string :=
  if byte_is c1 195 && byte_is c2 159 then Some "SS"%string
  else if byte_is c1 196 && byte_is c2 177 then Some "I"%string
  else if byte_is c1 197 && byte_is c2 137 then
    Some (bytes [202; 188; 78]%nat)
  else if byte_is c1 197 && byte_is c2 191 then Some "S"%string
  else if byte_is c1 199 && byte_is c2 176 then
    Some (bytes [74; 204; 140]%nat)
  else None.

Definition upper3 (c1 c2 c3 : ascii) : option string :=
  if byte_is c1 225 && byte_is c2 186 then
    if byte_is c3 150 then Some (bytes [72; 204; 177]%nat)
    else if byte_is c3 151 then Some (bytes [84; 204; 136]%nat)
    else if byte_is c3 152 then Some (bytes [87; 204; 138]%nat)
    else if byte_is c3 153 then Some (bytes [89; 204; 138]%nat)
    else if byte_is c3 154 then Some (bytes [65; 202; 190]%nat)
    else None
  else if byte_is c1 239 && byte_is c2 172 then
    if byte_is c3 128 then Some "FF"%string
    else if byte_is c3 129 then Some "FI"%string
    else if byte_is c3 130 then Some "FL"%string
    else if byte_is c3 131 then Some "FFI"%string
    else if byte_is c3 132 then Some "FFL"%string
    else if byte_is c3 133 then Some "ST"%string
    else if byte_is c3 134 then Some "ST"%string
    else None
  else None.

Definition lower2 (c1 c2 : ascii) : option string :=
  if byte_is c1 196 && byte_is c2 176 then Some (bytes [105; 204; 135]%nat)
  else None.

Definition lower3 (c1 c2 c3 : ascii) : option string :=
  if byte_is c1 226 && byte_is c2 132 && byte_is c3 170 then Some "k"%string
  else None.

(** The case mapping of a text: a character of two or three bytes that has
    an image is replaced by it, and any other byte goes through [one]. *)
Fixpoint map_case (one : ascii -> ascii)
    (two : ascii -> ascii -> option string)
    (three : ascii -> ascii -> ascii -> option string) (s : string)
  : string :=
  match s with
  | EmptyString => EmptyString
  | String c1 r1 =>
      let plain := String (one c1) (map_case one two three r1) in
      match r1 with
      | EmptyString => plain
      | String c2 r2 =>
          match two c1 c2 with
          | Some image => (image ++ map_case one two three r2)%string
          | None =>
              match r2 with
              | EmptyString => plain
              | String c3 r3 =>
                  match three c1 c2 c3 with
                  | Some image => (image ++ map_case one two three r3)%string
                  | None => plain
                  end
              end
          end
      end
  end.

Definition toUpperCase : string -> string := map_case upper_ascii upper2 upper3.
Definition toLowerCase : string -> string := map_case lower_ascii lower2 lower3.

(** [s.slice(0, n)]. *)
Definition slice0 (n : nat) (s : string) : string := substring 0 n s.

(** *** Values read from parsed JSON and from the exchange client.
    An object or array is represented by the text its [toString()] gives,
    which is what both [Number(...)] and [String(...)] go through. *)
Inductive jsval : Type :=
| JUndefined
| JNull
| JBool (b : bool)
| JNum (n : float)
| JStr (s : string)
| JObj (text : string).

Definition is_empty (s : string) : bool :=
  match s with EmptyString => true | _ => false end.

(** Truthiness, as tested by [!v], [v && ...] and [if (v)]. *)
Definition truthy (v : jsval) : bool :=
  match v with
  | JUndefined | JNull => false
  | JBool b => b
  | JNum n => negb (is_nan n || is_zero n)
  | JStr s => negb (is_empty s)
  | JObj _ => true
  end.

(** [v ?? d]. *)
Definition nullish_or (v d : jsval) : jsval :=
  match v with
  | JUndefined | JNull => d
  | _ => v
  end.

End JS.

(* ================================================================== *)
(** ** app/api/trade/utils.js *)

Module Utils.

Import JS.
Local Open Scope float_scope.

Definition NUMERIC_EPSILON : float := 1e-9.

(** [isBelowMin(value, min, epsilon = NUMERIC_EPSILON)]. *)
Definition isBelowMin_eps (value min epsilon : float) : bool :=
  let numeric := value in
  if negb (Number_isFinite numeric) || negb (Number_isFinite min) then true
  else numeric + epsilon <? min.

Definition isBelowMin (value min : float) : bool :=
  isBelowMin_eps value min NUMERIC_EPSILON.

End Utils.

(* ================================================================== *)
(** ** app/api/trade/limit/route.js: the numeric guards *)

Module LimitRoute.

Import JS Utils.
Local Open Scope float_scope.

Definition MIN_ORDER_NOTIONAL_USD : float := 1.
Definition MIN_ORDER_SHARES : float := 5.
Definition MIN_TRADABLE_PRICE : float := 0.01.
Definition MAX_TRADABLE_PRICE : float := 0.99.

(** [floorTo(value, decimals = 2)]. *)
Definition floorTo (value : float) (decimals : nat) : float :=
  let n := value in
  if negb (Number_isFinite n) then n
  else
    let factor := pow10 decimals in
    Math_floor ((n + 1e-9) * factor) / factor.

Definition minSellSharesAtPrice (price : float) : float :=
  let p := price in
  if negb (Number_isFinite p) || (p <=? 0) then MIN_ORDER_SHARES
  else Math_max MIN_ORDER_SHARES (MIN_ORDER_NOTIONAL_USD / p).

Definition adjustSellAmountToAvoidDust
    (requestedAmount availableAmount price : float) : float :=
  let requested := requestedAmount in
  let available := availableAmount in
  if negb (Number_isFinite requested) || negb (Number_isFinite available)
  then requested
  else
    let next := Math_min requested available in
    let remaining := available - next in
    let minSellShares := minSellSharesAtPrice price in
    if gtb remaining 0 && isBelowMin remaining minSellShares
    then available
    else next.

Definition isOutOfTradablePriceRange (price : float) : bool :=
  let p := price in
  isBelowMin p MIN_TRADABLE_PRICE || gtb p (MAX_TRADABLE_PRICE + 1e-9).

End LimitRoute.

(* ================================================================== *)
(** ** src/trading/index.js: session, order submission, fill tracking *)

Module Trading.

Import JS.
Local Open Scope float_scope.
Local Open Scope string_scope.

(** *** Thrown values and [formatError] (src/trading/logger.js) *)

Inductive thrown : Type :=
| ThrownError (message stack : string)   (* an instance of Error *)
| ThrownFalsy                            (* undefined, null, 0, ... *)
| ThrownOther (text : string).           (* any other value; text = String(err) *)

Definition formatError (err : thrown) : string :=
  match err with
  | ThrownFalsy => "unknown"
  | ThrownError message stack => if is_empty stack then message else stack
  | ThrownOther text => text
  end.

(** What a call of the SDK gives back: a value, or a thrown exception
    (a rejected promise, once awaited). *)
Inductive exc (A : Type) : Type :=
| Ok (a : A)
| Raise (e : thrown).
Arguments Ok {A} a.
Arguments Raise {A} e.

(** *** Data *)

(** [TRADING_CONFIG] of src/trading/config.js, which is read at each call.
    An unset string is the empty string (falsy). *)
Record Config : Type := {
  enabled : bool;
  privateKey : string;
  funderAddress : string;
  signatureType : option Z;
  clobApi : string;
  useServerTime : bool
}.

(** An ethers [Wallet]: its address and which typed-data signing methods it
    has ([_signTypedData] of v5, [signTypedData] of v6). *)
Record Signer : Type := {
  address : string;
  has__signTypedData : bool;
  has_signTypedData : bool
}.

Record Creds : Type := { key : string; secret : string; passphrase : string }.

(** A [ClobClient], as the arguments it was constructed with. *)
Record ClobClient : Type := {
  cl_host : string;
  cl_signer : Signer;
  cl_creds : option Creds;
  cl_signatureType : option Z;
  cl_funderAddress : string;
  cl_useServerTime : bool
}.

Record ClobContext : Type := {
  client : ClobClient;
  ctx_address : string;
  ctx_funderAddress : string;
  creds : Creds
}.

(** A settled promise.  A caller that awaits a promise another caller
    created finds it in [clobContextPromise]: [Some (Rejected e)] is the
    state in which such a caller resumes once a shared attempt has failed. *)
Inductive promise (A : Type) : Type :=
| Fulfilled (a : A)
| Rejected (e : thrown).
Arguments Fulfilled {A} a.
Arguments Rejected {A} e.

(** The response of [createAndPostOrder] / [createAndPostMarketOrder]:
    the fields the code reads, and whatever else the exchange sent. *)
Record Response : Type := {
  r_orderID : jsval;
  r_orderId : jsval;
  r_status : jsval;
  r_others : list (string * jsval)
}.

(** [{}]. *)
Definition empty_object : Response :=
  {| r_orderID := JUndefined; r_orderId := JUndefined; r_status := JUndefined;
     r_others := [] |}.

(** [{ orderId, status, error? }]. *)
Record OrderResult : Type := {
  res_orderId : jsval;
  res_status : jsval;
  res_error : option string
}.

(** A trade; [t_size] and [t_price] are [Number(trade?.size)] and
    [Number(trade?.price)]. *)
Record Trade : Type := { t_size : float; t_price : float }.

(** An order as [getOrder] returns it.  [o_status = None] is an absent
    status; [o_associate_trades = None] is an absent list; [o_size_matched]
    and [o_price] are [None] when nullish and otherwise hold the field under
    [Number(...)]. *)
Record Order : Type := {
  o_status : option string;
  o_associate_trades : option (list string);
  o_size_matched : option float;
  o_price : option float
}.

Record Fill : Type := { filledSize : float; avgPrice : option float }.

(** The snapshot [fetchOrderFills] returns; [snap_order = None] when the
    object has no [order] property. *)
Record FillSnapshot : Type := {
  snap_status : option string;
  snap_filledSize : float;
  snap_avgPrice : option float;
  snap_trades : list Trade;
  snap_order : option Order
}.

(** Options of the two order functions ([None] = undefined or null). *)
Record LimitOpts : Type := {
  lo_tokenId : string;
  lo_price : float;
  lo_size : float;
  lo_side : string;
  lo_orderType : option string;
  lo_tickSize : option string;
  lo_negRisk : option bool;
  lo_postOnly : bool;
  lo_returnError : bool
}.

Record MarketOpts : Type := {
  mo_tokenId : string;
  mo_amount : float;
  mo_side : string;
  mo_orderType : option string;
  mo_price : option float;
  mo_tickSize : option string;
  mo_negRisk : option bool;
  mo_returnError : bool
}.

(** Options of [fetchOrderFills] ([None] = undefined: the default applies). *)
Record FillOpts : Type := {
  fo_maxWaitMs : option float;
  fo_pollIntervalMs : option float;
  fo_preferTrades : option bool
}.

Inductive level : Type := Info | Warn | Error.

(** What a run does that can be seen from outside: log lines (the first
    argument of the logger call; the others only fill its placeholders),
    calls of the exchange client, and sleeps. *)
Inductive event : Type :=
| EvLog (l : level) (message : string)
| EvCreateOrDeriveApiKey (nonce : float)
| EvDeriveApiKey (nonce : float)
| EvGetTickSize (tokenId : string)
| EvGetNegRisk (tokenId : string)
| EvCreateAndPostOrder (tokenId : string) (orderType : string)
| EvCreateAndPostMarketOrder (tokenId : string) (orderType : string)
| EvGetOrder (orderId : string)
| EvGetTrades (tradeId : string)
| EvSleep (ms : float).

Definition OrderType_GTC : string := "GTC".
Definition OrderType_FOK : string := "FOK".

Definition truncate_max (value : string) (max : nat) : string :=
  if (max <? String.length value)%nat then slice0 max value ++ "..." else value.

(** [truncate(value, max = 500)]. *)
Definition truncate (value : string) : string := truncate_max value 500.

Definition normalizeAddress (value : string) : string := String_trim value.

(** *** The exchange, the wallet library and the clock

    The calls of the SDK take the state of the world and give back a value
    or an exception together with the new state of the world.
    [JSON_stringify] is [JSON.stringify] on a response, which is parsed JSON
    and so always has a serialization. *)

Record Exchange (W : Type) : Type := {
  Date_now : W -> float * W;
  setTimeout : float -> W -> W;
  Wallet_new : string -> exc Signer;
  createOrDeriveApiKey : ClobClient -> float -> W -> exc Creds * W;
  deriveApiKey : ClobClient -> float -> W -> exc Creds * W;
  getTickSize : ClobClient -> string -> W -> exc string * W;
  getNegRisk : ClobClient -> string -> W -> exc bool * W;
  createAndPostOrder :
    ClobClient -> LimitOpts -> string -> bool -> string -> W ->
    exc (option Response) * W;
  createAndPostMarketOrder :
    ClobClient -> MarketOpts -> string -> bool -> string -> W ->
    exc (option Response) * W;
  getOrder : ClobClient -> string -> W -> exc (option Order) * W;
  getTrades : ClobClient -> string -> W -> exc (option (list Trade)) * W;
  JSON_stringify : Response -> string
}.
Arguments Date_now {W} _ _.
Arguments setTimeout {W} _ _ _.
Arguments Wallet_new {W} _ _.
Arguments createOrDeriveApiKey {W} _ _ _ _.
Arguments deriveApiKey {W} _ _ _ _.
Arguments getTickSize {W} _ _ _ _.
Arguments getNegRisk {W} _ _ _ _.
Arguments createAndPostOrder {W} _ _ _ _ _ _ _.
Arguments createAndPostMarketOrder {W} _ _ _ _ _ _ _.
Arguments getOrder {W} _ _ _ _.
Arguments getTrades {W} _ _ _ _.
Arguments JSON_stringify {W} _ _.

(** The module's state: the two [let] variables of the module, the state of
    the outside world, and what has been observed so far. *)
Record St (W : Type) : Type := {
  world : W;
  clobContextPromise : option (promise ClobContext);
  warnedMissingKey : bool;
  trace : list event
}.
Arguments world {W} _.
Arguments clobContextPromise {W} _.
Arguments warnedMissingKey {W} _.
Arguments trace {W} _.
Arguments Build_St {W} _ _ _ _.

(** How a piece of code ends: with a value, with a thrown exception, or not
    within the iterations allowed to a loop. *)
Inductive completion (A : Type) : Type :=
| Normal (a : A)
| Throw (e : thrown)
| OutOfFuel.
Arguments Normal {A} a.
Arguments Throw {A} e.
Arguments OutOfFuel {A}.

Definition M (W A : Type) : Type := St W -> completion A * St W.

Definition ret {W A} (a : A) : M W A := fun s => (Normal a, s).

Definition bind {W A B} (m : M W A) (f : A -> M W B) : M W B :=
  fun s =>
    match m s with
    | (Normal a, s') => f a s'
    | (Throw e, s') => (Throw e, s')
    | (OutOfFuel, s') => (OutOfFuel, s')
    end.

Definition throw {W A} (e : thrown) : M W A := fun s => (Throw e, s).

Definition out_of_fuel {W A} : M W A := fun s => (OutOfFuel, s).

(** [try { m } catch (err) { h err }]. *)
Definition try_catch {W A} (m : M W A) (h : thrown -> M W A) : M W A :=
  fun s =>
    match m s with
    | (Throw e, s') => h e s'
    | r => r
    end.

(** Calling an async function gives a promise of how its body ends. *)
Definition async_call {W A} (m : M W A) : M W (promise A) :=
  fun s =>
    match m s with
    | (Normal a, s') => (Normal (Fulfilled a), s')
    | (Throw e, s') => (Normal (Rejected e), s')
    | (OutOfFuel, s') => (OutOfFuel, s')
    end.

Definition await {W A} (p : promise A) : M W A :=
  match p with
  | Fulfilled a => ret a
  | Rejected e => throw e
  end.

Definition emit {W} (ev : event) : M W unit :=
  fun s =>
    (Normal tt,
     Build_St (world s) (clobContextPromise s) (warnedMissingKey s)
              (trace s ++ [ev])).

Definition logger (l : level) {W} (message : string) : M W unit :=
  emit (EvLog l message).

Definition get_warnedMissingKey {W} : M W bool :=
  fun s => (Normal (warnedMissingKey s), s).

Definition set_warnedMissingKey {W} (b : bool) : M W unit :=
  fun s => (Normal tt, Build_St (world s) (clobContextPromise s) b (trace s)).

Definition get_clobContextPromise {W} : M W (option (promise ClobContext)) :=
  fun s => (Normal (clobContextPromise s), s).

Definition set_clobContextPromise {W} (p : option (promise ClobContext))
  : M W unit :=
  fun s => (Normal tt, Build_St (world s) p (warnedMissingKey s) (trace s)).

(** A call into the outside world that cannot throw. *)
Definition world_read {W A} (f : W -> A * W) : M W A :=
  fun s =>
    let (a, w) := f (world s) in
    (Normal a,
     Build_St w (clobContextPromise s) (warnedMissingKey s) (trace s)).

(** An awaited call of the exchange client, recorded in the trace. *)
Definition client_call {W A} (ev : event) (f : W -> exc A * W) : M W A :=
  fun s =>
    let (r, w) := f (world s) in
    let s' := Build_St w (clobContextPromise s) (warnedMissingKey s)
                       (trace s ++ [ev]) in
    match r with
    | Ok a => (Normal a, s')
    | Raise e => (Throw e, s')
    end.

Definition lift_exc {W A} (r : exc A) : M W A :=
  match r with
  | Ok a => ret a
  | Raise e => throw e
  end.

Declare Scope js_scope.
Delimit Scope js_scope with js.
Notation "x <- m ;; k" := (bind m (fun x => k))
  (at level 61, m at next level, right associativity) : js_scope.
Notation "m ;;; k" := (bind m (fun _ => k))
  (at level 61, right associativity) : js_scope.

Local Open Scope js_scope.

Section WithExchange.

Context {W : Type} (X : Exchange W).

Definition missing_key_warning : string :=
  "TRADING_ENABLED set but POLY_PRIVATE_KEY is missing".

(** [new ClobClient(host, Chain.POLYGON, signer, creds, signatureType,
    funderAddress, undefined, useServerTime)]. *)
Definition new_ClobClient (cfg : Config) (signer : Signer)
    (creds : option Creds) (funder : string) : ClobClient :=
  {| cl_host := clobApi cfg; cl_signer := signer; cl_creds := creds;
     cl_signatureType := signatureType cfg; cl_funderAddress := funder;
     cl_useServerTime := useServerTime cfg |}.

Definition initClobContext (config : Config) : M W ClobContext :=
  if is_empty (privateKey config) then
    throw (ThrownError "POLY_PRIVATE_KEY is required for trading" EmptyString)
  else
    signer0 <- lift_exc (Wallet_new X (privateKey config)) ;;
    signer <-
      (if negb (has__signTypedData signer0) && has_signTypedData signer0 then
         logger Info "Applied ethers v6 _signTypedData shim for clob-client" ;;;
         ret {| address := address signer0; has__signTypedData := true;
                has_signTypedData := has_signTypedData signer0 |}
       else ret signer0) ;;
    let funder :=
      if negb (is_empty (funderAddress config))
      then normalizeAddress (funderAddress config)
      else address signer in
    logger Info "Trading signer:" ;;;
    logger Info "Trading funder:" ;;;
    (match signatureType config with
     | Some _ => logger Info "Trading signature type:"
     | None => ret tt
     end) ;;;
    logger Info "Trading use server time:" ;;;
    let seedClient := new_ClobClient config signer None funder in
    now <- world_read (Date_now X) ;;
    let nonce := Math_floor (now / 1000) in
    creds <-
      try_catch
        (client_call (EvCreateOrDeriveApiKey nonce)
                     (createOrDeriveApiKey X seedClient nonce))
        (fun err =>
           logger Warn "createOrDeriveApiKey failed, attempting derive:" ;;;
           client_call (EvDeriveApiKey nonce)
                       (deriveApiKey X seedClient nonce)) ;;
    let client := new_ClobClient config signer (Some creds) funder in
    logger Info "CLOB client ready for" ;;;
    ret {| client := client; ctx_address := address signer;
           ctx_funderAddress := funder; creds := creds |}.

(** [getClobContext()]; [None] is [null]. *)
Definition getClobContext (config : Config) : M W (option ClobContext) :=
  if negb (enabled config) then ret None
  else if is_empty (privateKey config) then
    warned <- get_warnedMissingKey ;;
    (if negb warned then
       logger Warn missing_key_warning ;;;
       set_warnedMissingKey true
     else ret tt) ;;;
    ret None
  else
    set_warnedMissingKey false ;;;
    memo <- get_clobContextPromise ;;
    p <-
      (match memo with
       | None =>
           p <- async_call (initClobContext config) ;;
           set_clobContextPromise (Some p) ;;;
           ret p
       | Some p => ret p
       end) ;;
    try_catch
      (ctx <- await p ;; ret (Some ctx))
      (fun err =>
         logger Error "Failed to init CLOB client:" ;;;
         set_clobContextPromise None ;;;
         ret None).

(** The order metadata: taken from the options when both are given,
    fetched otherwise.  [inl] is the value returned early from the [catch]. *)
Definition fetch_metadata (ctx : ClobContext) (tokenId : string)
    (tickSize : option string) (negRisk : option bool)
    (returnError : bool) (warning : string)
  : M W (option OrderResult + string * bool) :=
  match tickSize, negRisk with
  | Some t, Some n => ret (inr (t, n))
  | _, _ =>
      try_catch
        (t <- client_call (EvGetTickSize tokenId)
                          (getTickSize X (client ctx) tokenId) ;;
         n <- client_call (EvGetNegRisk tokenId)
                          (getNegRisk X (client ctx) tokenId) ;;
         ret (inr (t, n)))
        (fun err =>
           let message := formatError err in
           logger Warn warning ;;;
           if returnError then
             ret (inl (Some {| res_orderId := JStr EmptyString;
                               res_status := JStr EmptyString;
                               res_error :=
                                 Some ("metadata fetch failed: " ++ message) |}))
           else ret (inl None))
  end.

(** [response?.orderID ?? response?.orderId ?? ""]. *)
Definition response_orderId (response : option Response) : jsval :=
  let orderID := match response with Some r => r_orderID r | None => JUndefined end in
  let orderId := match response with Some r => r_orderId r | None => JUndefined end in
  nullish_or (nullish_or orderID orderId) (JStr EmptyString).

(** [response?.status ?? ""]. *)
Definition response_status (response : option Response) : jsval :=
  nullish_or (match response with Some r => r_status r | None => JUndefined end)
             (JStr EmptyString).

(** [JSON.stringify(response ?? {})]. *)
Definition stringify_response (response : option Response) : string :=
  JSON_stringify X (match response with Some r => r | None => empty_object end).

(** What both order functions do with the response of the exchange. *)
Definition normalize_response (response : option Response)
    (returnError : bool) (warning submitted : string)
  : M W (option OrderResult) :=
  let orderId := response_orderId response in
  let status := response_status response in
  if negb (truthy orderId) then
    logger Warn warning ;;;
    if returnError then
      let responseText := truncate (stringify_response response) in
      ret (Some {| res_orderId := JStr EmptyString; res_status := status;
                   res_error :=
                     Some ("missing orderId in response: " ++ responseText) |})
    else ret None
  else
    logger Info submitted ;;;
    ret (Some {| res_orderId := orderId; res_status := status;
                 res_error := None |}).

Definition missing_context (returnError : bool) : option OrderResult :=
  if returnError then
    Some {| res_orderId := JStr EmptyString; res_status := JStr EmptyString;
            res_error := Some "missing clob context" |}
  else None.

Definition submission_error (returnError : bool) (message : string)
  : option OrderResult :=
  if returnError then
    Some {| res_orderId := JStr EmptyString; res_status := JStr EmptyString;
            res_error := Some message |}
  else None.

Definition placeLimitOrder (config : Config) (opts : LimitOpts)
  : M W (option OrderResult) :=
  ctx <- getClobContext config ;;
  match ctx with
  | None => ret (missing_context (lo_returnError opts))
  | Some ctx =>
      let tokenId := lo_tokenId opts in
      let orderType := lo_orderType opts in
      meta <- fetch_metadata ctx tokenId (lo_tickSize opts) (lo_negRisk opts)
                (lo_returnError opts)
                "Failed to fetch order metadata token=%s side=%s: %s" ;;
      match meta with
      | inl early => ret early
      | inr (tickSize, negRisk) =>
          let orderType' :=
            match orderType with Some t => t | None => OrderType_GTC end in
          logger Info
            "Submitting order token=%s side=%s price=%s size=%s orderType=%s negRisk=%s" ;;;
          posted <-
            try_catch
              (response <-
                 client_call (EvCreateAndPostOrder tokenId orderType')
                   (createAndPostOrder X (client ctx) opts tickSize negRisk
                                       orderType') ;;
               ret (inr response))
              (fun err =>
                 let message := formatError err in
                 logger Error
                   "createAndPostOrder FAILED token=%s side=%s price=%s size=%s negRisk=%s: %s" ;;;
                 ret (inl (submission_error (lo_returnError opts) message))) ;;
          match posted with
          | inl early => ret early
          | inr response =>
              normalize_response response (lo_returnError opts)
                "Order response missing orderId token=%s side=%s response=%s"
                "Order submitted orderId=%s status=%s token=%s side=%s price=%s size=%s"
          end
      end
  end.

Definition placeMarketOrder (config : Config) (opts : MarketOpts)
  : M W (option OrderResult) :=
  ctx <- getClobContext config ;;
  match ctx with
  | None => ret (missing_context (mo_returnError opts))
  | Some ctx =>
      let tokenId := mo_tokenId opts in
      let orderType := mo_orderType opts in
      meta <- fetch_metadata ctx tokenId (mo_tickSize opts) (mo_negRisk opts)
                (mo_returnError opts)
                "Failed to fetch market order metadata token=%s side=%s: %s" ;;
      match meta with
      | inl early => ret early
      | inr (tickSize, negRisk) =>
          let orderType' :=
            match orderType with Some t => t | None => OrderType_FOK end in
          logger Info
            "Submitting MARKET order token=%s side=%s amount=%s orderType=%s negRisk=%s" ;;;
          posted <-
            try_catch
              (response <-
                 client_call (EvCreateAndPostMarketOrder tokenId orderType')
                   (createAndPostMarketOrder X (client ctx) opts tickSize
                                             negRisk orderType') ;;
               ret (inr response))
              (fun err =>
                 let message := formatError err in
                 logger Error
                   "createAndPostMarketOrder FAILED token=%s side=%s amount=%s negRisk=%s: %s" ;;;
                 ret (inl (submission_error (mo_returnError opts) message))) ;;
          match posted with
          | inl early => ret early
          | inr response =>
              normalize_response response (mo_returnError opts)
                "Market order response missing orderId token=%s side=%s response=%s"
                "Market order submitted orderId=%s status=%s token=%s side=%s amount=%s"
          end
      end
  end.

Definition fetchOrder (config : Config) (orderId : string)
  : M W (option Order) :=
  ctx <- getClobContext config ;;
  match ctx with
  | None => ret None
  | Some ctx =>
      try_catch
        (client_call (EvGetOrder orderId) (getOrder X (client ctx) orderId))
        (fun err => logger Warn "Failed to fetch order %s: %s" ;;; ret None)
  end.

(** The [for (const tradeId of tradeIds)] loop of [fetchTradesForOrder]. *)
Fixpoint fetchTrades_loop (ctx : ClobContext) (tradeIds : list string)
    (trades : list Trade) : M W (list Trade) :=
  match tradeIds with
  | [] => ret trades
  | tradeId :: rest =>
      trades' <-
        try_catch
          (res <- client_call (EvGetTrades tradeId)
                              (getTrades X (client ctx) tradeId) ;;
           match res with
           | Some (t :: ts) => ret (trades ++ t :: ts)%list
           | _ => ret trades
           end)
          (fun err => logger Warn "Failed to fetch trade %s: %s" ;;; ret trades) ;;
      fetchTrades_loop ctx rest trades'
  end.

Definition fetchTradesForOrder (ctx : ClobContext) (order : option Order)
  : M W (list Trade) :=
  match order with
  | None => ret []
  | Some order =>
      let tradeIds :=
        match o_associate_trades order with Some l => l | None => [] end in
      match tradeIds with
      | [] => ret []
      | _ => fetchTrades_loop ctx tradeIds []
      end
  end.

(** The [for (const trade of trades)] loop of [computeFillFromTrades]. *)
Fixpoint computeFill_loop (trades : list Trade) (filledSize notional : float)
  : float * float :=
  match trades with
  | [] => (filledSize, notional)
  | trade :: rest =>
      let size := t_size trade in
      let price := t_price trade in
      if negb (Number_isFinite size) || negb (Number_isFinite price)
      then computeFill_loop rest filledSize notional
      else computeFill_loop rest (filledSize + size) (notional + size * price)
  end.

Definition computeFillFromTrades (trades : list Trade) : Fill :=
  let (filledSize, notional) := computeFill_loop trades 0 0 in
  let avgPrice :=
    if gtb filledSize 0 then Some (notional / filledSize) else None in
  {| filledSize := filledSize; avgPrice := avgPrice |}.

(** [lastOrder?.associate_trades?.length], as a condition. *)
Definition has_associate_trades (lastOrder : option Order) : bool :=
  match lastOrder with
  | Some o =>
      match o_associate_trades o with
      | Some (_ :: _) => true
      | _ => false
      end
  | None => false
  end.

(** [status !== "live"]. *)
Definition not_live (status : option string) : bool :=
  match status with
  | Some s => negb (String.eqb s "live")
  | None => true
  end.

(** [lastOrder && lastOrder.status && lastOrder.status !== "live"]. *)
Definition left_live (lastOrder : option Order) : bool :=
  match lastOrder with
  | Some o =>
      match o_status o with
      | Some s => negb (is_empty s) && negb (String.eqb s "live")
      | None => false
      end
  | None => false
  end.

(** How the [while] loop of [fetchOrderFills] ends: by its [return], or by
    leaving the loop ([break], or the condition failing) with the two
    variables it assigns. *)
Inductive loop_exit : Type :=
| Returned (snapshot : FillSnapshot)
| Left (lastOrder : option Order) (trades : list Trade).

Fixpoint poll_loop (fuel : nat) (ctx : ClobContext) (orderId : string)
    (maxWaitMs pollIntervalMs : float) (preferTrades : bool) (started : float)
    (lastOrder : option Order) (trades : list Trade) : M W loop_exit :=
  match fuel with
  | O => out_of_fuel
  | S fuel' =>
      now <- world_read (Date_now X) ;;
      if (now - started <=? maxWaitMs)%float then
        lastOrder <-
          try_catch
            (client_call (EvGetOrder orderId)
                         (getOrder X (client ctx) orderId))
            (fun err =>
               logger Warn "Failed to fetch order %s: %s" ;;; ret None) ;;
        step <-
          (if has_associate_trades lastOrder then
             trades <- fetchTradesForOrder ctx lastOrder ;;
             let fills := computeFillFromTrades trades in
             let status :=
               match lastOrder with Some o => o_status o | None => None end in
             if gtb (filledSize fills) 0 || not_live status then
               ret (inl {| snap_status := status;
                           snap_filledSize := filledSize fills;
                           snap_avgPrice := avgPrice fills;
                           snap_trades := trades;
                           snap_order := lastOrder |})
             else ret (inr trades)
           else ret (inr trades)) ;;
        match step with
        | inl snapshot => ret (Returned snapshot)
        | inr trades =>
            if left_live lastOrder && negb preferTrades then
              ret (Left lastOrder trades)
            else
              world_read (fun w => (tt, setTimeout X pollIntervalMs w)) ;;;
              emit (EvSleep pollIntervalMs) ;;;
              poll_loop fuel' ctx orderId maxWaitMs pollIntervalMs
                        preferTrades started lastOrder trades
        end
      else ret (Left lastOrder trades)
  end.

Definition unknown_snapshot : FillSnapshot :=
  {| snap_status := Some "unknown"; snap_filledSize := 0;
     snap_avgPrice := None; snap_trades := []; snap_order := None |}.

Definition status_or_unknown (status : option string) : option string :=
  match status with
  | Some s => Some s
  | None => Some "unknown"
  end.

(** [fetchOrderFills(orderId, { maxWaitMs = 60000, pollIntervalMs = 1500,
    preferTrades = false } = {})]; [fuel] bounds the iterations of its loop,
    and [None] is [null]. *)
Definition fetchOrderFills (fuel : nat) (config : Config) (orderId : string)
    (opts : FillOpts) : M W (option FillSnapshot) :=
  let maxWaitMs :=
    match fo_maxWaitMs opts with Some v => v | None => 60000 end in
  let pollIntervalMs :=
    match fo_pollIntervalMs opts with Some v => v | None => 1500 end in
  let preferTrades :=
    match fo_preferTrades opts with Some v => v | None => false end in
  ctx <- getClobContext config ;;
  match ctx with
  | None => ret None
  | Some ctx =>
      started <- world_read (Date_now X) ;;
      exit <- poll_loop fuel ctx orderId maxWaitMs pollIntervalMs preferTrades
                        started None [] ;;
      match exit with
      | Returned snapshot => ret (Some snapshot)
      | Left None _ => ret (Some unknown_snapshot)
      | Left (Some lastOrder) trades =>
          if preferTrades then
            let fills := computeFillFromTrades trades in
            ret (Some {| snap_status := status_or_unknown (o_status lastOrder);
                         snap_filledSize := filledSize fills;
                         snap_avgPrice := avgPrice fills;
                         snap_trades := trades;
                         snap_order := Some lastOrder |})
          else
            let sizeMatched :=
              match o_size_matched lastOrder with Some v => v | None => 0 end in
            let avgFallback :=
              match o_price lastOrder with Some v => v | None => 0 end in
            ret (Some {| snap_status := status_or_unknown (o_status lastOrder);
                         snap_filledSize :=
                           if Number_isFinite sizeMatched then sizeMatched else 0;
                         snap_avgPrice :=
                           if Number_isFinite avgFallback && gtb avgFallback 0
                           then Some avgFallback else None;
                         snap_trades := trades;
                         snap_order := Some lastOrder |})
      end
  end.

(** *** Runs and observations used to state the properties *)

(** The state with one of its components changed. *)
Definition set_flag (b : bool) (s : St W) : St W :=
  Build_St (world s) (clobContextPromise s) b (trace s).

Definition set_memo (p : option (promise ClobContext)) (s : St W) : St W :=
  Build_St (world s) p (warnedMissingKey s) (trace s).

Definition set_world (w : W) (s : St W) : St W :=
  Build_St w (clobContextPromise s) (warnedMissingKey s) (trace s).

Definition logged (ev : event) (s : St W) : St W :=
  Build_St (world s) (clobContextPromise s) (warnedMissingKey s)
           (trace s ++ [ev]).

Definition init_failure_log : event :=
  EvLog Error "Failed to init CLOB client:".

(** A sequence of calls of [getClobContext], the configuration being read
    anew at each call; the state after the last one. *)
Fixpoint run_getClobContext (configs : list Config) (s : St W) : St W :=
  match configs with
  | [] => s
  | config :: rest => run_getClobContext rest (snd (getClobContext config s))
  end.

Definition is_missing_key_warning (ev : event) : bool :=
  match ev with
  | EvLog Warn message => String.eqb message missing_key_warning
  | _ => false
  end.

Definition missing_key_warnings (tr : list event) : nat :=
  List.length (List.filter is_missing_key_warning tr).

(** The number of missing-key episodes of a sequence of calls made while
    trading is enabled: the calls that find no key when the call before
    ([warned], for the first) had not already warned. *)
Fixpoint episodes (warned : bool) (configs : list Config) : nat :=
  match configs with
  | [] => 0
  | config :: rest =>
      if is_empty (privateKey config)
      then (if warned then 0 else 1) + episodes true rest
      else episodes false rest
  end.

(** The trades [computeFillFromTrades] includes, and the two sums of the
    data model over them (binary64 sums, in the order of the list). *)
Definition is_included (trade : Trade) : bool :=
  Number_isFinite (t_size trade) && Number_isFinite (t_price trade).

Definition sum_sizes (trades : list Trade) : float :=
  fold_left (fun acc trade => acc + t_size trade) trades 0.

Definition sum_notional (trades : list Trade) : float :=
  fold_left (fun acc trade => acc + t_size trade * t_price trade) trades 0.

(** The [getOrder] call of an iteration gave no order snapshot: it threw,
    or it returned nothing. *)
Definition no_snapshot (r : exc (option Order)) : bool :=
  match r with
  | Ok (Some _) => false
  | _ => true
  end.

(** The world one iteration later, for an iteration that reads the clock,
    calls [getOrder] and sleeps. *)
Definition next_poll_world (ctx : ClobContext) (orderId : string)
    (pollIntervalMs : float) (w : W) : W :=
  setTimeout X pollIntervalMs
             (snd (getOrder X (client ctx) orderId (snd (Date_now X w)))).

Fixpoint poll_world (n : nat) (ctx : ClobContext) (orderId : string)
    (pollIntervalMs : float) (w : W) : W :=
  match n with
  | O => w
  | S k => poll_world k ctx orderId pollIntervalMs
                      (next_poll_world ctx orderId pollIntervalMs w)
  end.

(** The loop condition [Date.now() - started <= maxWaitMs] in world [w]. *)
Definition within_wait (started maxWaitMs : float) (w : W) : bool :=
  (fst (Date_now X w) - started <=? maxWaitMs)%float.



End WithExchange.

End Trading.

(* ================================================================== *)
(** ** app/api/trade/utils.js: responses and request parsing *)

Module RequestParsing.

Import JS Trading.
Local Open Scope string_scope.

(** A JSON document, for response bodies. *)
Inductive json : Type :=
| JsonNull
| JsonBool (b : bool)
| JsonNum (n : float)
| JsonStr (s : string)
| JsonObj (fields : list (string * json)).

Record HttpResponse : Type := { http_status : Z; http_body : json }.

(** [jsonResponse(body, status = 200)]. *)
Definition jsonResponse (body : json) (status : Z) : HttpResponse :=
  {| http_status := status; http_body := body |}.

(** [jsonError(message, status = 400, details)]. *)
Definition jsonError (message : string) (status : Z) (details : option json)
  : HttpResponse :=
  jsonResponse
    (JsonObj (("error", JsonStr message)
              :: match details with
                 | Some d => [("details", d)]
                 | None => []
                 end))
    status.

(** [ensureTradingEnabled()]; [None] is [null]. *)
Definition ensureTradingEnabled (config : Config) : option HttpResponse :=
  if negb (enabled config) then
    Some (jsonError "Trading disabled (set TRADING_ENABLED=true)." 403 None)
  else if is_empty (privateKey config) then
    Some (jsonError "POLY_PRIVATE_KEY is required for trading." 403 None)
  else None.

Section WithConversions.

(** The two conversions of the language between strings and Numbers. *)
Variable StringToNumber : string -> float.
Variable NumberToString : float -> string.

(** [Number(value)]. *)
Definition Number (value : jsval) : float :=
  match value with
  | JUndefined => nan
  | JNull => 0%float
  | JBool b => if b then 1%float else 0%float
  | JNum n => n
  | JStr s => StringToNumber s
  | JObj text => StringToNumber text
  end.

(** [String(value)]. *)
Definition String_ (value : jsval) : string :=
  match value with
  | JUndefined => "undefined"
  | JNull => "null"
  | JBool b => if b then "true" else "false"
  | JNum n => NumberToString n
  | JStr s => s
  | JObj text => text
  end.

(** The parsers return [{ error }] ([inl]) or [{ value }] ([inr]). *)
Definition parseString (value : jsval) (label : string) : string + string :=
  let v := match value with JStr s => String_trim s | _ => EmptyString end in
  if is_empty v then inl (label ++ " is required") else inr v.

(** [parseNumber(value, label, { min = 0, allowZero = false } = {})]. *)
Definition parseNumber (value : jsval) (label : string) (min : float)
    (allowZero : bool) : string + float :=
  let num := Number value in
  if negb (Number_isFinite num) then inl (label ++ " must be a number")
  else if (if allowZero then (num <? min)%float else (num <=? min)%float)
  then inl (label ++ " must be > " ++ NumberToString min)
  else inr num.

(** [parseSide(value)]; [Object.values(Side)] is [["BUY", "SELL"]]. *)
Definition parseSide (value : jsval) : string + string :=
  if negb (truthy value) then inl "side is required"
  else
    let v := toUpperCase (String_ value) in
    if String.eqb v "BUY" || String.eqb v "SELL" then inr v
    else inl "side must be BUY or SELL".

End WithConversions.

End RequestParsing.

(* ================================================================== *)
(** ** app/api/trade/limit/route.js: the handler up to the price band *)

Module LimitRoutePOST.

Import JS Utils LimitRoute Trading RequestParsing.
Local Open Scope string_scope.
Local Open Scope js_scope.

(** The properties of the request body that [POST] reads before it first
    calls the trading module ([JUndefined] when absent, also when the body
    is not an object). *)
Record Body : Type := {
  b_tokenId : jsval;
  b_side : jsval;
  b_price : jsval;
  b_market : jsval;
  b_orderKind : jsval
}.

(** What the handler has parsed when it reaches line 96. *)
Record Parsed : Type := {
  p_tokenId : string;
  p_side : string;
  p_price : float;
  p_useMarket : bool
}.

Section WithExchange.

Context {W : Type}.
Variable StringToNumber : string -> float.
Variable NumberToString : float -> string.

(** Lines 96 to 343 of the handler: the remaining parsing, the preflight
    checks against the balances, the submission and the wait for fills.
    Every call of the trading module is in this part. *)
Variable POST_rest : Parsed -> M W HttpResponse.

(** [body?.market === true ||
     String(body?.orderKind ?? "").toLowerCase() === "market"]. *)
Definition useMarket_of (body : Body) : bool :=
  match b_market body with
  | JBool true => true
  | _ =>
      String.eqb
        (toLowerCase
           (String_ NumberToString
                    (nullish_or (b_orderKind body) (JStr EmptyString))))
        "market"
  end.

Definition price_band_error (price : float) : HttpResponse :=
  jsonError "price out of tradable range ($0.01-$0.99)" 409
    (Some (JsonObj [("price", JsonNum price);
                    ("minTradablePrice", JsonNum MIN_TRADABLE_PRICE);
                    ("maxTradablePrice", JsonNum MAX_TRADABLE_PRICE)])).

(** [POST(req)]; [req_body = None] when [req.json()] throws. *)
Definition POST (config : Config) (req_body : option Body)
  : M W HttpResponse :=
  match ensureTradingEnabled config with
  | Some guard => ret guard
  | None =>
      match req_body with
      | None => ret (jsonError "Invalid JSON body" 400 None)
      | Some body =>
          match parseString (b_tokenId body) "tokenId" with
          | inl error => ret (jsonError error 400 None)
          | inr tokenId =>
              match parseSide NumberToString (b_side body) with
              | inl error => ret (jsonError error 400 None)
              | inr side =>
                  match parseNumber StringToNumber NumberToString
                                    (b_price body) "price" 0 false with
                  | inl error => ret (jsonError error 400 None)
                  | inr price =>
                      let useMarket := useMarket_of body in
                      if useMarket && isOutOfTradablePriceRange price then
                        ret (price_band_error price)
                      else
                        POST_rest {| p_tokenId := tokenId; p_side := side;
                                     p_price := price;
                                     p_useMarket := useMarket |}
                  end
              end
          end
      end
  end.

End WithExchange.

End LimitRoutePOST.

(* ================================================================== *)
(** ** The reading of the spec for [floorTo], and a scripted exchange *)

Module SpecReading.

Import JS.
Local Open Scope float_scope.

(** Rounding to an integral Number toward zero. *)
Definition toward_zero (x : float) : float :=
  if x <? 0 then - Math_floor (- x) else Math_floor x.

(** [floorTo] as the spec words it: flooring toward zero at the given
    decimal precision, after adding the epsilon. *)
Definition floorTo_toward_zero (value : float) (decimals : nat) : float :=
  if negb (Number_isFinite value) then value
  else
    let factor := pow10 decimals in
    toward_zero ((value + 1e-9) * factor) / factor.

End SpecReading.

(** Amounts of whole cents.  To go through a million of them, [Math.floor]
    is computed here on the machine representation of a Number between 1
    and 2^53: the 53 bits of its mantissa, shifted right by what the
    exponent leaves after the binary point. *)
Module WholeCents.

Import JS LimitRoute.
Import Uint63.
Local Open Scope float_scope.

(** The Number is finite, positive, normal and between 1 and 2^53. *)
Definition floor_guard (y : float) : bool :=
  negb (is_nan y) && negb (PrimFloat.is_zero y) && negb (is_infinity y) &&
  negb (get_sign y) &&
  let (m, se) := frshiftexp y in
  let mant := normfr_mantissa m in
  (4503599627370496 <=? mant)%uint63 && (mant <? 9007199254740992)%uint63 &&
  (2102 <=? se)%uint63 && (se <=? 2154)%uint63.

Definition floor_bits (y : float) : float :=
  let (m, se) := frshiftexp y in
  of_uint63 (normfr_mantissa m >> (2154 - se))%uint63.

(** [floorTo(k / 100, 2)] gives [k / 100] back. *)
Definition keeps_cents (k : int) : bool :=
  let x := of_uint63 k / 100 in
  let y := (x + 1e-9) * 100 in
  is_finite x && floor_guard y && Leibniz.eqb (floor_bits y / 100) x.

(** [keeps_cents] on the [len = 2^d] amounts from [lo] on. *)
Fixpoint all_keep_cents (d : nat) (lo len : int) : bool :=
  match d with
  | O => keeps_cents lo
  | S d' =>
      let h := (len >> 1)%uint63 in
      all_keep_cents d' lo h && all_keep_cents d' (lo + h)%uint63 h
  end.

End WholeCents.

Module Scripted.

Import JS Trading.
Local Open Scope float_scope.
Local Open Scope string_scope.

(** An exchange that answers every call the same way.  The world is the
    clock, in milliseconds, and only sleeping advances it. *)
Definition exchange (wallet : exc Signer) (apiKey : exc Creds)
    (posted : exc (option Response)) (order : exc (option Order))
    (trades : exc (option (list Trade))) : Exchange float :=
  {| Date_now := fun w => (w, w);
     setTimeout := fun ms w => w + ms;
     Wallet_new := fun _ => wallet;
     createOrDeriveApiKey := fun _ _ w => (apiKey, w);
     deriveApiKey := fun _ _ w => (apiKey, w);
     getTickSize := fun _ _ w => (Ok "0.01", w);
     getNegRisk := fun _ _ w => (Ok false, w);
     createAndPostOrder := fun _ _ _ _ _ w => (posted, w);
     createAndPostMarketOrder := fun _ _ _ _ _ w => (posted, w);
     getOrder := fun _ _ w => (order, w);
     getTrades := fun _ _ w => (trades, w);
     JSON_stringify := fun _ => "{}" |}.

Definition signer : Signer :=
  {| address := "0xA"; has__signTypedData := false; has_signTypedData := true |}.

Definition api_creds : Creds :=
  {| key := "k"; secret := "s"; passphrase := "p" |}.

Definition refused : thrown := ThrownError "refused" EmptyString.

Definition config_on : Config :=
  {| enabled := true; privateKey := "0x01"; funderAddress := EmptyString;
     signatureType := None; clobApi := "https://clob.example";
     useServerTime := false |}.

Definition config_no_key : Config :=
  {| enabled := true; privateKey := EmptyString; funderAddress := EmptyString;
     signatureType := None; clobApi := "https://clob.example";
     useServerTime := false |}.

Definition config_off : Config :=
  {| enabled := false; privateKey := "0x01"; funderAddress := EmptyString;
     signatureType := None; clobApi := "https://clob.example";
     useServerTime := false |}.

(** The state of a freshly loaded module, at time 0. *)
Definition fresh : St float :=
  Build_St 0 None false [].

Definition context : ClobContext :=
  {| client :=
       {| cl_host := "https://clob.example";
          cl_signer :=
            {| address := "0xA"; has__signTypedData := true;
               has_signTypedData := true |};
          cl_creds := Some api_creds; cl_signatureType := None;
          cl_funderAddress := "0xA"; cl_useServerTime := false |};
     ctx_address := "0xA"; ctx_funderAddress := "0xA"; creds := api_creds |}.

(** A module whose session is already there. *)
Definition ready : St float :=
  Build_St 0 (Some (Fulfilled context)) false [].

Definition limit_opts (returnError : bool) : LimitOpts :=
  {| lo_tokenId := "T"; lo_price := 0.5; lo_size := 10; lo_side := "BUY";
     lo_orderType := None; lo_tickSize := Some "0.01"; lo_negRisk := Some false;
     lo_postOnly := false; lo_returnError := returnError |}.

Definition market_opts (returnError : bool) : MarketOpts :=
  {| mo_tokenId := "T"; mo_amount := 10; mo_side := "BUY";
     mo_orderType := None; mo_price := Some 0.5; mo_tickSize := Some "0.01";
     mo_negRisk := Some false; mo_returnError := returnError |}.

(** An order the exchange reports as matched before any trade is attached. *)
Definition matched_order : Order :=
  {| o_status := Some "matched"; o_associate_trades := None;
     o_size_matched := None; o_price := None |}.

(** An order with one trade attached, and that trade. *)
Definition filled_order : Order :=
  {| o_status := Some "live"; o_associate_trades := Some ["t1"];
     o_size_matched := None; o_price := None |}.

Definition one_trade : Trade := {| t_size := 2; t_price := 0.4 |}.

Definition fill_opts (maxWaitMs : float) (preferTrades : bool) : FillOpts :=
  {| fo_maxWaitMs := Some maxWaitMs; fo_pollIntervalMs := None;
     fo_preferTrades := Some preferTrades |}.

End Scripted.
(* ================================================================== *)
(** ** src/trading/index.js: cancelling, balances, websocket credentials *)

Module TradingAccount.

Import JS Trading.
Local Open Scope float_scope.
Local Open Scope string_scope.
Local Open Scope js_scope.

Inductive AssetType : Type := COLLATERAL | CONDITIONAL.

(** What [getBalanceAllowance] answers: [None] for a nullish property, and
    otherwise the property under [Number(...)]. *)
Record BalanceAllowance : Type := {
  ba_balance : option float;
  ba_allowance : option float
}.

(** [{ balance, allowance, available }]. *)
Record Balance : Type := {
  bal_balance : float;
  bal_allowance : float;
  bal_available : float
}.

(** [{ apiKey, secret, passphrase }]. *)
Record WsAuth : Type := {
  ws_apiKey : string;
  ws_secret : string;
  ws_passphrase : string
}.

(** The two calls of the client outside the order path.  The answer of
    [getBalanceAllowance] is [None] when it is nullish. *)
Record Account (W : Type) : Type := {
  client_cancelOrder : ClobClient -> string -> W -> exc unit * W;
  client_getBalanceAllowance :
    ClobClient -> AssetType -> option string -> W ->
    exc (option BalanceAllowance) * W
}.
Arguments client_cancelOrder {W} _ _ _ _.
Arguments client_getBalanceAllowance {W} _ _ _ _ _.

(** An awaited call of the client that the trace does not record: it shows
    in the state of the world only. *)
Definition account_call {W A} (f : W -> exc A * W) : M W A :=
  fun s =>
    let (r, w) := f (world s) in
    let s' := Build_St w (clobContextPromise s) (warnedMissingKey s) (trace s) in
    match r with
    | Ok a => (Normal a, s')
    | Raise e => (Throw e, s')
    end.

(** The TypeError of reading a property of [undefined] or [null]; the text
    the engine gives it is not modelled. *)
Definition TypeError : thrown := ThrownError "TypeError" EmptyString.

Section WithAccount.

Context {W : Type} (X : Exchange W) (A : Account W).

Definition cancelOrder (config : Config) (orderId : string) : M W bool :=
  ctx <- getClobContext X config ;;
  match ctx with
  | None => ret false
  | Some ctx =>
      try_catch
        (account_call (client_cancelOrder A (client ctx) orderId) ;;;
         logger Info "Canceled order" ;;;
         ret true)
        (fun err => logger Warn "Failed to cancel order %s: %s" ;;; ret false)
  end.

(** [ctx ?? (await getClobContext())]. *)
Definition context_or_session (config : Config) (ctx : option ClobContext)
  : M W (option ClobContext) :=
  match ctx with
  | Some c => ret (Some c)
  | None => getClobContext X config
  end.

(** The lines both balance functions end with. *)
Definition balance_of (res : option BalanceAllowance) : M W (option Balance) :=
  match res with
  | None => throw TypeError
  | Some res =>
      let balance := match ba_balance res with Some v => v | None => 0 end in
      let allowance := match ba_allowance res with Some v => v | None => 0 end in
      let available := if Number_isFinite balance then balance else 0 in
      ret (Some {| bal_balance := balance; bal_allowance := allowance;
                   bal_available := available |})
  end.

Definition fetchCollateralBalance (config : Config) (ctx : option ClobContext)
  : M W (option Balance) :=
  clob <- context_or_session config ctx ;;
  match clob with
  | None => ret None
  | Some clob =>
      got <-
        try_catch
          (res <- account_call
                    (client_getBalanceAllowance A (client clob) COLLATERAL None) ;;
           ret (inr res))
          (fun err =>
             logger Error "Failed to fetch collateral balance:" ;;;
             ret (inl tt)) ;;
      match got with
      | inl _ => ret None
      | inr res => balance_of res
      end
  end.

Definition fetchConditionalBalance (config : Config) (tokenId : string)
    (ctx : option ClobContext) : M W (option Balance) :=
  clob <- context_or_session config ctx ;;
  match clob with
  | None => ret None
  | Some clob =>
      if is_empty tokenId then ret None
      else
        got <-
          try_catch
            (res <- account_call
                      (client_getBalanceAllowance A (client clob) CONDITIONAL
                                                  (Some tokenId)) ;;
             ret (inr res))
            (fun err =>
               logger Error "Failed to fetch conditional balance token=%s: %s" ;;;
               ret (inl tt)) ;;
        match got with
        | inl _ => ret None
        | inr res => balance_of res
        end
  end.

Definition getUserWsAuth (config : Config) (ctx : option ClobContext)
  : M W (option WsAuth) :=
  clob <- context_or_session config ctx ;;
  match clob with
  | None => ret None
  | Some clob =>
      ret (Some {| ws_apiKey := key (creds clob);
                   ws_secret := secret (creds clob);
                   ws_passphrase := passphrase (creds clob) |})
  end.

(** *** Observations on traces *)

(** The events that submit an order to the exchange. *)
Definition is_order_post (ev : event) : bool :=
  match ev with
  | EvCreateAndPostOrder _ _ | EvCreateAndPostMarketOrder _ _ => true
  | _ => false
  end.

Definition order_posts (tr : list event) : nat :=
  List.length (List.filter is_order_post tr).

(** The requests for credentials. *)
Definition is_credential_request (ev : event) : bool :=
  match ev with
  | EvCreateOrDeriveApiKey _ | EvDeriveApiKey _ => true
  | _ => false
  end.

Definition credential_requests (tr : list event) : nat :=
  List.length (List.filter is_credential_request tr).

(** A context is well formed when its client carries its credentials, its
    funding address and its signer's address, and the signer has the
    [_signTypedData] method whenever it has [signTypedData]. *)
Definition well_formed (config : Config) (ctx : ClobContext) : Prop :=
  cl_creds (client ctx) = Some (creds ctx) /\
  cl_funderAddress (client ctx) = ctx_funderAddress ctx /\
  ctx_address ctx = address (cl_signer (client ctx)) /\
  cl_host (client ctx) = clobApi config /\
  ctx_funderAddress ctx =
    (if is_empty (funderAddress config) then ctx_address ctx
     else String_trim (funderAddress config)) /\
  (has_signTypedData (cl_signer (client ctx)) = true ->
   has__signTypedData (cl_signer (client ctx)) = true).

(** What acquiring the session may add to the trace: log lines and
    requests for credentials. *)
Definition is_session_event (ev : event) : bool :=
  match ev with
  | EvLog _ _ | EvCreateOrDeriveApiKey _ | EvDeriveApiKey _ => true
  | _ => false
  end.

(** A result of an order function is well reported when it is a success
    with an order identifier and no error, or a failure with the empty
    identifier and an error; a failure is [null] exactly when no structured
    error was asked for. *)
Definition well_reported (returnError : bool) (r : option OrderResult) : Prop :=
  match r with
  | None => returnError = false
  | Some res =>
      (res_error res = None /\ truthy (res_orderId res) = true) \/
      (returnError = true /\ res_error res <> None /\
       res_orderId res = JStr EmptyString)
  end.

(** The only way a balance can end, whatever the client answers. *)
Definition balance_outcome (r : completion (option Balance)) : Prop :=
  match r with
  | Normal None => True
  | Normal (Some b) =>
      is_finite (bal_available b) = true /\
      (if is_finite (bal_balance b) then bal_available b = bal_balance b
       else bal_available b = 0%float)
  | Throw e => e = TypeError
  | OutOfFuel => False
  end.

(** The trade identifiers [fetchTradesForOrder] goes through. *)
Definition trade_ids_of (order : option Order) : list string :=
  match order with
  | Some o => match o_associate_trades o with Some l => l | None => [] end
  | None => []
  end.

(** The fill of a snapshot is the one computed from the trades it lists. *)
Definition fill_agrees_with_trades (snap : FillSnapshot) : Prop :=
  snap_filledSize snap = filledSize (computeFillFromTrades (snap_trades snap)) /\
  snap_avgPrice snap = avgPrice (computeFillFromTrades (snap_trades snap)).

(** The fill of a snapshot is read off the order: [size_matched], or 0 when
    that is absent or not finite, and [price], or null when that is absent,
    not finite or not positive. *)
Definition fill_from_order (order : Order) (snap : FillSnapshot) : Prop :=
  let sizeMatched :=
    match o_size_matched order with Some v => v | None => 0%float end in
  let price := match o_price order with Some v => v | None => 0%float end in
  snap_filledSize snap = (if is_finite sizeMatched then sizeMatched else 0%float) /\
  snap_avgPrice snap =
    (if is_finite price && (0 <? price)%float then Some price else None).

(** The status of a snapshot is the one of the order, or "unknown" for an
    order without one. *)
Definition status_from_order (order : Order) (snap : FillSnapshot) : Prop :=
  snap_status snap = o_status order \/
  (o_status order = None /\ snap_status snap = Some "unknown"%string).

(** The trade identifiers asked for, in the order of the trace. *)
Fixpoint trade_fetches (tr : list event) : list string :=
  match tr with
  | [] => []
  | EvGetTrades tradeId :: rest => tradeId :: trade_fetches rest
  | _ :: rest => trade_fetches rest
  end.

Definition is_order_fetch (ev : event) : bool :=
  match ev with
  | EvGetOrder _ => true
  | _ => false
  end.

Definition order_fetches (tr : list event) : nat :=
  List.length (List.filter is_order_fetch tr).

End WithAccount.

End TradingAccount.

(* ================================================================== *)
(** ** app/api/trade/utils.js: the other parsers *)

Module RequestParsingMore.

Import JS Trading RequestParsing.
Local Open Scope string_scope.

Section WithConversions.

Variable NumberToString : float -> string.

(** [parseBool(value, label)]. *)
Definition parseBool (value : jsval) (label : string) : string + bool :=
  match value with
  | JBool b => inr b
  | JStr s =>
      let v := toLowerCase (String_trim s) in
      if String.eqb v "true" then inr true
      else if String.eqb v "false" then inr false
      else inl (label ++ " must be true or false")
  | _ => inl (label ++ " must be true or false")
  end.

Definition allowed_tick_sizes : list string :=
  ["0.1"; "0.01"; "0.001"; "0.0001"].

(** [allowed.includes(v)]. *)
Definition includes (allowed : list string) (v : string) : bool :=
  List.existsb (String.eqb v) allowed.

(** [parseTickSize(value)]. *)
Definition parseTickSize (value : jsval) : string + string :=
  let v :=
    match value with
    | JUndefined | JNull => EmptyString
    | _ => String_trim (String_ NumberToString value)
    end in
  if is_empty v then inl "tickSize is required"
  else if negb (includes allowed_tick_sizes v) then
    inl ("tickSize must be one of " ++ String.concat ", " allowed_tick_sizes)
  else inr v.

(** [parseOrderType(value, fallback)]; [OrderType_values] is
    [Object.values(OrderType)] of the SDK. *)
Definition parseOrderType (OrderType_values : list string) (value : jsval)
    (fallback : option string) : string + option string :=
  if negb (truthy value) then inr fallback
  else
    let v := toUpperCase (String_ NumberToString value) in
    if negb (includes OrderType_values v) then
      inl ("orderType must be one of " ++ String.concat ", " OrderType_values)
    else inr (Some v).

End WithConversions.

(** A run of white space: white-space characters one after another. *)
Inductive blank : string -> Prop :=
| blank_empty : blank EmptyString
| blank_more (w r : string) : is_white w = true -> blank r -> blank (w ++ r).

(** The text begins, or ends, with a white-space character. *)
Definition starts_with_space (s : string) : Prop :=
  exists w r, is_white w = true /\ s = w ++ r.

Definition ends_with_space (s : string) : Prop :=
  exists w r, is_white w = true /\ s = r ++ w.

End RequestParsingMore.

(* ================================================================== *)
(** ** app/api/trade/limit/route.js: preflight and submission *)

Module LimitRouteSubmit.

Import JS Utils LimitRoute Trading TradingAccount RequestParsing.
Local Open Scope float_scope.
Local Open Scope string_scope.
Local Open Scope js_scope.

(** [sharesFromAmount(amount, price)]; [None] is [null]. *)
Definition sharesFromAmount (amount price : float) : option float :=
  let a := amount in
  let p := price in
  if negb (Number_isFinite a) || negb (Number_isFinite p) || (p <=? 0)%float
  then None
  else Some (a / p).

(** The object the market branch of the handler returns: the properties of
    [placed] when an order was placed, and those the branch sets itself
    ([JUndefined] or [None] for a property the object does not have). *)
Record SubmitResult : Type := {
  sr_orderId : jsval;
  sr_status : jsval;
  sr_error : option string;
  sr_requestedAmount : option float;
  sr_submittedAmount : option float;
  sr_requestedShares : option float;
  sr_submittedShares : option float;
  sr_available : option float;
  sr_availableAssetType : option string
}.

(** [{ error, status }]. *)
Definition balance_failure (message : string) : SubmitResult :=
  {| sr_orderId := JUndefined; sr_status := JNum 502; sr_error := Some message;
     sr_requestedAmount := None; sr_submittedAmount := None;
     sr_requestedShares := None; sr_submittedShares := None;
     sr_available := None; sr_availableAssetType := None |}.

(** [{ error, status: 409, requestedAmount, submittedAmount, available,
      availableAssetType }]. *)
Definition rejected (message : string) (requested submitted available : float)
    (assetType : string) : SubmitResult :=
  {| sr_orderId := JUndefined; sr_status := JNum 409; sr_error := Some message;
     sr_requestedAmount := Some requested; sr_submittedAmount := Some submitted;
     sr_requestedShares := None; sr_submittedShares := None;
     sr_available := Some available; sr_availableAssetType := Some assetType |}.

(** [{ ...placed, requestedAmount, submittedAmount, available,
      availableAssetType }]. *)
Definition placed_result (placed : option OrderResult)
    (requested submitted : float) (available : option float)
    (assetType : option string) : SubmitResult :=
  {| sr_orderId :=
       match placed with Some r => res_orderId r | None => JUndefined end;
     sr_status :=
       match placed with Some r => res_status r | None => JUndefined end;
     sr_error := match placed with Some r => res_error r | None => None end;
     sr_requestedAmount := Some requested; sr_submittedAmount := Some submitted;
     sr_requestedShares := None; sr_submittedShares := None;
     sr_available := available; sr_availableAssetType := assetType |}.

Definition size_message : string := "order size must be >= 5 shares".
Definition notional_message : string := "order notional must be >= $1".
Definition buy_message : string :=
  "invalid amount for a marketable BUY order (min size: $1) or insufficient collateral".

Section WithAccount.

Context {W : Type} (X : Exchange W) (A : Account W).

(** The options [placeMarketOrder] is called with. *)
Definition market_opts (tokenId side : string) (submitAmount price : float)
    (orderType tickSize : option string) (negRisk : option bool) : MarketOpts :=
  {| mo_tokenId := tokenId; mo_amount := submitAmount; mo_side := side;
     mo_orderType := orderType; mo_price := Some price;
     mo_tickSize := tickSize; mo_negRisk := negRisk; mo_returnError := true |}.

(** The last lines of the market branch (238 to 254). *)
Definition place_market (config : Config) (tokenId side : string)
    (amount submitAmount price : float) (orderType tickSize : option string)
    (negRisk : option bool) (available : option float)
    (assetType : option string) : M W SubmitResult :=
  placed <- placeMarketOrder X config
              (market_opts tokenId side submitAmount price orderType tickSize
                           negRisk) ;;
  ret (placed_result placed amount submitAmount available assetType).

(** The market branch of the handler (lines 159 to 255). *)
Definition market_order (config : Config) (tokenId side : string)
    (amount price : float) (orderType tickSize : option string)
    (negRisk : option bool) : M W SubmitResult :=
  if String.eqb side "SELL" then
    conditional <- fetchConditionalBalance X A config tokenId None ;;
    match conditional with
    | None => ret (balance_failure "failed to fetch conditional balance")
    | Some conditional =>
        let available := bal_available conditional in
        let submitAmount :=
          floorTo (adjustSellAmountToAvoidDust amount available price) 2 in
        if negb (Number_isFinite submitAmount) || (submitAmount <=? 0)%float then
          ret (rejected "not enough balance / allowance" amount submitAmount
                        available "CONDITIONAL")
        else if isBelowMin submitAmount MIN_ORDER_SHARES then
          ret (rejected size_message amount submitAmount available "CONDITIONAL")
        else
          let sellNotional := submitAmount * price in
          if isBelowMin sellNotional MIN_ORDER_NOTIONAL_USD then
            ret (rejected notional_message amount submitAmount available
                          "CONDITIONAL")
          else
            place_market config tokenId side amount submitAmount price
                         orderType tickSize negRisk (Some available)
                         (Some "CONDITIONAL")
    end
  else if String.eqb side "BUY" then
    collateral <- fetchCollateralBalance X A config None ;;
    match collateral with
    | None => ret (balance_failure "failed to fetch collateral balance")
    | Some collateral =>
        let available := bal_available collateral in
        let submitAmount := floorTo (Math_min amount available) 2 in
        if isBelowMin submitAmount MIN_ORDER_NOTIONAL_USD then
          ret (rejected buy_message amount submitAmount available "COLLATERAL")
        else
          let submitShares := submitAmount / price in
          if isBelowMin submitShares MIN_ORDER_SHARES then
            ret {| sr_orderId := JUndefined; sr_status := JNum 409;
                   sr_error := Some size_message;
                   sr_requestedAmount := Some amount;
                   sr_submittedAmount := Some submitAmount;
                   sr_requestedShares := Some (amount / price);
                   sr_submittedShares := Some submitShares;
                   sr_available := Some available;
                   sr_availableAssetType := Some "COLLATERAL" |}
          else
            place_market config tokenId side amount submitAmount price
                         orderType tickSize negRisk (Some available)
                         (Some "COLLATERAL")
    end
  else
    place_market config tokenId side amount amount price orderType tickSize
                 negRisk None None.

(** The options [placeLimitOrder] is called with. *)
Definition limit_opts (tokenId side : string) (size price : float)
    (orderType tickSize : option string) (negRisk : option bool)
    (postOnly : bool) : LimitOpts :=
  {| lo_tokenId := tokenId; lo_price := price; lo_size := size;
     lo_side := side; lo_orderType := orderType; lo_tickSize := tickSize;
     lo_negRisk := negRisk; lo_postOnly := postOnly; lo_returnError := true |}.

(** The limit branch of the handler (lines 142 to 156 and 256 to 266):
    [inl] is the response the handler returns at once. *)
Definition limit_order (config : Config) (tokenId side : string)
    (size price : float) (orderType tickSize : option string)
    (negRisk : option bool) (postOnly : bool)
  : M W (HttpResponse + option OrderResult) :=
  if isBelowMin size MIN_ORDER_SHARES then
    ret (inl (jsonError size_message 409
                (Some (JsonObj [("requestedSize", JsonNum size)]))))
  else
    let limitNotional := size * price in
    if isBelowMin limitNotional MIN_ORDER_NOTIONAL_USD then
      ret (inl (jsonError notional_message 409
                  (Some (JsonObj [("requestedSize", JsonNum size);
                                  ("price", JsonNum price);
                                  ("notional", JsonNum limitNotional)]))))
    else
      placed <- placeLimitOrder X config
                  (limit_opts tokenId side size price orderType tickSize
                              negRisk postOnly) ;;
      ret (inr placed).

End WithAccount.

End LimitRouteSubmit.

(* ================================================================== *)
(** ** The order route and the status route (GET handlers) *)

Module OtherRoutes.

Import JS Trading TradingAccount RequestParsing.
Local Open Scope string_scope.
Local Open Scope js_scope.

Section WithExchange.

Context {W : Type} (X : Exchange W).

(** The JSON form of an order, as [Response.json] serializes it. *)
Variable Order_json : Order -> json.

(** [GET(req)] of the order route; [orderId] is
    [url.searchParams.get("orderId")], [None] when the parameter is absent. *)
Definition GET_order (config : Config) (orderId : option string)
  : M W HttpResponse :=
  match ensureTradingEnabled config with
  | Some guard => ret guard
  | None =>
      let param := match orderId with Some v => JStr v | None => JNull end in
      match parseString param "orderId" with
      | inl error => ret (jsonError error 400 None)
      | inr orderId =>
          order <- fetchOrder X config orderId ;;
          match order with
          | None => ret (jsonError "Order not found" 404 None)
          | Some order => ret (jsonResponse (Order_json order) 200)
          end
      end
  end.

(** [GET()] of the status route. *)
Definition GET_status (config : Config) : M W HttpResponse :=
  match ensureTradingEnabled config with
  | Some guard => ret guard
  | None =>
      ctx <- getClobContext X config ;;
      match ctx with
      | None => ret (jsonError "Failed to initialize trading context" 502 None)
      | Some ctx =>
          ret (jsonResponse
                 (JsonObj [("ok", JsonBool true);
                           ("address", JsonStr (ctx_address ctx));
                           ("funderAddress", JsonStr (ctx_funderAddress ctx))])
                 200)
      end
  end.

End WithExchange.

End OtherRoutes.

(* ================================================================== *)
(** ** A scripted account *)

Module ScriptedAccount.

Import JS Trading TradingAccount.
Local Open Scope float_scope.
Local Open Scope string_scope.

(** An account that answers every call the same way. *)
Definition account (canceled : exc unit)
    (answer : exc (option BalanceAllowance)) : Account float :=
  {| client_cancelOrder := fun _ _ w => (canceled, w);
     client_getBalanceAllowance := fun _ _ _ w => (answer, w) |}.

Definition three_shares : BalanceAllowance :=
  {| ba_balance := Some 3; ba_allowance := Some 1000 |}.

Definition hundred_shares : BalanceAllowance :=
  {| ba_balance := Some 100; ba_allowance := Some 1000 |}.

(** The exchange [X] with a metadata service that refuses every call. *)
Definition without_metadata (X : Exchange float) : Exchange float :=
  {| Date_now := Date_now X;
     setTimeout := setTimeout X;
     Wallet_new := Wallet_new X;
     createOrDeriveApiKey := createOrDeriveApiKey X;
     deriveApiKey := deriveApiKey X;
     getTickSize := fun _ _ w => (Raise Scripted.refused, w);
     getNegRisk := fun _ _ w => (Raise Scripted.refused, w);
     createAndPostOrder := createAndPostOrder X;
     createAndPostMarketOrder := createAndPostMarketOrder X;
     getOrder := getOrder X;
     getTrades := getTrades X;
     JSON_stringify := JSON_stringify X |}.

(** Limit options that leave the metadata to be fetched. *)
Definition bare_limit_opts : LimitOpts :=
  {| lo_tokenId := "T"; lo_price := 0.5; lo_size := 10; lo_side := "BUY";
     lo_orderType := None; lo_tickSize := None; lo_negRisk := None;
     lo_postOnly := false; lo_returnError := true |}.

(** An accepted order. *)
Definition accepted : Response :=
  {| r_orderID := JStr "0xabc"; r_orderId := JUndefined;
     r_status := JStr "matched"; r_others := [] |}.


End ScriptedAccount.

(* ================================================================== *)
(** * Properties *)

(** ** The model of [Math.floor] *)

Module JSFacts.

Import JS.

(** The integer [Math_floor] takes for [(-1)^s * m * 2^e] is its floor:
    the value itself when [e] is not negative, and otherwise the integer [z]
    with [z <= n / 2^(-e) < z + 1], stated without division. *)
Lemma SF_floor_Z_is_floor (s : bool) (m : positive) (e : Z) :
  let n := if s then Z.neg m else Z.pos m in
  let z := SF_floor_Z s m e in
  ((0 <= e)%Z -> z = (n * 2 ^ e)%Z) /\
  ((e < 0)%Z -> (2 ^ (- e) * z <= n < 2 ^ (- e) * (z + 1))%Z).
Proof.
  intros n z. unfold z, SF_floor_Z. fold n. split; intros He.
  - apply Z.leb_le in He. rewrite He. reflexivity.
  - assert (Hneg : (0 <=? e)%Z = false) by (apply Z.leb_gt; exact He).
    rewrite Hneg.
    assert (Hpos : (0 < 2 ^ (- e))%Z) by (apply Z.pow_pos_nonneg; lia).
    split.
    + apply Z.mul_div_le. exact Hpos.
    + apply Z.mul_succ_div_gt. exact Hpos.
Qed.

Example Math_floor_examples :
  (Math_floor 2.5 = 2 /\ Math_floor (-2.5) = -3 /\ Math_floor 7 = 7 /\
   Math_floor 0.5 = 0 /\ Math_floor (-0.5) = -1 /\
   Math_floor infinity = infinity /\ Math_floor nan = nan)%float.
Proof. repeat split; vm_compute; reflexivity. Qed.

End JSFacts.

(** ** Amounts of whole cents *)

Module WholeCentsFacts.

Import JS LimitRoute WholeCents.
Import Uint63.
Local Open Scope float_scope.

Lemma of_Z_to_Z (n : int) : JS.of_Z (Uint63.to_Z n) = of_uint63 n.
Proof.
  unfold JS.of_Z. rewrite <- of_uint63_spec. apply SF2Prim_Prim2SF.
Qed.

Lemma digits2_pos_size (p : positive) : digits2_pos p = Pos.size p.
Proof. induction p; simpl; congruence. Qed.

(** A mantissa of 53 bits. *)
Lemma Zdigits2_53 (m : Z) :
  (4503599627370496 <= m < 9007199254740992)%Z -> Zdigits2 m = 53%Z.
Proof.
  intros Hm. destruct m as [|p|p]; try lia.
  simpl. rewrite digits2_pos_size.
  pose proof (Pos.size_gt p) as Hgt. pose proof (Pos.size_le p) as Hle.
  apply Pos2Z.pos_lt_pos in Hgt. apply Pos2Z.pos_le_pos in Hle.
  rewrite Pos2Z.inj_pow in Hgt, Hle. rewrite Pos2Z.inj_xO in Hle.
  assert (Hn : (0 < Z.pos (Pos.size p))%Z) by lia.
  generalize dependent (Z.pos (Pos.size p)). intros n Hgt Hle Hn.
  change (Z.pos 2) with 2%Z in *. change (2 * 1)%Z with 2%Z in Hle.
  destruct (Z_lt_le_dec n 53) as [Hlt|Hge].
  - assert (H : (2 ^ n <= 2 ^ 52)%Z) by (apply Z.pow_le_mono_r; lia).
    change (2 ^ 52)%Z with 4503599627370496%Z in H.
    generalize dependent (2 ^ n)%Z. intros. lia.
  - destruct (Z_le_lt_eq_dec _ _ Hge) as [Hgt'|Heq]; [|congruence].
    assert (H : (2 ^ 54 <= 2 ^ n)%Z) by (apply Z.pow_le_mono_r; lia).
    change (2 ^ 54)%Z with 18014398509481984%Z in H.
    generalize dependent (2 ^ n)%Z. intros. lia.
Qed.

(** On the Numbers the guard lets through, the bits give [Math.floor]. *)
Lemma floor_bits_ok (y : float) :
  floor_guard y = true -> Math_floor y = floor_bits y.
Proof.
  unfold floor_guard, floor_bits, Math_floor, Prim2SF, Z.frexp.
  destruct (is_nan y); [discriminate|].
  destruct (PrimFloat.is_zero y); [discriminate|].
  destruct (is_infinity y); [discriminate|].
  destruct (get_sign y); [discriminate|]. simpl negb. simpl andb.
  destruct (frshiftexp y) as [m se].
  intros H.
  rewrite !andb_true_iff in H. destruct H as (((H1 & H2) & H3) & H4).
  apply Uint63.leb_spec in H1, H3, H4. apply Uint63.ltb_spec in H2.
  change (to_Z 4503599627370496) with 4503599627370496%Z in *.
  change (to_Z 9007199254740992) with 9007199254740992%Z in *.
  change (to_Z 2102) with 2102%Z in *.
  change (to_Z 2154) with 2154%Z in *.
  set (M := to_Z (normfr_mantissa m)) in *.
  set (E := to_Z se) in *.
  unfold shr_fexp. rewrite (Zdigits2_53 M) by lia.
  unfold fexp, SpecFloat.emin, shift, prec, emax.
  replace (Z.max (53 + (E - 2101 - 53) - 53) (3 - 1024 - 53) - (E - 2101 - 53))%Z
    with 0%Z by lia.
  unfold shr, shr_record_of_loc. cbn [shr_m].
  destruct M as [|p|p] eqn:HM; try lia.
  rewrite <- of_Z_to_Z. f_equal.
  rewrite Uint63.lsr_spec, Uint63.sub_spec.
  change (to_Z 2154) with 2154%Z. fold E. fold M. rewrite HM.
  assert (Hw : wB = 9223372036854775808%Z) by reflexivity.
  rewrite Hw, Z.mod_small by lia.
  unfold SF_floor_Z.
  destruct (Z.leb_spec 0 (E - 2101 - 53)) as [Hz|Hz].
  - assert (HE : E = 2154%Z) by lia. rewrite HE.
    change (2154 - 2101 - 53)%Z with 0%Z. change (2154 - 2154)%Z with 0%Z.
    rewrite Z.pow_0_r, Z.mul_1_r, Z.div_1_r. reflexivity.
  - f_equal. f_equal. lia.
Qed.

Lemma pow10_2 : pow10 2 = 100.
Proof. vm_compute. reflexivity. Qed.

Lemma keeps_cents_ok (k : int) :
  keeps_cents k = true ->
  floorTo (JS.of_Z (to_Z k) / 100) 2 = JS.of_Z (to_Z k) / 100.
Proof.
  unfold keeps_cents, floorTo, Number_isFinite. rewrite pow10_2, of_Z_to_Z.
  intros H. apply andb_true_iff in H. destruct H as [H He].
  apply andb_true_iff in H. destruct H as [Hf Hg].
  rewrite Hf. simpl. rewrite (floor_bits_ok _ Hg).
  apply Leibniz.eqb_spec in He. exact He.
Qed.

Lemma all_keep_cents_ok (d : nat) :
  forall lo len : int,
    to_Z len = (2 ^ Z.of_nat d)%Z ->
    (to_Z lo + 2 ^ Z.of_nat d < wB)%Z ->
    all_keep_cents d lo len = true ->
    forall z, (to_Z lo <= z < to_Z lo + 2 ^ Z.of_nat d)%Z ->
              floorTo (JS.of_Z z / 100) 2 = JS.of_Z z / 100.
Proof.
  induction d as [|d IH]; intros lo len Hlen Hb H z Hz.
  - simpl in *. assert (z = to_Z lo) by lia. subst.
    apply keeps_cents_ok. exact H.
  - rewrite Nat2Z.inj_succ, Z.pow_succ_r in * by lia.
    cbn [all_keep_cents] in H. apply andb_true_iff in H.
    destruct H as [Ha Hc].
    assert (Hh : to_Z (len >> 1) = (2 ^ Z.of_nat d)%Z).
    { rewrite Uint63.lsr_spec, Hlen. change (to_Z 1) with 1%Z.
      rewrite Z.pow_1_r. rewrite Z.mul_comm, Z.div_mul by lia. reflexivity. }
    assert (Hp : (0 < 2 ^ Z.of_nat d)%Z) by (apply Z.pow_pos_nonneg; lia).
    pose proof (Uint63.to_Z_bounded lo) as Hlo.
    destruct (Z_lt_ge_dec z (to_Z lo + 2 ^ Z.of_nat d)).
    + apply (IH lo _ Hh); [lia|exact Ha|lia].
    + assert (Hadd : to_Z (lo + (len >> 1)) = (to_Z lo + 2 ^ Z.of_nat d)%Z).
      { rewrite Uint63.add_spec, Hh. apply Z.mod_small. lia. }
      apply (IH (lo + (len >> 1))%uint63 _ Hh); rewrite ?Hadd;
        [lia|exact Hc|lia].
Qed.

(** The amounts from 0.01 to 10485.76, by computation. *)
Lemma cents_checked : all_keep_cents 20 1 1048576 = true.
Proof. vm_cast_no_check (eq_refl true). Qed.

(** Every amount of whole cents up to 10000.00 comes back from
    [floorTo(x, 2)] as it went in. *)
Lemma whole_cents_kept (k : Z) :
  (0 <= k <= 1000000)%Z -> floorTo (JS.of_Z k / 100) 2 = JS.of_Z k / 100.
Proof.
  intros Hk. destruct (Z.eq_dec k 0) as [Hz|Hnz].
  - subst k. vm_compute. reflexivity.
  - apply (all_keep_cents_ok 20 1%uint63 1048576%uint63);
      [reflexivity | reflexivity | exact cents_checked |].
    change (to_Z 1) with 1%Z. change (2 ^ Z.of_nat 20)%Z with 1048576%Z. lia.
Qed.

(** [10 ** d] is exactly ten to the [d] for the [d] up to 22. *)
Lemma pow10_exact (d : nat) :
  (d <= 22)%nat ->
  exists m e,
    Prim2SF (pow10 d) = S754_finite false m e /\
    (Z.pos m * 2 ^ (e + 52) = 10 ^ Z.of_nat d * 2 ^ 52)%Z.
Proof.
  intros Hd.
  do 23 (destruct d as [|d];
         [eexists _, _; split; vm_compute; reflexivity|]).
  lia.
Qed.

End WholeCentsFacts.

(** ** The numeric guards of the limit route *)

Module LimitRouteFacts.

Import JS Utils LimitRoute SpecReading.
Local Open Scope float_scope.

(** [isBelowMin] spelled out: anything non-finite counts as below the
    minimum, and a finite value is below a finite minimum when it is short
    of it by more than the epsilon. *)
Lemma isBelowMin_unfold (value min : float) :
  isBelowMin value min =
  if is_finite value && is_finite min then value + 1e-9 <? min else true.
Proof.
  unfold isBelowMin, isBelowMin_eps, Number_isFinite, NUMERIC_EPSILON.
  destruct (is_finite value), (is_finite min); reflexivity.
Qed.

(** C1, as stated, fails: with 5.0000000001 requested of 10 available at
    price 0.5 the leftover 4.9999999999 is strictly positive and smaller than
    the minimum of 5 shares, yet the clamped request is returned, not the
    whole balance: the leftover is within 1e-9 of the minimum. *)
Lemma adjustSell_leftover_within_epsilon :
  is_finite 5.0000000001 = true /\ is_finite 10 = true /\
  is_finite 0.5 = true /\
  minSellSharesAtPrice 0.5 = 5 /\
  Math_min 5.0000000001 10 = 5.0000000001 /\
  (0 <? 10 - Math_min 5.0000000001 10) = true /\
  (10 - Math_min 5.0000000001 10 <? minSellSharesAtPrice 0.5) = true /\
  adjustSellAmountToAvoidDust 5.0000000001 10 0.5 = 5.0000000001 /\
  (adjustSellAmountToAvoidDust 5.0000000001 10 0.5 =? 10) = false.
Proof. repeat split; vm_compute; reflexivity. Qed.

(** C1, amended: for finite [requested] and [available] the request is
    clamped to [Math.min(requested, available)]; when the leftover
    [available - clamped] is strictly positive and below
    [minSellSharesAtPrice(price)] in the sense of [isBelowMin] (short of it
    by more than 1e-9, or one of the two not finite) the whole balance is
    returned, otherwise the clamped amount.  [minSellSharesAtPrice(price)] is
    [max(5, 1 / price)], and 5 when [price] is not finite or not positive.
    [adjustSellAmountToAvoidDust(8, 10, 0.5) = 10] and
    [adjustSellAmountToAvoidDust(4, 10, 0.5) = 4]. *)
Theorem adjustSellAmountToAvoidDust_spec (requested available price : float) :
  is_finite requested = true ->
  is_finite available = true ->
  let clamped := Math_min requested available in
  let leftover := available - clamped in
  let minSell := minSellSharesAtPrice price in
  minSell =
    (if negb (is_finite price) || (price <=? 0) then 5
     else Math_max 5 (1 / price)) /\
  ((0 <? leftover) = true ->
   (is_finite leftover && is_finite minSell = false \/
    (leftover + 1e-9 <? minSell) = true) ->
   adjustSellAmountToAvoidDust requested available price = available) /\
  ((0 <? leftover) = false \/
   (is_finite leftover && is_finite minSell = true /\
    (leftover + 1e-9 <? minSell) = false) ->
   adjustSellAmountToAvoidDust requested available price = clamped) /\
  adjustSellAmountToAvoidDust 8 10 0.5 = 10 /\
  adjustSellAmountToAvoidDust 4 10 0.5 = 4.
Proof.
  intros Hr Ha clamped leftover minSell.
  split; [reflexivity|].
  assert (Hadj : adjustSellAmountToAvoidDust requested available price =
                 if (0 <? leftover) && isBelowMin leftover minSell
                 then available else clamped).
  { unfold adjustSellAmountToAvoidDust, Number_isFinite, gtb.
    rewrite Hr, Ha. reflexivity. }
  rewrite Hadj, isBelowMin_unfold.
  split; [|split; [|split; vm_compute; reflexivity]].
  - intros Hpos [Hfin | Hlt]; rewrite Hpos; simpl.
    + rewrite Hfin. reflexivity.
    + rewrite Hlt. destruct (is_finite leftover && is_finite minSell); reflexivity.
  - intros [Hpos | [Hfin Hlt]].
    + rewrite Hpos. reflexivity.
    + rewrite Hfin, Hlt, andb_false_r. reflexivity.
Qed.

Lemma adjustSellAmountToAvoidDust_spec_witness :
  is_finite 8 = true /\ is_finite 10 = true /\
  (0 <? 10 - Math_min 8 10) = true /\
  (10 - Math_min 8 10 + 1e-9 <? minSellSharesAtPrice 0.5) = true /\
  adjustSellAmountToAvoidDust 8 10 0.5 = 10.
Proof.
  do 4 (split; [vm_compute; reflexivity|]).
  destruct (adjustSellAmountToAvoidDust_spec 8 10 0.5 eq_refl eq_refl)
    as (_ & Hall & _).
  apply Hall; [|right]; vm_compute; reflexivity.
Defined.

(** C8, as stated, fails twice.  For a negative value the flooring is
    away from zero: [floorTo(-1.5, 0)] is -2, where flooring toward zero
    gives -1.  And the epsilon does not always keep a value on a decimal
    boundary from being floored below it: 16777216.06 is the Number nearest
    to 1677721606 / 100, adding 1e-9 to it changes nothing, and
    [floorTo(16777216.06, 2)] is 16777216.05. *)
Lemma floorTo_spec_fails :
  is_finite (-1.5) = true /\
  floorTo (-1.5) 0 = -2 /\
  floorTo_toward_zero (-1.5) 0 = -1 /\
  is_finite 16777216.06 = true /\
  of_Z 1677721606 / 100 = 16777216.06 /\
  16777216.06 + 1e-9 = 16777216.06 /\
  floorTo 16777216.06 2 = 16777216.05 /\
  (16777216.05 <? 16777216.06) = true.
Proof. repeat split; vm_compute; reflexivity. Qed.

(** C8, amended: for a finite value and a decimal count from 0 to 22, for
    which [10 ** decimals] is exactly ten to the [decimals],
    [floorTo(value, decimals)] is
    [Math.floor((value + 1e-9) * 10^decimals) / 10^decimals], and
    [Math.floor] gives the integer [z] with [z <= scaled < z + 1] for the
    scaled value: the flooring is toward minus infinity, which is toward
    zero whenever the scaled value is not negative.  The epsilon keeps a
    value on a decimal boundary from being floored below it as long as
    rounding does not absorb it: every amount of whole cents from 0.00 to
    10000.00 comes back from [floorTo(x, 2)] as it went in; so
    [floorTo(1.15, 2) = 1.15] although [1.15 * 100] is just below 115, and
    [floorTo(1.0000000001, 2) = 1], [floorTo(1.229, 2) = 1.22]. *)
Theorem floorTo_spec (value : float) (decimals : nat) :
  is_finite value = true ->
  (decimals <= 22)%nat ->
  let factor := pow10 decimals in
  let scaled := (value + 1e-9) * factor in
  (exists m e,
      Prim2SF factor = S754_finite false m e /\
      (Z.pos m * 2 ^ (e + 52) = 10 ^ Z.of_nat decimals * 2 ^ 52)%Z) /\
  floorTo value decimals = Math_floor scaled / factor /\
  (forall s m e,
      Prim2SF scaled = S754_finite s m e ->
      let n := if s then Z.neg m else Z.pos m in
      exists z,
        Math_floor scaled = of_Z z /\
        ((0 <= e)%Z -> z = (n * 2 ^ e)%Z) /\
        ((e < 0)%Z -> (2 ^ (- e) * z <= n < 2 ^ (- e) * (z + 1))%Z)) /\
  ((scaled <? 0) = false ->
   floorTo value decimals = floorTo_toward_zero value decimals) /\
  (forall k, (0 <= k <= 1000000)%Z ->
             floorTo (of_Z k / 100) 2 = of_Z k / 100) /\
  floorTo 1.0000000001 2 = 1 /\
  floorTo 1.229 2 = 1.22 /\
  floorTo 1.15 2 = 1.15 /\
  Math_floor (1.15 * pow10 2) / pow10 2 = 1.14.
Proof.
  intros Hfin Hdec factor scaled.
  split; [exact (WholeCentsFacts.pow10_exact decimals Hdec)|].
  split.
  { unfold floorTo, Number_isFinite. rewrite Hfin. reflexivity. }
  split.
  { intros s m e Hsf n. exists (SF_floor_Z s m e). split.
    - unfold Math_floor. rewrite Hsf. reflexivity.
    - exact (JSFacts.SF_floor_Z_is_floor s m e). }
  split.
  { intros Hneg.
    unfold floorTo, floorTo_toward_zero, toward_zero, Number_isFinite.
    rewrite Hfin. simpl. fold factor. fold scaled. rewrite Hneg.
    reflexivity. }
  split; [exact WholeCentsFacts.whole_cents_kept|].
  repeat split; vm_compute; reflexivity.
Qed.

Lemma floorTo_spec_witness :
  is_finite 1.229 = true /\
  (2 <= 22)%nat /\
  ((1.229 + 1e-9) * pow10 2 <? 0) = false /\
  floorTo 1.229 2 = Math_floor ((1.229 + 1e-9) * pow10 2) / pow10 2 /\
  floorTo 1.229 2 = floorTo_toward_zero 1.229 2 /\
  floorTo (of_Z 115 / 100) 2 = of_Z 115 / 100.
Proof.
  assert (Hdec : (2 <= 22)%nat) by (repeat constructor).
  split; [vm_compute; reflexivity|].
  split; [exact Hdec|].
  split; [vm_compute; reflexivity|].
  destruct (floorTo_spec 1.229 2 eq_refl Hdec) as (_ & H1 & _ & H2 & H3 & _).
  split; [exact H1|].
  split; [apply H2; vm_compute; reflexivity|].
  apply H3. split; [discriminate | discriminate].
Defined.

End LimitRouteFacts.

(** ** The price band of the handler *)

Module PriceBandFacts.

Import JS Utils LimitRoute Trading RequestParsing LimitRoutePOST.
Import LimitRouteFacts.
Local Open Scope float_scope.

Section WithExchange.

Context {W : Type}.
Variable StringToNumber : string -> float.
Variable NumberToString : float -> string.
Variable POST_rest : Parsed -> M W HttpResponse.

(** A price that [parseNumber] accepts is finite. *)
Lemma parseNumber_finite value label min allowZero num :
  parseNumber StringToNumber NumberToString value label min allowZero = inr num ->
  is_finite num = true.
Proof.
  unfold parseNumber, Number_isFinite.
  destruct (is_finite (Number StringToNumber value)) eqn:Hfin; simpl.
  - destruct (if allowZero then _ else _); intros H; inversion H; subst.
    exact Hfin.
  - discriminate.
Qed.

(** C6: for a market request that has passed the earlier checks of the
    handler, the price is out of range exactly when [price + 1e-9 < 0.01] or
    [price > 0.99 + 1e-9]; an out-of-range price is answered with the 409
    validation error while the state (the world, the session and the trace
    of exchange calls) is untouched, and an in-range price goes on to the
    rest of the handler.  0.005 and 0.995 are out of range, 0.5 is in. *)
Theorem market_price_band (config : Config) (body : Body)
    (tokenId side : string) (price : float) (s : St W) :
  ensureTradingEnabled config = None ->
  parseString (b_tokenId body) "tokenId" = inr tokenId ->
  parseSide NumberToString (b_side body) = inr side ->
  parseNumber StringToNumber NumberToString (b_price body) "price" 0 false
    = inr price ->
  useMarket_of NumberToString body = true ->
  isOutOfTradablePriceRange price =
    (price + 1e-9 <? 0.01) || (0.99 + 1e-9 <? price) /\
  (isOutOfTradablePriceRange price = true ->
   POST StringToNumber NumberToString POST_rest config (Some body) s =
     (Normal (price_band_error price), s) /\
   http_status (price_band_error price) = 409%Z) /\
  (isOutOfTradablePriceRange price = false ->
   POST StringToNumber NumberToString POST_rest config (Some body) s =
     POST_rest {| p_tokenId := tokenId; p_side := side; p_price := price;
                  p_useMarket := true |} s) /\
  isOutOfTradablePriceRange 0.005 = true /\
  isOutOfTradablePriceRange 0.5 = false /\
  isOutOfTradablePriceRange 0.995 = true.
Proof.
  intros Hguard Htoken Hside Hprice Hmarket.
  pose proof (parseNumber_finite _ _ _ _ _ Hprice) as Hfin.
  split; [|split; [|split; [|repeat split; vm_compute; reflexivity]]].
  - unfold isOutOfTradablePriceRange, gtb.
    rewrite isBelowMin_unfold, Hfin. reflexivity.
  - intros Hout. split; [|reflexivity].
    unfold POST. rewrite Hguard, Htoken, Hside, Hprice, Hmarket, Hout.
    reflexivity.
  - intros Hin.
    unfold POST. rewrite Hguard, Htoken, Hside, Hprice, Hmarket, Hin.
    reflexivity.
Qed.

End WithExchange.

(** A market request at price 0.005 against the scripted exchange. *)
Lemma market_price_band_witness :
  let body := {| b_tokenId := JStr "T"; b_side := JStr "buy";
                 b_price := JNum 0.005; b_market := JBool true;
                 b_orderKind := JUndefined |} in
  let rest := fun _ : Parsed => ret (jsonResponse JsonNull 200) in
  POST (fun _ => nan) (fun _ => "0"%string) rest Scripted.config_on
       (Some body) Scripted.fresh
  = (Normal (price_band_error 0.005), Scripted.fresh).
Proof.
  intros body rest.
  destruct (market_price_band (fun _ => nan) (fun _ => "0"%string) rest
              Scripted.config_on body "T"%string "BUY"%string 0.005
              Scripted.fresh eq_refl eq_refl eq_refl eq_refl eq_refl)
    as (_ & Hout & _).
  apply Hout. vm_compute; reflexivity.
Defined.

End PriceBandFacts.

(** ** The trading module *)

Module TradingFacts.

Import JS Trading.
Local Open Scope float_scope.

(** Running a piece of monadic code on a state. *)
Ltac run_monad :=
  unfold bind, ret, throw, try_catch, async_call, await, logger, emit,
    get_warnedMissingKey, set_warnedMissingKey, get_clobContextPromise,
    set_clobContextPromise, world_read, client_call, lift_exc, out_of_fuel;
  simpl.

(** *** Fills computed from trades *)

Lemma computeFill_loop_sums (trades : list Trade) (filled notional : float) :
  computeFill_loop trades filled notional =
  (fold_left (fun acc trade => acc + t_size trade)
             (filter is_included trades) filled,
   fold_left (fun acc trade => acc + t_size trade * t_price trade)
             (filter is_included trades) notional).
Proof.
  revert filled notional.
  induction trades as [|trade rest IH]; intros filled notional; simpl.
  - reflexivity.
  - assert (Hinc : is_included trade =
                   Number_isFinite (t_size trade) &&
                   Number_isFinite (t_price trade)) by reflexivity.
    rewrite Hinc.
    destruct (Number_isFinite (t_size trade)),
             (Number_isFinite (t_price trade)); simpl; apply IH.
Qed.

(** A Number equal to zero is not strictly positive. *)
Lemma zero_not_positive (x : float) : (x =? 0) = true -> (0 <? x) = false.
Proof.
  rewrite eqb_spec, ltb_spec.
  change (Prim2SF 0) with (S754_zero false).
  destruct (Prim2SF x) as [sgn | sgn | | sgn m e]; simpl;
    try discriminate; try reflexivity;
    destruct sgn; discriminate.
Qed.

(** C7, as stated, fails twice.  A trade of negative size gives a null
    average price with a filled size that is not zero; and on the two trades
    of the example the average price is the binary64 quotient
    0.5199999999999999, which is not the Number 0.52. *)
Lemma computeFill_null_avg_nonzero_size :
  let sold := [{| t_size := -1; t_price := 0.5 |}] in
  let example := [{| t_size := 2; t_price := 0.4 |};
                  {| t_size := 3; t_price := 0.6 |}] in
  filledSize (computeFillFromTrades sold) = -1 /\
  (filledSize (computeFillFromTrades sold) =? 0) = false /\
  avgPrice (computeFillFromTrades sold) = None /\
  avgPrice (computeFillFromTrades example) = Some 0.5199999999999999 /\
  (0.5199999999999999 =? 0.52) = false.
Proof. repeat split; vm_compute; reflexivity. Qed.

(** C7, amended: [filledSize] is the sum of the sizes of the included trades
    (those whose size and price are both finite) and [avgPrice] is the sum of
    size times price over them divided by [filledSize], the sums and the
    quotient being those of binary64 arithmetic; [avgPrice] is null exactly
    when [filledSize] is not strictly positive, so in particular when it is
    zero.  On the two trades of the example [filledSize] is 5 and [avgPrice]
    is 0.5199999999999999, within 1e-15 of 0.52. *)
Theorem computeFillFromTrades_spec (trades : list Trade) :
  let fills := computeFillFromTrades trades in
  let included := filter is_included trades in
  filledSize fills = sum_sizes included /\
  avgPrice fills =
    (if 0 <? filledSize fills
     then Some (sum_notional included / filledSize fills) else None) /\
  (avgPrice fills = None <-> (0 <? filledSize fills) = false) /\
  ((filledSize fills =? 0) = true -> avgPrice fills = None) /\
  (let example := [{| t_size := 2; t_price := 0.4 |};
                   {| t_size := 3; t_price := 0.6 |}] in
   filledSize (computeFillFromTrades example) = 5 /\
   avgPrice (computeFillFromTrades example) = Some 0.5199999999999999 /\
   (0.52 - 0.5199999999999999 <? 1e-15) = true).
Proof.
  intros fills included.
  assert (Hfill : filledSize fills = sum_sizes included).
  { unfold fills, computeFillFromTrades.
    rewrite computeFill_loop_sums. reflexivity. }
  assert (Havg : avgPrice fills =
                 if 0 <? filledSize fills
                 then Some (sum_notional included / filledSize fills)
                 else None).
  { unfold fills, computeFillFromTrades.
    rewrite computeFill_loop_sums. reflexivity. }
  split; [exact Hfill|]. split; [exact Havg|].
  split; [|split].
  - rewrite Havg. destruct (0 <? filledSize fills); split;
      intros H; try reflexivity; discriminate.
  - intros Hzero. rewrite Havg, (zero_not_positive _ Hzero). reflexivity.
  - repeat split; vm_compute; reflexivity.
Qed.

(** No trade at all: the filled size is zero and the average price null. *)
Lemma computeFillFromTrades_spec_witness :
  (filledSize (computeFillFromTrades []) =? 0) = true /\
  avgPrice (computeFillFromTrades []) = None.
Proof.
  split; [reflexivity|].
  destruct (computeFillFromTrades_spec []) as (_ & _ & _ & Hzero & _).
  apply Hzero. reflexivity.
Defined.

(** *** The session *)

Section Session.

Context {W : Type} (X : Exchange W).

Lemma getClobContext_disabled (config : Config) (s : St W) :
  enabled config = false ->
  getClobContext X config s = (Normal None, s).
Proof.
  intros Hoff. unfold getClobContext. rewrite Hoff. reflexivity.
Qed.

Lemma getClobContext_missing_key (config : Config) (s : St W) :
  enabled config = true ->
  is_empty (privateKey config) = true ->
  getClobContext X config s =
  (Normal None,
   if warnedMissingKey s then s
   else set_flag true (logged (EvLog Warn missing_key_warning) s)).
Proof.
  intros Hon Hkey. unfold getClobContext. rewrite Hon, Hkey. simpl.
  run_monad. destruct (warnedMissingKey s); reflexivity.
Qed.

(** With a key configured, the call clears the warning flag and awaits the
    memoized promise, starting the initialization when there is none. *)
Lemma getClobContext_with_key (config : Config) (s : St W) :
  enabled config = true ->
  is_empty (privateKey config) = false ->
  getClobContext X config s =
  match clobContextPromise s with
  | Some (Fulfilled ctx) => (Normal (Some ctx), set_flag false s)
  | Some (Rejected e) =>
      (Normal None, set_memo None (logged init_failure_log (set_flag false s)))
  | None =>
      match initClobContext X config (set_flag false s) with
      | (Normal ctx, s1) =>
          (Normal (Some ctx), set_memo (Some (Fulfilled ctx)) s1)
      | (Throw e, s1) =>
          (Normal None, set_memo None (logged init_failure_log s1))
      | (OutOfFuel, s1) => (OutOfFuel, s1)
      end
  end.
Proof.
  intros Hon Hkey. unfold getClobContext. rewrite Hon, Hkey. simpl.
  unfold set_flag, set_memo, logged, init_failure_log.
  destruct s as [w memo flag tr].
  run_monad. destruct memo as [[ctx | e] |]; run_monad; try reflexivity.
  match goal with
  | |- context [initClobContext X config ?s0] =>
      destruct (initClobContext X config s0) as [[ctx | e |] s1]
  end; run_monad; reflexivity.
Qed.

Lemma missing_key_warnings_app (tr : list event) (ev : event) :
  missing_key_warnings (tr ++ [ev]) =
  (missing_key_warnings tr + if is_missing_key_warning ev then 1 else 0)%nat.
Proof.
  unfold missing_key_warnings. rewrite filter_app, length_app. simpl.
  destruct (is_missing_key_warning ev); reflexivity.
Qed.

(** The initialization ends by returning or by throwing; it leaves the two
    variables of the module alone and logs no missing-key warning. *)
Lemma initClobContext_frame (config : Config) (s : St W) :
  exists r s1,
    initClobContext X config s = (r, s1) /\
    r <> OutOfFuel /\
    clobContextPromise s1 = clobContextPromise s /\
    warnedMissingKey s1 = warnedMissingKey s /\
    missing_key_warnings (trace s1) = missing_key_warnings (trace s).
Proof.
  unfold initClobContext.
  destruct (is_empty (privateKey config)).
  { eexists _, _. run_monad. repeat split. discriminate. }
  run_monad.
  destruct (Wallet_new X (privateKey config)) as [signer0 | e]; simpl.
  2:{ eexists _, _. repeat split. discriminate. }
  destruct (negb (has__signTypedData signer0) && has_signTypedData signer0);
    destruct (signatureType config); simpl;
    destruct (Date_now X (world s)) as [now w1]; simpl;
    match goal with
    | |- context [createOrDeriveApiKey X ?c ?n ?w] =>
        destruct (createOrDeriveApiKey X c n w) as [[cr | e1] w2]; simpl
    end;
    try match goal with
    | |- context [deriveApiKey X ?c ?n ?w] =>
        destruct (deriveApiKey X c n w) as [[cr | e2] w3]; simpl
    end;
    eexists _, _; (split; [reflexivity|]);
    (split; [discriminate|]); simpl;
    repeat rewrite missing_key_warnings_app; simpl;
    repeat split; lia.
Qed.

(** What a call that finds a key does to the flag and to the warnings. *)
Lemma getClobContext_with_key_effect (config : Config) (s : St W) :
  enabled config = true ->
  is_empty (privateKey config) = false ->
  (exists r, fst (getClobContext X config s) = Normal r) /\
  warnedMissingKey (snd (getClobContext X config s)) = false /\
  missing_key_warnings (trace (snd (getClobContext X config s))) =
    missing_key_warnings (trace s).
Proof.
  intros Hon Hkey. rewrite (getClobContext_with_key _ _ Hon Hkey).
  destruct (clobContextPromise s) as [[ctx | e] |]; simpl.
  - repeat split. eexists; reflexivity.
  - rewrite missing_key_warnings_app. simpl. repeat split; try lia.
    eexists; reflexivity.
  - destruct (initClobContext_frame config (set_flag false s))
      as (r & s1 & Hinit & Hfuel & _ & Hflag & Hwarn).
    rewrite Hinit. simpl in Hflag, Hwarn.
    destruct r as [ctx | e |]; simpl.
    + repeat split; try assumption. eexists; reflexivity.
    + rewrite missing_key_warnings_app. simpl.
      repeat split; try assumption; try lia. eexists; reflexivity.
    + contradiction.
Qed.

Lemma getClobContext_missing_key_effect (config : Config) (s : St W) :
  enabled config = true ->
  is_empty (privateKey config) = true ->
  fst (getClobContext X config s) = Normal None /\
  world (snd (getClobContext X config s)) = world s /\
  clobContextPromise (snd (getClobContext X config s)) = clobContextPromise s /\
  warnedMissingKey (snd (getClobContext X config s)) = true /\
  trace (snd (getClobContext X config s)) =
    (if warnedMissingKey s then trace s
     else trace s ++ [EvLog Warn missing_key_warning]) /\
  missing_key_warnings (trace (snd (getClobContext X config s))) =
    (missing_key_warnings (trace s) + if warnedMissingKey s then 0 else 1)%nat.
Proof.
  intros Hon Hkey. rewrite (getClobContext_missing_key _ _ Hon Hkey). simpl.
  destruct (warnedMissingKey s) eqn:Hflag; simpl.
  - repeat split; try assumption; lia.
  - rewrite missing_key_warnings_app. simpl. repeat split.
Qed.

Lemma episodes_all_missing (warned : bool) (configs : list Config) :
  Forall (fun config => is_empty (privateKey config) = true) configs ->
  configs <> [] ->
  episodes warned configs = if warned then 0%nat else 1%nat.
Proof.
  intros Hall. revert warned.
  induction Hall as [|config rest Hkey Hrest IH]; intros warned Hne.
  - contradiction.
  - simpl. rewrite Hkey.
    destruct rest as [|config' rest'].
    + simpl. destruct warned; reflexivity.
    + rewrite IH by discriminate. destruct warned; reflexivity.
Qed.

(** C9: over any sequence of calls made while trading is enabled, the
    missing-key warning is logged once per missing-key episode.  A call that
    finds no key returns null, logs the warning only if the flag is not set,
    and leaves the flag set; a call that finds a key clears the flag and logs
    no such warning.  Hence a run of calls without a key adds exactly one
    warning when it starts with the flag clear and none when it starts with
    the flag set, and the whole sequence adds one warning per episode. *)
Theorem missing_key_warning_once_per_episode
    (configs : list Config) (s : St W) :
  Forall (fun config => enabled config = true) configs ->
  (forall config s0,
      In config configs -> is_empty (privateKey config) = true ->
      fst (getClobContext X config s0) = Normal None /\
      warnedMissingKey (snd (getClobContext X config s0)) = true /\
      trace (snd (getClobContext X config s0)) =
        (if warnedMissingKey s0 then trace s0
         else trace s0 ++ [EvLog Warn missing_key_warning])) /\
  (forall config s0,
      In config configs -> is_empty (privateKey config) = false ->
      warnedMissingKey (snd (getClobContext X config s0)) = false /\
      missing_key_warnings (trace (snd (getClobContext X config s0))) =
        missing_key_warnings (trace s0)) /\
  missing_key_warnings (trace (run_getClobContext X configs s)) =
    (missing_key_warnings (trace s) + episodes (warnedMissingKey s) configs)%nat /\
  (Forall (fun config => is_empty (privateKey config) = true) configs ->
   configs <> [] ->
   missing_key_warnings (trace (run_getClobContext X configs s)) =
     (missing_key_warnings (trace s) + if warnedMissingKey s then 0 else 1)%nat).
Proof.
  intros Hon.
  assert (Hrun : forall s0,
             missing_key_warnings (trace (run_getClobContext X configs s0)) =
             (missing_key_warnings (trace s0)
              + episodes (warnedMissingKey s0) configs)%nat).
  { induction Hon as [|config rest Hc Hrest IH]; intros s0; simpl.
    - lia.
    - rewrite IH.
      destruct (is_empty (privateKey config)) eqn:Hkey.
      + destruct (getClobContext_missing_key_effect config s0 Hc Hkey)
          as (_ & _ & _ & Hflag & _ & Hwarn).
        rewrite Hflag, Hwarn. destruct (warnedMissingKey s0); lia.
      + destruct (getClobContext_with_key_effect config s0 Hc Hkey)
          as (_ & Hflag & Hwarn).
        rewrite Hflag, Hwarn. reflexivity. }
  rewrite Forall_forall in Hon.
  split; [|split; [|split]].
  - intros config s0 Hin Hkey.
    destruct (getClobContext_missing_key_effect config s0 (Hon _ Hin) Hkey)
      as (Hres & _ & _ & Hflag & Htrace & _).
    auto.
  - intros config s0 Hin Hkey.
    destruct (getClobContext_with_key_effect config s0 (Hon _ Hin) Hkey)
      as (_ & Hflag & Hwarn).
    auto.
  - apply Hrun.
  - intros Hall Hne. rewrite Hrun, (episodes_all_missing _ _ Hall Hne).
    reflexivity.
Qed.

Lemma getClobContext_returns (config : Config) (s : St W) :
  exists r, fst (getClobContext X config s) = Normal r.
Proof.
  destruct (enabled config) eqn:Hon.
  - destruct (is_empty (privateKey config)) eqn:Hkey.
    + rewrite (getClobContext_missing_key _ _ Hon Hkey). eexists; reflexivity.
    + apply (getClobContext_with_key_effect _ _ Hon Hkey).
  - rewrite (getClobContext_disabled _ _ Hon). eexists; reflexivity.
Qed.

(** What a call does when the initialization it awaits fails. *)
Lemma getClobContext_init_failure (config : Config) (s : St W) (e : thrown) :
  enabled config = true ->
  is_empty (privateKey config) = false ->
  clobContextPromise s = Some (Rejected e) \/
  (clobContextPromise s = None /\
   fst (initClobContext X config (set_flag false s)) = Throw e) ->
  fst (getClobContext X config s) = Normal None /\
  clobContextPromise (snd (getClobContext X config s)) = None /\
  exists tr, trace (snd (getClobContext X config s)) = tr ++ [init_failure_log].
Proof.
  intros Hon Hkey Hfail.
  rewrite (getClobContext_with_key _ _ Hon Hkey).
  destruct Hfail as [Hmemo | [Hmemo Hinit]]; rewrite Hmemo.
  - simpl. repeat split. eexists; reflexivity.
  - destruct (initClobContext X config (set_flag false s)) as [r s1].
    simpl in Hinit. subst r. simpl. repeat split. eexists; reflexivity.
Qed.

(** C5: [getClobContext] always returns, whatever the configuration and the
    state: no exception reaches the caller.  When the initialization it
    awaits fails (the memoized promise is rejected, or there is none and the
    initialization it starts throws), the call logs the failure, leaves the
    memo empty and returns null; the next call that finds a key then runs the
    initialization again and its outcome is that of this new attempt. *)
Theorem getClobContext_catches_init_failure (config : Config) (s : St W) :
  (exists r, fst (getClobContext X config s) = Normal r) /\
  (enabled config = true ->
   is_empty (privateKey config) = false ->
   forall e,
     clobContextPromise s = Some (Rejected e) \/
     (clobContextPromise s = None /\
      fst (initClobContext X config (set_flag false s)) = Throw e) ->
     let s' := snd (getClobContext X config s) in
     fst (getClobContext X config s) = Normal None /\
     clobContextPromise s' = None /\
     (exists tr, trace s' = tr ++ [init_failure_log]) /\
     forall config',
       enabled config' = true ->
       is_empty (privateKey config') = false ->
       getClobContext X config' s' =
       match initClobContext X config' (set_flag false s') with
       | (Normal ctx, s1) =>
           (Normal (Some ctx), set_memo (Some (Fulfilled ctx)) s1)
       | (Throw e', s1) =>
           (Normal None, set_memo None (logged init_failure_log s1))
       | (OutOfFuel, s1) => (OutOfFuel, s1)
       end).
Proof.
  split; [apply getClobContext_returns|].
  intros Hon Hkey e Hfail s'.
  destruct (getClobContext_init_failure config s e Hon Hkey Hfail)
    as (Hres & Hmemo & Htrace).
  fold s' in Hmemo, Htrace.
  repeat split; try assumption.
  intros config' Hon' Hkey'.
  rewrite (getClobContext_with_key _ _ Hon' Hkey'), Hmemo. reflexivity.
Qed.

End Session.

(** Two calls without a key, one with a key, two more without: two episodes,
    two warnings. *)
Lemma missing_key_warning_once_per_episode_witness :
  let X := Scripted.exchange (Ok Scripted.signer) (Ok Scripted.api_creds)
                             (Ok None) (Ok None) (Ok None) in
  let configs := [Scripted.config_no_key; Scripted.config_no_key;
                  Scripted.config_on;
                  Scripted.config_no_key; Scripted.config_no_key] in
  Forall (fun config => enabled config = true) configs /\
  missing_key_warnings (trace (run_getClobContext X configs Scripted.fresh))
  = 2%nat.
Proof.
  intros X configs.
  assert (Hon : Forall (fun config => enabled config = true) configs)
    by (repeat constructor).
  split; [exact Hon|].
  destruct (missing_key_warning_once_per_episode X configs Scripted.fresh Hon)
    as (_ & _ & Hcount & _).
  rewrite Hcount. reflexivity.
Defined.

(** Both ways of acquiring credentials are refused: the call returns null
    and leaves the memo empty. *)
Lemma getClobContext_catches_init_failure_witness :
  let X := Scripted.exchange (Ok Scripted.signer) (Raise Scripted.refused)
                             (Ok None) (Ok None) (Ok None) in
  enabled Scripted.config_on = true /\
  is_empty (privateKey Scripted.config_on) = false /\
  fst (initClobContext X Scripted.config_on (set_flag false Scripted.fresh))
    = Throw Scripted.refused /\
  fst (getClobContext X Scripted.config_on Scripted.fresh) = Normal None /\
  clobContextPromise (snd (getClobContext X Scripted.config_on Scripted.fresh))
    = None.
Proof.
  intros X.
  do 3 (split; [vm_compute; reflexivity|]).
  destruct (getClobContext_catches_init_failure X Scripted.config_on
              Scripted.fresh) as (_ & Hfail).
  destruct (Hfail eq_refl eq_refl Scripted.refused
                  (or_intror (conj eq_refl eq_refl)))
    as (Hres & Hmemo & _).
  split; assumption.
Defined.

(** *** Order submission *)

Section Submission.

Context {W : Type} (X : Exchange W).








End Submission.


(** *** Fill tracking *)

Section FillTracking.

Context {W : Type} (X : Exchange W).

Lemma fetchOrderFills_without_context (fuel : nat) (config : Config)
    (orderId : string) (opts : FillOpts) (s s' : St W) :
  getClobContext X config s = (Normal None, s') ->
  fetchOrderFills X fuel config orderId opts s = (Normal None, s').
Proof.
  intros Hctx. unfold fetchOrderFills. unfold bind at 1. rewrite Hctx.
  reflexivity.
Qed.

(** C10: when [getClobContext] gives null, [fetchOrderFills] returns null in
    the very state [getClobContext] left, for every order identifier, every
    options record and every bound on the iterations (even none): the clock
    is not read and no [getOrder] call, trade fetch or sleep takes place.
    This is the case when trading is disabled, when the private key is
    missing, and when the initialization fails. *)
Theorem fetchOrderFills_null_without_session (fuel : nat) (config : Config)
    (orderId : string) (opts : FillOpts) (s : St W) :
  (forall s',
      getClobContext X config s = (Normal None, s') ->
      fetchOrderFills X fuel config orderId opts s = (Normal None, s')) /\
  (enabled config = false ->
   fetchOrderFills X fuel config orderId opts s = (Normal None, s)) /\
  (enabled config = true ->
   is_empty (privateKey config) = true ->
   fetchOrderFills X fuel config orderId opts s =
     (Normal None,
      if warnedMissingKey s then s
      else set_flag true (logged (EvLog Warn missing_key_warning) s))) /\
  (enabled config = true ->
   is_empty (privateKey config) = false ->
   forall e,
     clobContextPromise s = Some (Rejected e) \/
     (clobContextPromise s = None /\
      fst (initClobContext X config (set_flag false s)) = Throw e) ->
     fetchOrderFills X fuel config orderId opts s =
       (Normal None, snd (getClobContext X config s))).
Proof.
  split; [|split; [|split]].
  - intros s'. apply fetchOrderFills_without_context.
  - intros Hoff. apply fetchOrderFills_without_context.
    apply getClobContext_disabled; assumption.
  - intros Hon Hkey. apply fetchOrderFills_without_context.
    apply getClobContext_missing_key; assumption.
  - intros Hon Hkey e Hfail. apply fetchOrderFills_without_context.
    destruct (getClobContext_init_failure X config s e Hon Hkey Hfail)
      as (Hres & _).
    destruct (getClobContext X config s) as [r s']. simpl in *.
    subst r. reflexivity.
Qed.

(** The loop over the trade identifiers always returns a list. *)
Lemma fetchTrades_loop_returns (ctx : ClobContext) (tradeIds : list string)
    (trades : list Trade) (s : St W) :
  exists trades' s',
    fetchTrades_loop X ctx tradeIds trades s = (Normal trades', s').
Proof.
  revert trades s.
  induction tradeIds as [|tradeId rest IH]; intros trades s; simpl.
  - eexists _, _. reflexivity.
  - run_monad.
    destruct (getTrades X (client ctx) tradeId (world s)) as [[res | e] w1];
      simpl.
    + destruct res as [[|t ts] |]; simpl; apply IH.
    + apply IH.
Qed.

Lemma fetchTradesForOrder_returns (ctx : ClobContext) (order : option Order)
    (s : St W) :
  exists trades s', fetchTradesForOrder X ctx order s = (Normal trades, s').
Proof.
  unfold fetchTradesForOrder.
  destruct order as [order|]; [|eexists _, _; reflexivity].
  destruct (o_associate_trades order) as [[|tradeId rest] |];
    try (eexists _, _; reflexivity).
  apply fetchTrades_loop_returns.
Qed.

(** While no snapshot is obtained the loop keeps polling, and it is left
    with no order once the clock has passed the bound. *)
Lemma poll_loop_no_snapshot (n : nat) :
  forall (fuel : nat) (ctx : ClobContext) (orderId : string)
         (maxWaitMs pollIntervalMs : float) (preferTrades : bool)
         (started : float) (trades : list Trade) (s : St W),
    (n < fuel)%nat ->
    (forall k, (k < n)%nat ->
       within_wait X started maxWaitMs
         (poll_world X k ctx orderId pollIntervalMs (world s)) = true) ->
    within_wait X started maxWaitMs
      (poll_world X n ctx orderId pollIntervalMs (world s)) = false ->
    (forall k, (k < n)%nat ->
       no_snapshot
         (fst (getOrder X (client ctx) orderId
                 (snd (Date_now X
                         (poll_world X k ctx orderId pollIntervalMs
                                     (world s)))))) = true) ->
    exists s',
      poll_loop X fuel ctx orderId maxWaitMs pollIntervalMs preferTrades
                started None trades s = (Normal (Left None trades), s').
Proof.
  induction n as [|n IH];
    intros fuel ctx orderId maxWaitMs pollIntervalMs preferTrades started
           trades s Hfuel Hwithin Hpast Hnone;
    (destruct fuel as [|fuel]; [lia|]).
  - simpl in Hpast. unfold within_wait in Hpast.
    simpl. run_monad.
    destruct (Date_now X (world s)) as [now w1]. simpl in *.
    rewrite Hpast. eexists. reflexivity.
  - pose proof (Hwithin 0%nat ltac:(lia)) as Hnow.
    pose proof (Hnone 0%nat ltac:(lia)) as Hfirst.
    simpl in Hnow, Hfirst. unfold within_wait in Hnow.
    assert (Hnext : forall s1,
               world s1 = next_poll_world X ctx orderId pollIntervalMs (world s) ->
               exists s',
                 poll_loop X fuel ctx orderId maxWaitMs pollIntervalMs
                           preferTrades started None trades s1
                 = (Normal (Left None trades), s')).
    { intros s1 Hworld. apply IH.
      - lia.
      - intros k Hk. rewrite Hworld. apply (Hwithin (S k)). lia.
      - rewrite Hworld. exact Hpast.
      - intros k Hk. rewrite Hworld. apply (Hnone (S k)). lia. }
    simpl. run_monad. unfold next_poll_world in Hnext.
    destruct (Date_now X (world s)) as [now w1]. simpl in *.
    rewrite Hnow. run_monad.
    destruct (getOrder X (client ctx) orderId w1) as [[[order|] | e] w2];
      simpl in *; try discriminate; apply Hnext; reflexivity.
Qed.

(** C3: when no iteration of the loop obtains an order snapshot and the
    clock passes [maxWaitMs] at the [n]-th reading, [fetchOrderFills]
    (allowed more than [n] iterations) returns status "unknown", filled size
    0, a null average price and no trades. *)
Theorem fetchOrderFills_timeout_unknown (n fuel : nat) (config : Config)
    (orderId : string) (opts : FillOpts) (s s1 : St W) (ctx : ClobContext)
    (started : float) (w0 : W) :
  let maxWaitMs :=
    match fo_maxWaitMs opts with Some v => v | None => 60000 end in
  let pollIntervalMs :=
    match fo_pollIntervalMs opts with Some v => v | None => 1500 end in
  getClobContext X config s = (Normal (Some ctx), s1) ->
  Date_now X (world s1) = (started, w0) ->
  (n < fuel)%nat ->
  (forall k, (k < n)%nat ->
     within_wait X started maxWaitMs
       (poll_world X k ctx orderId pollIntervalMs w0) = true) ->
  within_wait X started maxWaitMs
    (poll_world X n ctx orderId pollIntervalMs w0) = false ->
  (forall k, (k < n)%nat ->
     no_snapshot
       (fst (getOrder X (client ctx) orderId
               (snd (Date_now X
                       (poll_world X k ctx orderId pollIntervalMs w0)))))
     = true) ->
  exists s',
    fetchOrderFills X fuel config orderId opts s =
    (Normal (Some {| snap_status := Some "unknown"%string;
                     snap_filledSize := 0;
                     snap_avgPrice := None;
                     snap_trades := [];
                     snap_order := None |}), s').
Proof.
  intros maxWaitMs pollIntervalMs Hctx Hstart Hfuel Hwithin Hpast Hnone.
  unfold fetchOrderFills. fold maxWaitMs pollIntervalMs.
  unfold bind at 1. rewrite Hctx.
  unfold bind at 1. unfold world_read at 1. rewrite Hstart.
  destruct (poll_loop_no_snapshot n fuel ctx orderId maxWaitMs pollIntervalMs
              (match fo_preferTrades opts with Some v => v | None => false end)
              started [] (set_world w0 s1) Hfuel Hwithin Hpast Hnone)
    as (s' & Hloop).
  unfold set_world in Hloop. unfold bind. rewrite Hloop.
  eexists. reflexivity.
Qed.

(** C4, amended: in an iteration whose [getOrder] call returns an order
    with at least one associated trade identifier, the trades are fetched
    and, if the filled size aggregated from them is strictly positive or the
    status of the order is not "live", the loop returns the snapshot
    [{status, filledSize, avgPrice, trades, order}] in the state the trade
    fetch left: without sleeping and without another reading of the clock. *)
Theorem poll_loop_returns_on_fill (fuel : nat) (ctx : ClobContext)
    (orderId : string) (maxWaitMs pollIntervalMs : float)
    (preferTrades : bool) (started : float) (lastOrder : option Order)
    (trades0 : list Trade) (s : St W) (now : float) (w1 w2 : W)
    (order : Order) :
  Date_now X (world s) = (now, w1) ->
  (now - started <=? maxWaitMs) = true ->
  getOrder X (client ctx) orderId w1 = (Ok (Some order), w2) ->
  has_associate_trades (Some order) = true ->
  exists trades s3,
    fetchTradesForOrder X ctx (Some order)
      (logged (EvGetOrder orderId) (set_world w2 s)) = (Normal trades, s3) /\
    (let fills := computeFillFromTrades trades in
     (0 <? filledSize fills) = true \/ not_live (o_status order) = true ->
     poll_loop X (S fuel) ctx orderId maxWaitMs pollIntervalMs preferTrades
               started lastOrder trades0 s =
     (Normal (Returned {| snap_status := o_status order;
                          snap_filledSize := filledSize fills;
                          snap_avgPrice := avgPrice fills;
                          snap_trades := trades;
                          snap_order := Some order |}), s3)).
Proof.
  intros Hnow Hwithin Horder Htrades.
  destruct (fetchTradesForOrder_returns ctx (Some order)
              (logged (EvGetOrder orderId) (set_world w2 s)))
    as (trades & s3 & Hfetch).
  exists trades, s3. split; [exact Hfetch|].
  intros fills Hcond.
  assert (Hor : gtb (filledSize fills) 0 || not_live (o_status order) = true).
  { unfold gtb. destruct Hcond as [H | H]; rewrite H;
      [reflexivity | apply orb_true_r]. }
  simpl. unfold bind at 1. unfold world_read at 1. rewrite Hnow.
  rewrite Hwithin.
  unfold bind at 1. unfold try_catch at 1, client_call at 1.
  simpl. rewrite Horder. rewrite Htrades.
  unfold logged, set_world in Hfetch.
  cbn [world clobContextPromise warnedMissingKey trace] in Hfetch.
  unfold bind at 1. unfold bind at 1. rewrite Hfetch.
  fold fills. rewrite Hor. reflexivity.
Qed.

End FillTracking.

(** Trading disabled: null at once, nothing observed. *)
Lemma fetchOrderFills_null_without_session_witness :
  let X := Scripted.exchange (Ok Scripted.signer) (Ok Scripted.api_creds)
                             (Ok None) (Ok (Some Scripted.matched_order))
                             (Ok None) in
  enabled Scripted.config_off = false /\
  fetchOrderFills X 0 Scripted.config_off "O"%string
                  (Scripted.fill_opts 60000 false) Scripted.fresh
  = (Normal None, Scripted.fresh).
Proof.
  intros X. split; [reflexivity|].
  destruct (fetchOrderFills_null_without_session X 0 Scripted.config_off
              "O"%string (Scripted.fill_opts 60000 false) Scripted.fresh)
    as (_ & Hoff & _).
  apply Hoff. reflexivity.
Defined.

(** The order is never obtained and the bound is 0: one iteration, then
    the unknown snapshot. *)
Lemma fetchOrderFills_timeout_unknown_witness :
  let X := Scripted.exchange (Ok Scripted.signer) (Ok Scripted.api_creds)
                             (Ok None) (Raise Scripted.refused) (Ok None) in
  exists s',
    fetchOrderFills X 2 Scripted.config_on "O"%string
                    (Scripted.fill_opts 0 false) Scripted.ready
    = (Normal (Some {| snap_status := Some "unknown"%string;
                       snap_filledSize := 0;
                       snap_avgPrice := None;
                       snap_trades := [];
                       snap_order := None |}), s').
Proof.
  intros X.
  apply (fetchOrderFills_timeout_unknown X 1 2 Scripted.config_on "O"%string
           (Scripted.fill_opts 0 false) Scripted.ready
           (set_flag false Scripted.ready) Scripted.context 0 0).
  - reflexivity.
  - reflexivity.
  - lia.
  - intros k Hk. assert (k = 0%nat) by lia. subst k. reflexivity.
  - reflexivity.
  - intros k Hk. assert (k = 0%nat) by lia. subst k. reflexivity.
Defined.

(** C4, as stated, fails: an order reported as matched with no trade
    attached yet, polled with [preferTrades] (as for market orders), has left
    the "live" status, but the iteration that sees it does not return; it
    sleeps and polls again, until the bound has passed. *)
Lemma poll_loop_keeps_polling_matched_order :
  let X := Scripted.exchange (Ok Scripted.signer) (Ok Scripted.api_creds)
                             (Ok None) (Ok (Some Scripted.matched_order))
                             (Ok None) in
  not_live (o_status Scripted.matched_order) = true /\
  fst (poll_loop X 1 Scripted.context "O"%string 3000 1500 true 0 None []
                 Scripted.ready) = OutOfFuel /\
  trace (snd (poll_loop X 1 Scripted.context "O"%string 3000 1500 true 0
                        None [] Scripted.ready))
    = [EvGetOrder "O"; EvSleep 1500] /\
  fst (fetchOrderFills X 10 Scripted.config_on "O"%string
                       (Scripted.fill_opts 3000 true) Scripted.ready)
    = Normal (Some {| snap_status := Some "matched"%string;
                      snap_filledSize := 0;
                      snap_avgPrice := None;
                      snap_trades := [];
                      snap_order := Some Scripted.matched_order |}) /\
  trace (snd (fetchOrderFills X 10 Scripted.config_on "O"%string
                              (Scripted.fill_opts 3000 true) Scripted.ready))
    = [EvGetOrder "O"; EvSleep 1500; EvGetOrder "O"; EvSleep 1500;
       EvGetOrder "O"; EvSleep 1500] /\
  world (snd (fetchOrderFills X 10 Scripted.config_on "O"%string
                              (Scripted.fill_opts 3000 true) Scripted.ready))
    = 4500.
Proof. repeat split; vm_compute; reflexivity. Qed.

(** A live order with one trade of size 2 attached: returned at once. *)
Lemma poll_loop_returns_on_fill_witness :
  let X := Scripted.exchange (Ok Scripted.signer) (Ok Scripted.api_creds)
                             (Ok None) (Ok (Some Scripted.filled_order))
                             (Ok (Some [Scripted.one_trade])) in
  exists s3,
    poll_loop X 1 Scripted.context "O"%string 60000 1500 false 0 None []
              Scripted.ready
    = (Normal (Returned {| snap_status := Some "live"%string;
                           snap_filledSize := 2;
                           snap_avgPrice := Some 0.4;
                           snap_trades := [Scripted.one_trade];
                           snap_order := Some Scripted.filled_order |}), s3) /\
    trace s3 = [EvGetOrder "O"; EvGetTrades "t1"].
Proof.
  intros X.
  destruct (poll_loop_returns_on_fill X 0 Scripted.context "O"%string
              60000 1500 false 0 None [] Scripted.ready 0 0 0
              Scripted.filled_order eq_refl eq_refl eq_refl eq_refl)
    as (trades & s3 & Hfetch & Hreturn).
  vm_compute in Hfetch. inversion Hfetch; subst trades s3; clear Hfetch.
  eexists. split.
  - apply Hreturn. left. vm_compute. reflexivity.
  - reflexivity.
Defined.

End TradingFacts.

(* ================================================================== *)
(** * Further properties of the code *)

(** ** The order of binary64 values *)

Module FloatOrderFacts.

Local Open Scope float_scope.

Lemma SFcompare_antisym (x y : spec_float) :
  SFcompare y x = option_map CompOpp (SFcompare x y).
Proof.
  destruct x as [sx | sx | | sx mx ex], y as [sy | sy | | sy my ey]; simpl;
    try reflexivity;
    try (destruct sx; reflexivity); try (destruct sy; reflexivity);
    try (destruct sx, sy; reflexivity).
  destruct sx, sy; simpl; try reflexivity;
    rewrite (Z.compare_antisym ex ey);
    destruct (ex ?= ey)%Z; simpl; try reflexivity.
  - f_equal. f_equal. symmetry. exact (Pos.compare_cont_antisym mx my Eq).
  - f_equal. symmetry. exact (Pos.compare_cont_antisym mx my Eq).
Qed.

Lemma ltb_antisym (x y : float) : (x <? y) = true -> (y <? x) = false.
Proof.
  rewrite !ltb_spec. unfold SFltb. rewrite (SFcompare_antisym (Prim2SF x)).
  destruct (SFcompare (Prim2SF x) (Prim2SF y)) as [[| |]|]; simpl; congruence.
Qed.

Lemma ltb_irrefl (x : float) : (x <? x) = false.
Proof.
  destruct (x <? x) eqn:H; [|reflexivity].
  pose proof (ltb_antisym _ _ H). congruence.
Qed.

Lemma ltb_leb (x y : float) : (x <? y) = true -> (x <=? y) = true.
Proof.
  rewrite ltb_spec, leb_spec. unfold SFltb, SFleb.
  destruct (SFcompare (Prim2SF x) (Prim2SF y)) as [[| |]|]; simpl; congruence.
Qed.

Lemma is_nan_spec (x : float) : is_nan x = false <-> Prim2SF x <> S754_nan.
Proof.
  unfold is_nan. rewrite FloatAxioms.eqb_spec. unfold SFeqb.
  destruct (Prim2SF x) as [s | s | | s m e]; simpl.
  - split; [discriminate|reflexivity].
  - destruct s; simpl; split; try discriminate; reflexivity.
  - split; [discriminate | intros H; contradiction].
  - destruct s; simpl; rewrite Z.compare_refl, Pos.compare_cont_refl; simpl;
      split; try discriminate; reflexivity.
Qed.

Lemma is_finite_not_nan (x : float) : is_finite x = true -> is_nan x = false.
Proof.
  unfold is_finite. destruct (is_nan x); [discriminate | reflexivity].
Qed.

(** Two Numbers that are not NaN are comparable. *)
Lemma not_ltb_leb (x y : float) :
  is_nan x = false -> is_nan y = false -> (x <? y) = false -> (y <=? x) = true.
Proof.
  intros Hx Hy. apply is_nan_spec in Hx. apply is_nan_spec in Hy.
  rewrite ltb_spec, leb_spec. unfold SFltb, SFleb.
  rewrite (SFcompare_antisym (Prim2SF x)).
  destruct (SFcompare (Prim2SF x) (Prim2SF y)) as [[| |]|] eqn:E; simpl;
    try congruence.
  intros _. exfalso.
  destruct (Prim2SF x), (Prim2SF y); simpl in E;
    try discriminate; try contradiction.
Qed.

Lemma not_leb_ltb (x y : float) :
  is_nan x = false -> is_nan y = false -> (x <=? y) = false -> (y <? x) = true.
Proof.
  intros Hx Hy. apply is_nan_spec in Hx. apply is_nan_spec in Hy.
  rewrite ltb_spec, leb_spec. unfold SFltb, SFleb.
  rewrite (SFcompare_antisym (Prim2SF x)).
  destruct (SFcompare (Prim2SF x) (Prim2SF y)) as [[| |]|] eqn:E; simpl;
    try congruence.
  intros _. exfalso.
  destruct (Prim2SF x), (Prim2SF y); simpl in E;
    try discriminate; try contradiction.
Qed.

(** Nothing is below or equal to NaN. *)
Lemma leb_nan_r (x : float) : (x <=? nan) = false.
Proof.
  rewrite leb_spec. change (Prim2SF nan) with S754_nan.
  unfold SFleb. destruct (Prim2SF x); reflexivity.
Qed.

End FloatOrderFacts.

(** ** More on the numeric guards *)

Module GuardFacts.

Import JS Utils LimitRoute RequestParsing FloatOrderFacts.
Local Open Scope float_scope.

(** [Math.min] of two Numbers that are not NaN is one of them and is not
    above the second. *)
Lemma Math_min_bound (x y : float) :
  is_nan x = false -> is_nan y = false ->
  (Math_min x y = x \/ Math_min x y = y) /\
  (y <? Math_min x y) = false /\
  (x <? Math_min x y) = false.
Proof.
  intros Hx Hy. unfold Math_min. rewrite Hx, Hy. simpl.
  destruct (x <? y) eqn:Hxy.
  - repeat split; [left; reflexivity | apply ltb_antisym; exact Hxy
                   | apply ltb_irrefl].
  - destruct (y <? x) eqn:Hyx.
    + repeat split; [right; reflexivity | apply ltb_irrefl | exact Hxy].
    + destruct (get_sign x).
      * repeat split; [left; reflexivity | exact Hyx | apply ltb_irrefl].
      * repeat split; [right; reflexivity | apply ltb_irrefl | exact Hxy].
Qed.

(** X1: the minimum sell size is never below the minimum order size of 5
    shares, whatever the price (NaN, infinite, zero and negative prices
    included). *)
Theorem minSellSharesAtPrice_not_below_min (price : float) :
  (minSellSharesAtPrice price <? MIN_ORDER_SHARES) = false.
Proof.
  unfold minSellSharesAtPrice, MIN_ORDER_SHARES, MIN_ORDER_NOTIONAL_USD.
  destruct (negb (Number_isFinite price) || (price <=? 0)); [reflexivity|].
  unfold Math_max. change (is_nan 5) with false. simpl.
  destruct (is_nan (1 / price)); [reflexivity|].
  destruct (5 <? 1 / price) eqn:Hlt; [apply ltb_antisym; exact Hlt|].
  destruct (1 / price <? 5); reflexivity.
Qed.

(** X2: for a finite request and a finite balance, the amount to sell is the
    whole balance or the clamped request; it is never above the available
    balance and never below the clamped request. *)
Theorem adjustSellAmountToAvoidDust_within_balance
    (requested available price : float) :
  is_finite requested = true ->
  is_finite available = true ->
  let amount := adjustSellAmountToAvoidDust requested available price in
  (amount = available \/ amount = Math_min requested available) /\
  (available <? amount) = false /\
  (amount <? Math_min requested available) = false.
Proof.
  intros Hr Ha amount.
  destruct (Math_min_bound requested available
              (is_finite_not_nan _ Hr) (is_finite_not_nan _ Ha))
    as (_ & Hle & _).
  unfold amount, adjustSellAmountToAvoidDust, Number_isFinite.
  rewrite Hr, Ha. simpl.
  destruct (gtb _ 0 && isBelowMin _ _).
  - repeat split; [left; reflexivity | apply ltb_irrefl | exact Hle].
  - repeat split; [right; reflexivity | exact Hle | apply ltb_irrefl].
Qed.

Lemma adjustSellAmountToAvoidDust_within_balance_witness :
  is_finite 8 = true /\ is_finite 10 = true /\
  (10 <? adjustSellAmountToAvoidDust 8 10 0.5) = false.
Proof.
  do 2 (split; [reflexivity|]).
  apply (adjustSellAmountToAvoidDust_within_balance 8 10 0.5 eq_refl eq_refl).
Defined.

Section WithConversions.

Variable StringToNumber : string -> float.
Variable NumberToString : float -> string.

(** X3: a value [parseNumber] accepts is finite and, for a bound that is not
    NaN, strictly above the bound, or not below it when zero is allowed;
    whatever the request held (a number, a string, null, an object). *)
Theorem parseNumber_accepts_above_min (value : jsval) (label : string)
    (min : float) (allowZero : bool) (num : float) :
  is_nan min = false ->
  parseNumber StringToNumber NumberToString value label min allowZero
    = inr num ->
  num = Number StringToNumber value /\
  is_finite num = true /\
  (if allowZero then (min <=? num) = true else (min <? num) = true).
Proof.
  intros Hmin. unfold parseNumber, Number_isFinite.
  destruct (is_finite (Number StringToNumber value)) eqn:Hfin; simpl;
    [|discriminate].
  pose proof (is_finite_not_nan _ Hfin) as Hnan.
  destruct allowZero.
  - destruct (Number StringToNumber value <? min) eqn:Hlt; [discriminate|].
    intros H; inversion H; subst. repeat split; try assumption.
    apply not_ltb_leb; assumption.
  - destruct (Number StringToNumber value <=? min) eqn:Hle; [discriminate|].
    intros H; inversion H; subst. repeat split; try assumption.
    apply not_leb_ltb; assumption.
Qed.

End WithConversions.

Lemma parseNumber_accepts_above_min_witness :
  is_nan 0 = false /\
  parseNumber (fun _ => nan) (fun _ => "0"%string) (JNum 0.5) "price" 0 false
    = inr 0.5 /\
  (0 <? 0.5) = true.
Proof.
  do 2 (split; [reflexivity|]).
  apply (parseNumber_accepts_above_min (fun _ => nan) (fun _ => "0"%string)
           (JNum 0.5) "price" 0 false 0.5 eq_refl eq_refl).
Defined.

End GuardFacts.

(** ** More on the session *)

Module SessionFacts.

Import JS Trading TradingAccount TradingFacts.
Local Open Scope float_scope.

Section Session.

Context {W : Type} (X : Exchange W).

(** Everything the initialization can do. *)
Lemma initClobContext_outcome (config : Config) (s : St W) :
  exists r s1 evs,
    initClobContext X config s = (r, s1) /\
    r <> OutOfFuel /\
    clobContextPromise s1 = clobContextPromise s /\
    warnedMissingKey s1 = warnedMissingKey s /\
    trace s1 = trace s ++ evs /\
    forallb is_session_event evs = true /\
    (let nonce := Math_floor (fst (Date_now X (world s)) / 1000) in
     filter is_credential_request evs = [] \/
     filter is_credential_request evs = [EvCreateOrDeriveApiKey nonce] \/
     filter is_credential_request evs =
       [EvCreateOrDeriveApiKey nonce; EvDeriveApiKey nonce]) /\
    (forall ctx, r = Normal ctx ->
       is_empty (privateKey config) = false /\ well_formed config ctx).
Proof.
  unfold initClobContext, well_formed, normalizeAddress.
  destruct (is_empty (privateKey config)) eqn:Hkey.
  { exists (Throw (ThrownError "POLY_PRIVATE_KEY is required for trading"
                               EmptyString)), s, [].
    run_monad. rewrite app_nil_r.
    repeat split; try discriminate. left. reflexivity. }
  run_monad.
  destruct (Wallet_new X (privateKey config)) as [signer0 | e]; simpl.
  2:{ exists (Throw e), s, []. rewrite app_nil_r.
      repeat split; try discriminate. left. reflexivity. }
  destruct (has__signTypedData signer0) eqn:Hv5,
           (has_signTypedData signer0) eqn:Hv6;
    destruct (signatureType config); simpl;
    destruct (is_empty (funderAddress config)); simpl;
    destruct (Date_now X (world s)) as [now w1]; simpl;
    match goal with
    | |- context [createOrDeriveApiKey X ?c ?n ?w] =>
        destruct (createOrDeriveApiKey X c n w) as [[cr | e1] w2]; simpl
    end;
    try match goal with
    | |- context [deriveApiKey X ?c ?n ?w] =>
        destruct (deriveApiKey X c n w) as [[cr | e2] w3]; simpl
    end;
    repeat rewrite <- app_assoc; simpl;
    eexists _, _, _; (split; [reflexivity|]);
    (split; [discriminate|]);
    (split; [reflexivity|]); (split; [reflexivity|]);
    (split; [reflexivity|]); (split; [reflexivity|]);
    (split; [simpl; auto|]);
    intros ctx Hctx; inversion Hctx; subst ctx; simpl;
    repeat split; try assumption; try reflexivity; try discriminate;
    intros; congruence.
Qed.

(** X4: the initialization asks for credentials at most twice, with one and the
    same nonce (the clock in seconds, floored): [createOrDeriveApiKey]
    first, and [deriveApiKey] only after it.  It adds nothing else to the
    trace than log lines. *)
Theorem initClobContext_credential_requests (config : Config) (s : St W) :
  exists evs,
    trace (snd (initClobContext X config s)) = trace s ++ evs /\
    forallb is_session_event evs = true /\
    (let nonce := Math_floor (fst (Date_now X (world s)) / 1000) in
     filter is_credential_request evs = [] \/
     filter is_credential_request evs = [EvCreateOrDeriveApiKey nonce] \/
     filter is_credential_request evs =
       [EvCreateOrDeriveApiKey nonce; EvDeriveApiKey nonce]).
Proof.
  destruct (initClobContext_outcome config s)
    as (r & s1 & evs & Hinit & _ & _ & _ & Htrace & Hsession & Hcred & _).
  exists evs. rewrite Hinit. auto.
Qed.


(** A call of [getClobContext] returns, and adds to the trace nothing but
    log lines and requests for credentials. *)
Lemma getClobContext_events (config : Config) (s : St W) :
  exists r evs,
    fst (getClobContext X config s) = Normal r /\
    trace (snd (getClobContext X config s)) = trace s ++ evs /\
    forallb is_session_event evs = true.
Proof.
  destruct (enabled config) eqn:Hon.
  - destruct (is_empty (privateKey config)) eqn:Hkey.
    + rewrite (getClobContext_missing_key _ _ _ Hon Hkey). simpl.
      destruct (warnedMissingKey s).
      * exists None, []. rewrite app_nil_r. repeat split.
      * exists None, [EvLog Warn missing_key_warning]. repeat split.
    + rewrite (getClobContext_with_key _ _ _ Hon Hkey).
      destruct (clobContextPromise s) as [[ctx | e] |]; simpl.
      * exists (Some ctx), []. rewrite app_nil_r. repeat split.
      * exists None, [init_failure_log]. repeat split.
      * destruct (initClobContext_outcome config (set_flag false s))
          as (r & s1 & evs & Hinit & Hfuel & _ & _ & Htrace & Hsession & _).
        rewrite Hinit. simpl in Htrace.
        destruct r as [ctx | e |]; simpl.
        -- exists (Some ctx), evs. repeat split; assumption.
        -- exists None, (evs ++ [init_failure_log]).
           rewrite Htrace, <- app_assoc, forallb_app, Hsession.
           repeat split.
        -- contradiction.
  - rewrite (getClobContext_disabled _ _ _ Hon).
    exists None, []. simpl. rewrite app_nil_r. repeat split.
Qed.

(** X6: once a call has initialized the session, every later call that finds
    trading enabled and a key configured returns the same context and does
    nothing else: no request for credentials, no log line, no change of the
    world.  The configuration of the later calls is not looked at beyond
    that: a changed key or API address is not picked up. *)
Theorem session_initialized_once (config : Config) (configs : list Config)
    (s s1 : St W) (ctx : ClobContext) :
  enabled config = true ->
  is_empty (privateKey config) = false ->
  clobContextPromise s = None ->
  initClobContext X config (set_flag false s) = (Normal ctx, s1) ->
  Forall (fun c => enabled c = true /\ is_empty (privateKey c) = false)
         configs ->
  getClobContext X config s =
    (Normal (Some ctx), set_memo (Some (Fulfilled ctx)) s1) /\
  run_getClobContext X (config :: configs) s =
    set_memo (Some (Fulfilled ctx)) s1 /\
  (forall c s0,
      In c configs ->
      clobContextPromise s0 = Some (Fulfilled ctx) ->
      getClobContext X c s0 = (Normal (Some ctx), set_flag false s0)).
Proof.
  intros Hon Hkey Hmemo Hinit Hall.
  assert (Hfirst : getClobContext X config s =
                   (Normal (Some ctx), set_memo (Some (Fulfilled ctx)) s1)).
  { rewrite (getClobContext_with_key _ _ _ Hon Hkey), Hmemo, Hinit.
    reflexivity. }
  assert (Hlater : forall c s0,
             enabled c = true /\ is_empty (privateKey c) = false ->
             clobContextPromise s0 = Some (Fulfilled ctx) ->
             getClobContext X c s0 = (Normal (Some ctx), set_flag false s0)).
  { intros c s0 [Hc Hk] Hm.
    rewrite (getClobContext_with_key _ _ _ Hc Hk), Hm. reflexivity. }
  split; [exact Hfirst|]. split.
  - simpl. rewrite Hfirst. simpl.
    destruct (initClobContext_outcome config (set_flag false s))
      as (r & s1' & evs & Hinit' & _ & _ & Hflag & _).
    rewrite Hinit in Hinit'. inversion Hinit'; subst r s1'.
    simpl in Hflag.
    assert (Hstable : forall s0,
               clobContextPromise s0 = Some (Fulfilled ctx) ->
               warnedMissingKey s0 = false ->
               run_getClobContext X configs s0 = s0).
    { induction Hall as [|c rest Hc Hrest IH]; intros s0 Hm Hw; simpl.
      - reflexivity.
      - rewrite (Hlater c s0 Hc Hm). simpl.
        assert (Hsame : set_flag false s0 = s0).
        { destruct s0 as [w m f t]. simpl in Hw. subst f. reflexivity. }
        rewrite Hsame. apply IH; assumption. }
    apply Hstable; [reflexivity | exact Hflag].
  - intros c s0 Hin Hm. apply Hlater; [|exact Hm].
    rewrite Forall_forall in Hall. apply Hall. exact Hin.
Qed.

End Session.


(** One call that initializes the session and three more. *)
Lemma session_initialized_once_witness :
  let X := Scripted.exchange (Ok Scripted.signer) (Ok Scripted.api_creds)
                             (Ok None) (Ok None) (Ok None) in
  exists ctx,
    fst (getClobContext X Scripted.config_on Scripted.fresh)
      = Normal (Some ctx) /\
    credential_requests
      (trace (run_getClobContext X
                [Scripted.config_on; Scripted.config_on; Scripted.config_on;
                 Scripted.config_on] Scripted.fresh)) = 1%nat.
Proof.
  intros X.
  destruct (initClobContext X Scripted.config_on
                            (set_flag false Scripted.fresh))
    as [[ctx | e |] s1] eqn:Hrun; try (vm_compute in Hrun; discriminate).
  destruct (session_initialized_once X Scripted.config_on
              [Scripted.config_on; Scripted.config_on; Scripted.config_on]
              Scripted.fresh s1 ctx eq_refl eq_refl eq_refl Hrun)
    as (Hfirst & Hall & _).
  { repeat constructor. }
  exists ctx. split.
  - rewrite Hfirst. reflexivity.
  - rewrite Hall. vm_compute in Hrun. inversion Hrun. reflexivity.
Defined.

End SessionFacts.

(** ** More on order submission *)

Module SubmissionFacts.

Import JS Trading TradingAccount TradingFacts SessionFacts.
Local Open Scope float_scope.

Section Submission.

Context {W : Type} (X : Exchange W).

Lemma order_posts_app (tr evs : list event) :
  order_posts (tr ++ evs) = (order_posts tr + order_posts evs)%nat.
Proof.
  unfold order_posts. rewrite filter_app, length_app. reflexivity.
Qed.

Lemma order_posts_session (evs : list event) :
  forallb is_session_event evs = true -> order_posts evs = 0%nat.
Proof.
  induction evs as [|ev rest IH]; simpl; [reflexivity|].
  intros H. apply andb_true_iff in H. destruct H as [Hev Hrest].
  unfold order_posts in *. simpl.
  destruct ev; simpl in *; try discriminate; apply IH; exact Hrest.
Qed.

Ltac count_posts :=
  rewrite ?order_posts_app in *; unfold order_posts in *; simpl in *; lia.

(** Acquiring the session submits no order. *)
Lemma getClobContext_no_post (config : Config) (s : St W) :
  exists r s1,
    getClobContext X config s = (Normal r, s1) /\
    order_posts (trace s1) = order_posts (trace s).
Proof.
  destruct (getClobContext_events X config s) as (r & evs & Hr & Htr & Hev).
  destruct (getClobContext X config s) as [c s1]. simpl in *. subst c.
  exists r, s1. split; [reflexivity|].
  rewrite Htr, order_posts_app, (order_posts_session _ Hev). lia.
Qed.

Lemma fetch_metadata_outcome (ctx : ClobContext) (tokenId : string)
    (tickSize : option string) (negRisk : option bool) (returnError : bool)
    (warning : string) (s : St W) :
  exists m s1,
    fetch_metadata X ctx tokenId tickSize negRisk returnError warning s
      = (Normal m, s1) /\
    order_posts (trace s1) = order_posts (trace s) /\
    match m with
    | inl early => well_reported returnError early
    | inr _ => True
    end.
Proof.
  unfold fetch_metadata.
  assert (Hfetch :
    exists m s1,
      try_catch
        (bind (client_call (EvGetTickSize tokenId)
                           (getTickSize X (client ctx) tokenId))
           (fun t =>
              bind (client_call (EvGetNegRisk tokenId)
                                (getNegRisk X (client ctx) tokenId))
                (fun n => ret (inr (t, n)))))
        (fun err =>
           bind (logger Warn warning)
             (fun _ =>
                if returnError then
                  ret (inl (Some {| res_orderId := JStr EmptyString;
                                    res_status := JStr EmptyString;
                                    res_error :=
                                      Some ("metadata fetch failed: "
                                            ++ formatError err)%string |}))
                else ret (inl None))) s = (Normal m, s1) /\
      order_posts (trace s1) = order_posts (trace s) /\
      match m with
      | inl early => well_reported returnError early
      | inr _ => True
      end).
  { run_monad.
    destruct (getTickSize X (client ctx) tokenId (world s)) as [[t | e] w1];
      simpl.
    - destruct (getNegRisk X (client ctx) tokenId w1) as [[n | e] w2]; simpl.
      + eexists _, _. split; [reflexivity|]. simpl.
        split; [count_posts | exact I].
      + destruct returnError; eexists _, _; (split; [reflexivity|]); simpl;
          (split; [count_posts|]);
          [right; repeat split; discriminate | reflexivity].
    - destruct returnError; eexists _, _; (split; [reflexivity|]); simpl;
        (split; [count_posts|]);
        [right; repeat split; discriminate | reflexivity]. }
  destruct tickSize as [t|], negRisk as [n|]; try exact Hfetch.
  eexists _, _. split; [reflexivity|]. split; [reflexivity | exact I].
Qed.

Lemma normalize_response_outcome (response : option Response)
    (returnError : bool) (warning submitted : string) (s : St W) :
  exists r ev,
    normalize_response X response returnError warning submitted s
      = (Normal r, logged ev s) /\
    is_order_post ev = false /\
    well_reported returnError r.
Proof.
  unfold normalize_response.
  destruct (truthy (response_orderId response)) eqn:Hid; simpl; run_monad.
  - eexists _, (EvLog Info submitted). split; [reflexivity|].
    split; [reflexivity|]. left. split; [reflexivity | exact Hid].
  - destruct returnError; eexists _, (EvLog Warn warning);
      (split; [reflexivity|]); (split; [reflexivity|]); simpl.
    + right. repeat split. discriminate.
    + reflexivity.
Qed.

Lemma placeLimitOrder_outcome (config : Config) (opts : LimitOpts)
    (s : St W) :
  exists r s',
    placeLimitOrder X config opts s = (Normal r, s') /\
    well_reported (lo_returnError opts) r /\
    (order_posts (trace s') <= order_posts (trace s) + 1)%nat.
Proof.
  unfold placeLimitOrder. unfold bind at 1.
  destruct (getClobContext_no_post config s) as (c & s1 & Hctx & Hp1).
  rewrite Hctx. destruct c as [ctx|].
  2:{ eexists _, _. split; [reflexivity|]. split; [|lia].
      unfold missing_context. destruct (lo_returnError opts); simpl.
      - right. repeat split. discriminate.
      - reflexivity. }
  unfold bind at 1.
  destruct (fetch_metadata_outcome ctx (lo_tokenId opts) (lo_tickSize opts)
              (lo_negRisk opts) (lo_returnError opts)
              "Failed to fetch order metadata token=%s side=%s: %s" s1)
    as (m & s2 & Hmeta & Hp2 & Hm).
  rewrite Hmeta. destruct m as [early | [tickSize negRisk]].
  { eexists _, _. split; [reflexivity|]. split; [exact Hm | lia]. }
  run_monad.
  match goal with
  | |- context [createAndPostOrder X ?c ?o ?t ?n ?ot ?w] =>
      destruct (createAndPostOrder X c o t n ot w) as [[response | e] w3]
  end; simpl.
  - match goal with
    | |- context [normalize_response X ?r ?b ?w ?m ?st] =>
        destruct (normalize_response_outcome r b w m st)
          as (r' & ev & Hnorm & Hev & Hr');
        rewrite Hnorm
    end.
    eexists _, _. split; [reflexivity|]. split; [exact Hr'|].
    unfold logged. simpl. rewrite !order_posts_app.
    assert (Hzero : order_posts [ev] = 0%nat)
      by (unfold order_posts; simpl; rewrite Hev; reflexivity).
    rewrite Hzero. count_posts.
  - eexists _, _. split; [reflexivity|]. split.
    + unfold submission_error. destruct (lo_returnError opts); simpl.
      * right. repeat split. discriminate.
      * reflexivity.
    + simpl. count_posts.
Qed.

Lemma placeMarketOrder_outcome (config : Config) (opts : MarketOpts)
    (s : St W) :
  exists r s',
    placeMarketOrder X config opts s = (Normal r, s') /\
    well_reported (mo_returnError opts) r /\
    (order_posts (trace s') <= order_posts (trace s) + 1)%nat.
Proof.
  unfold placeMarketOrder. unfold bind at 1.
  destruct (getClobContext_no_post config s) as (c & s1 & Hctx & Hp1).
  rewrite Hctx. destruct c as [ctx|].
  2:{ eexists _, _. split; [reflexivity|]. split; [|lia].
      unfold missing_context. destruct (mo_returnError opts); simpl.
      - right. repeat split. discriminate.
      - reflexivity. }
  unfold bind at 1.
  destruct (fetch_metadata_outcome ctx (mo_tokenId opts) (mo_tickSize opts)
              (mo_negRisk opts) (mo_returnError opts)
              "Failed to fetch market order metadata token=%s side=%s: %s" s1)
    as (m & s2 & Hmeta & Hp2 & Hm).
  rewrite Hmeta. destruct m as [early | [tickSize negRisk]].
  { eexists _, _. split; [reflexivity|]. split; [exact Hm | lia]. }
  run_monad.
  match goal with
  | |- context [createAndPostMarketOrder X ?c ?o ?t ?n ?ot ?w] =>
      destruct (createAndPostMarketOrder X c o t n ot w)
        as [[response | e] w3]
  end; simpl.
  - match goal with
    | |- context [normalize_response X ?r ?b ?w ?m ?st] =>
        destruct (normalize_response_outcome r b w m st)
          as (r' & ev & Hnorm & Hev & Hr');
        rewrite Hnorm
    end.
    eexists _, _. split; [reflexivity|]. split; [exact Hr'|].
    unfold logged. simpl. rewrite !order_posts_app.
    assert (Hzero : order_posts [ev] = 0%nat)
      by (unfold order_posts; simpl; rewrite Hev; reflexivity).
    rewrite Hzero. count_posts.
  - eexists _, _. split; [reflexivity|]. split.
    + unfold submission_error. destruct (mo_returnError opts); simpl.
      * right. repeat split. discriminate.
      * reflexivity.
    + simpl. count_posts.
Qed.

(** X7: [placeLimitOrder] and [placeMarketOrder] always return: no exception of
    the session, of the metadata calls or of the submission reaches the
    caller.  What they return is a success with a truthy order identifier
    and no error, or a failure: [null] when [returnError] is not set, and
    with [returnError] a record with the empty identifier and an error.
    A call submits at most one order to the exchange. *)
Theorem place_orders_well_reported (config : Config) (s : St W) :
  (forall opts : LimitOpts,
      exists r s',
        placeLimitOrder X config opts s = (Normal r, s') /\
        well_reported (lo_returnError opts) r /\
        (order_posts (trace s') <= order_posts (trace s) + 1)%nat) /\
  (forall opts : MarketOpts,
      exists r s',
        placeMarketOrder X config opts s = (Normal r, s') /\
        well_reported (mo_returnError opts) r /\
        (order_posts (trace s') <= order_posts (trace s) + 1)%nat).
Proof.
  split; intros opts;
    [apply placeLimitOrder_outcome | apply placeMarketOrder_outcome].
Qed.

(** Without a session both order functions report the failure
    "missing clob context" (or [null]) in the state [getClobContext] left:
    no metadata is asked for and nothing is submitted. *)
Theorem place_orders_without_session (config : Config) (s s1 : St W) :
  getClobContext X config s = (Normal None, s1) ->
  (forall opts : LimitOpts,
      placeLimitOrder X config opts s =
      (Normal (if lo_returnError opts
               then Some {| res_orderId := JStr EmptyString;
                            res_status := JStr EmptyString;
                            res_error := Some "missing clob context"%string |}
               else None), s1)) /\
  (forall opts : MarketOpts,
      placeMarketOrder X config opts s =
      (Normal (if mo_returnError opts
               then Some {| res_orderId := JStr EmptyString;
                            res_status := JStr EmptyString;
                            res_error := Some "missing clob context"%string |}
               else None), s1)).
Proof.
  intros Hctx. split; intros opts.
  - unfold placeLimitOrder. unfold bind at 1. rewrite Hctx. reflexivity.
  - unfold placeMarketOrder. unfold bind at 1. rewrite Hctx. reflexivity.
Qed.

(** X8: the tick size and the negative-risk flag of the caller are used only
    when both are given, and then the exchange is not asked.  When one of
    them is missing both are fetched, and a value the caller did give is
    replaced by the fetched one. *)
Theorem metadata_overrides_all_or_nothing (ctx : ClobContext)
    (tokenId : string) (tickSize : option string) (negRisk : option bool)
    (returnError : bool) (warning : string) (s : St W) :
  (forall t n,
      tickSize = Some t -> negRisk = Some n ->
      fetch_metadata X ctx tokenId tickSize negRisk returnError warning s
        = (Normal (inr (t, n)), s)) /\
  (forall t n w1 w2,
      tickSize = None \/ negRisk = None ->
      getTickSize X (client ctx) tokenId (world s) = (Ok t, w1) ->
      getNegRisk X (client ctx) tokenId w1 = (Ok n, w2) ->
      fetch_metadata X ctx tokenId tickSize negRisk returnError warning s
        = (Normal (inr (t, n)),
           set_world w2 (logged (EvGetNegRisk tokenId)
                           (logged (EvGetTickSize tokenId) s)))).
Proof.
  split.
  - intros t n Ht Hn. subst. reflexivity.
  - intros t n w1 w2 Hmissing Htick Hneg.
    assert (Hfetch :
      try_catch
        (bind (client_call (EvGetTickSize tokenId)
                           (getTickSize X (client ctx) tokenId))
           (fun t =>
              bind (client_call (EvGetNegRisk tokenId)
                                (getNegRisk X (client ctx) tokenId))
                (fun n => ret (inr (t, n)))))
        (fun err =>
           bind (logger Warn warning)
             (fun _ =>
                if returnError then
                  ret (inl (Some {| res_orderId := JStr EmptyString;
                                    res_status := JStr EmptyString;
                                    res_error :=
                                      Some ("metadata fetch failed: "
                                            ++ formatError err)%string |}))
                else ret (inl None))) s
      = (Normal (inr (t, n)),
         set_world w2 (logged (EvGetNegRisk tokenId)
                         (logged (EvGetTickSize tokenId) s)))).
    { run_monad. rewrite Htick. simpl. rewrite Hneg. reflexivity. }
    unfold fetch_metadata.
    destruct Hmissing as [H | H]; subst.
    + exact Hfetch.
    + destruct tickSize; exact Hfetch.
Qed.

Lemma fetch_metadata_failure (ctx : ClobContext) (tokenId : string)
    (tickSize : option string) (negRisk : option bool) (returnError : bool)
    (warning : string) (s : St W) (e : thrown) :
  tickSize = None \/ negRisk = None ->
  fst (getTickSize X (client ctx) tokenId (world s)) = Raise e \/
  (exists t,
      fst (getTickSize X (client ctx) tokenId (world s)) = Ok t /\
      fst (getNegRisk X (client ctx) tokenId
             (snd (getTickSize X (client ctx) tokenId (world s)))) = Raise e) ->
  exists s1,
    fetch_metadata X ctx tokenId tickSize negRisk returnError warning s
      = (Normal (inl (submission_error returnError
                        ("metadata fetch failed: " ++ formatError e)%string)),
         s1) /\
    order_posts (trace s1) = order_posts (trace s).
Proof.
  intros Hmissing Hfail.
  assert (Hfetch :
    exists s1,
      try_catch
        (bind (client_call (EvGetTickSize tokenId)
                           (getTickSize X (client ctx) tokenId))
           (fun t =>
              bind (client_call (EvGetNegRisk tokenId)
                                (getNegRisk X (client ctx) tokenId))
                (fun n => ret (inr (t, n)))))
        (fun err =>
           bind (logger Warn warning)
             (fun _ =>
                if returnError then
                  ret (inl (Some {| res_orderId := JStr EmptyString;
                                    res_status := JStr EmptyString;
                                    res_error :=
                                      Some ("metadata fetch failed: "
                                            ++ formatError err)%string |}))
                else ret (inl None))) s
      = (Normal (inl (submission_error returnError
                        ("metadata fetch failed: " ++ formatError e)%string)),
         s1) /\
      order_posts (trace s1) = order_posts (trace s)).
  { run_monad. unfold submission_error.
    destruct (getTickSize X (client ctx) tokenId (world s)) as [[t | e1] w1];
      simpl in *.
    - destruct Hfail as [Hfail | (t' & _ & Hfail)]; [discriminate|].
      destruct (getNegRisk X (client ctx) tokenId w1) as [[n | e2] w2];
        simpl in *; [discriminate|].
      inversion Hfail; subst e2.
      destruct returnError; eexists; (split; [reflexivity|]); simpl;
        count_posts.
    - destruct Hfail as [Hfail | (t' & Hfail & _)]; [|discriminate].
      inversion Hfail; subst e1.
      destruct returnError; eexists; (split; [reflexivity|]); simpl;
        count_posts. }
  unfold fetch_metadata.
  destruct Hmissing as [H | H]; subst.
  - exact Hfetch.
  - destruct tickSize; exact Hfetch.
Qed.

(** X9: when the tick size or the negative-risk flag has to be fetched and the
    fetch throws, both order functions report
    ["metadata fetch failed: "] followed by the formatted exception (or
    [null]), and no order is submitted. *)
Theorem metadata_failure_reported (config : Config) (s s1 : St W)
    (ctx : ClobContext) (e : thrown) :
  getClobContext X config s = (Normal (Some ctx), s1) ->
  (forall opts : LimitOpts,
      lo_tickSize opts = None \/ lo_negRisk opts = None ->
      fst (getTickSize X (client ctx) (lo_tokenId opts) (world s1)) = Raise e \/
      (exists t,
          fst (getTickSize X (client ctx) (lo_tokenId opts) (world s1)) = Ok t /\
          fst (getNegRisk X (client ctx) (lo_tokenId opts)
                 (snd (getTickSize X (client ctx) (lo_tokenId opts)
                                   (world s1)))) = Raise e) ->
      exists s',
        placeLimitOrder X config opts s =
          (Normal (submission_error (lo_returnError opts)
                     ("metadata fetch failed: " ++ formatError e)%string), s') /\
        order_posts (trace s') = order_posts (trace s1)) /\
  (forall opts : MarketOpts,
      mo_tickSize opts = None \/ mo_negRisk opts = None ->
      fst (getTickSize X (client ctx) (mo_tokenId opts) (world s1)) = Raise e \/
      (exists t,
          fst (getTickSize X (client ctx) (mo_tokenId opts) (world s1)) = Ok t /\
          fst (getNegRisk X (client ctx) (mo_tokenId opts)
                 (snd (getTickSize X (client ctx) (mo_tokenId opts)
                                   (world s1)))) = Raise e) ->
      exists s',
        placeMarketOrder X config opts s =
          (Normal (submission_error (mo_returnError opts)
                     ("metadata fetch failed: " ++ formatError e)%string), s') /\
        order_posts (trace s') = order_posts (trace s1)).
Proof.
  intros Hctx. split; intros opts Hmissing Hfail.
  - destruct (fetch_metadata_failure ctx (lo_tokenId opts) (lo_tickSize opts)
                (lo_negRisk opts) (lo_returnError opts)
                "Failed to fetch order metadata token=%s side=%s: %s" s1 e
                Hmissing Hfail) as (s2 & Hmeta & Hposts).
    exists s2. split; [|exact Hposts].
    unfold placeLimitOrder. unfold bind at 1. rewrite Hctx.
    unfold bind at 1. rewrite Hmeta. reflexivity.
  - destruct (fetch_metadata_failure ctx (mo_tokenId opts) (mo_tickSize opts)
                (mo_negRisk opts) (mo_returnError opts)
                "Failed to fetch market order metadata token=%s side=%s: %s"
                s1 e Hmissing Hfail) as (s2 & Hmeta & Hposts).
    exists s2. split; [|exact Hposts].
    unfold placeMarketOrder. unfold bind at 1. rewrite Hctx.
    unfold bind at 1. rewrite Hmeta. reflexivity.
Qed.

(** X10: when the submission itself throws, both order functions report the
    formatted exception as the error (or [null]): the exception does not
    reach the caller and the result is never a success. *)
Theorem submission_exception_reported (config : Config) (s s1 s2 : St W)
    (ctx : ClobContext) (tickSize : string) (negRisk : bool) (e : thrown)
    (w3 : W) :
  getClobContext X config s = (Normal (Some ctx), s1) ->
  (forall opts : LimitOpts,
      let orderType :=
        match lo_orderType opts with Some t => t | None => OrderType_GTC end in
      fetch_metadata X ctx (lo_tokenId opts) (lo_tickSize opts)
        (lo_negRisk opts) (lo_returnError opts)
        "Failed to fetch order metadata token=%s side=%s: %s" s1
      = (Normal (inr (tickSize, negRisk)), s2) ->
      createAndPostOrder X (client ctx) opts tickSize negRisk orderType
        (world s2) = (Raise e, w3) ->
      exists s3,
        placeLimitOrder X config opts s =
          (Normal (submission_error (lo_returnError opts) (formatError e)),
           s3)) /\
  (forall opts : MarketOpts,
      let orderType :=
        match mo_orderType opts with Some t => t | None => OrderType_FOK end in
      fetch_metadata X ctx (mo_tokenId opts) (mo_tickSize opts)
        (mo_negRisk opts) (mo_returnError opts)
        "Failed to fetch market order metadata token=%s side=%s: %s" s1
      = (Normal (inr (tickSize, negRisk)), s2) ->
      createAndPostMarketOrder X (client ctx) opts tickSize negRisk orderType
        (world s2) = (Raise e, w3) ->
      exists s3,
        placeMarketOrder X config opts s =
          (Normal (submission_error (mo_returnError opts) (formatError e)),
           s3)).
Proof.
  intros Hctx. split; intros opts orderType Hmeta Hpost.
  - unfold placeLimitOrder. unfold bind at 1. rewrite Hctx.
    unfold bind at 1. rewrite Hmeta.
    fold orderType. run_monad. rewrite Hpost. simpl.
    eexists. reflexivity.
  - unfold placeMarketOrder. unfold bind at 1. rewrite Hctx.
    unfold bind at 1. rewrite Hmeta.
    fold orderType. run_monad. rewrite Hpost. simpl.
    eexists. reflexivity.
Qed.


End Submission.


(** The exchange refuses the submission of a limit order. *)
Lemma submission_exception_reported_witness :
  let X := Scripted.exchange (Ok Scripted.signer) (Ok Scripted.api_creds)
                             (Raise Scripted.refused) (Ok None) (Ok None) in
  exists s3,
    placeLimitOrder X Scripted.config_on (Scripted.limit_opts true)
                    Scripted.ready
    = (Normal (Some {| res_orderId := JStr EmptyString;
                       res_status := JStr EmptyString;
                       res_error := Some "refused"%string |}), s3).
Proof.
  intros X.
  destruct (submission_exception_reported X Scripted.config_on Scripted.ready
              (set_flag false Scripted.ready) (set_flag false Scripted.ready)
              Scripted.context "0.01"%string false Scripted.refused 0%float
              eq_refl) as (Hlimit & _).
  exact (Hlimit (Scripted.limit_opts true) eq_refl eq_refl).
Defined.

(** Trading disabled: "missing clob context". *)
Lemma place_orders_without_session_witness :
  let X := Scripted.exchange (Ok Scripted.signer) (Ok Scripted.api_creds)
                             (Ok None) (Ok None) (Ok None) in
  placeLimitOrder X Scripted.config_off (Scripted.limit_opts true)
                  Scripted.fresh
  = (Normal (Some {| res_orderId := JStr EmptyString;
                     res_status := JStr EmptyString;
                     res_error := Some "missing clob context"%string |}),
     Scripted.fresh).
Proof.
  intros X.
  destruct (place_orders_without_session X Scripted.config_off Scripted.fresh
              Scripted.fresh eq_refl) as (Hlimit & _).
  exact (Hlimit (Scripted.limit_opts true)).
Defined.

(** The metadata service refuses: the order is not submitted. *)
Lemma metadata_failure_reported_witness :
  let X := ScriptedAccount.without_metadata
             (Scripted.exchange (Ok Scripted.signer) (Ok Scripted.api_creds)
                                (Ok (Some ScriptedAccount.accepted))
                                (Ok None) (Ok None)) in
  exists s',
    placeLimitOrder X Scripted.config_on ScriptedAccount.bare_limit_opts
                    Scripted.ready
    = (Normal (Some {| res_orderId := JStr EmptyString;
                       res_status := JStr EmptyString;
                       res_error :=
                         Some "metadata fetch failed: refused"%string |}), s') /\
    order_posts (trace s') = 0%nat.
Proof.
  intros X.
  destruct (metadata_failure_reported X Scripted.config_on Scripted.ready
              (set_flag false Scripted.ready) Scripted.context
              Scripted.refused eq_refl) as (Hlimit & _).
  exact (Hlimit ScriptedAccount.bare_limit_opts (or_introl eq_refl)
                (or_introl eq_refl)).
Defined.

End SubmissionFacts.

(** ** More on fill tracking *)

Module FillFacts.

Import JS Trading TradingAccount TradingFacts SessionFacts SubmissionFacts.
Import FloatOrderFacts.
Local Open Scope float_scope.

Section FillTracking.

Context {W : Type} (X : Exchange W).

Lemma trade_fetches_app (tr evs : list event) :
  trade_fetches (tr ++ evs) = trade_fetches tr ++ trade_fetches evs.
Proof.
  induction tr as [|ev rest IH]; simpl; [reflexivity|].
  destruct ev; simpl; rewrite IH; reflexivity.
Qed.

Lemma order_posts_snoc (tr : list event) (ev : event) :
  is_order_post ev = false ->
  order_posts (tr ++ [ev]) = order_posts tr.
Proof.
  intros Hev. rewrite order_posts_app. unfold order_posts at 2. simpl.
  rewrite Hev. simpl. lia.
Qed.

(** The loop over the trade identifiers: it keeps what it had, asks for
    each identifier once and in order, and touches nothing else. *)
Lemma fetchTrades_loop_outcome (ctx : ClobContext) (tradeIds : list string) :
  forall (trades : list Trade) (s : St W),
  exists more s',
    fetchTrades_loop X ctx tradeIds trades s = (Normal (trades ++ more), s') /\
    trade_fetches (trace s') = trade_fetches (trace s) ++ tradeIds /\
    order_posts (trace s') = order_posts (trace s) /\
    clobContextPromise s' = clobContextPromise s /\
    warnedMissingKey s' = warnedMissingKey s.
Proof.
  induction tradeIds as [|tradeId rest IH]; intros trades s; simpl.
  - exists [], s. rewrite !app_nil_r. repeat split.
  - run_monad.
    destruct (getTrades X (client ctx) tradeId (world s)) as [[res | e] w1];
      simpl;
      [destruct res as [[|t ts] |]; simpl|];
      match goal with
      | |- context [fetchTrades_loop X ctx rest ?acc ?st] =>
          destruct (IH acc st) as (more & s' & Hloop & Hids & Hposts & Hm & Hf)
      end;
      simpl in Hids, Hposts, Hm, Hf; rewrite Hloop;
      eexists _, s';
      (split; [try rewrite <- app_assoc; reflexivity|]);
      rewrite Hids, Hposts; rewrite ?trade_fetches_app, ?order_posts_app;
      simpl; rewrite <- ?app_assoc; unfold order_posts; simpl;
      repeat split; try assumption; try reflexivity; lia.
Qed.

(** X12: [fetchTradesForOrder] always returns a list: a trade fetch that throws
    is skipped.  It asks the exchange for each associated trade identifier
    exactly once, in the order of the list, also after a fetch has thrown,
    and asks for nothing when there is no order or no identifier. *)
Theorem fetchTradesForOrder_asks_each_once (ctx : ClobContext)
    (order : option Order) (s : St W) :
  exists trades s',
    fetchTradesForOrder X ctx order s = (Normal trades, s') /\
    trade_fetches (trace s') = trade_fetches (trace s) ++ trade_ids_of order /\
    (trade_ids_of order = [] -> trades = [] /\ s' = s).
Proof.
  unfold fetchTradesForOrder, trade_ids_of.
  destruct order as [order|].
  2:{ exists [], s. rewrite app_nil_r. repeat split. }
  destruct (o_associate_trades order) as [[|tradeId rest] |].
  - exists [], s. rewrite app_nil_r. repeat split.
  - destruct (fetchTrades_loop_outcome ctx (tradeId :: rest) [] s)
      as (more & s' & Hloop & Hids & _).
    exists more, s'. split; [exact Hloop|]. split; [exact Hids|].
    discriminate.
  - exists [], s. rewrite app_nil_r. repeat split.
Qed.

Lemma fetchTradesForOrder_frame (ctx : ClobContext) (order : option Order)
    (s : St W) :
  exists trades s',
    fetchTradesForOrder X ctx order s = (Normal trades, s') /\
    order_posts (trace s') = order_posts (trace s) /\
    clobContextPromise s' = clobContextPromise s /\
    warnedMissingKey s' = warnedMissingKey s.
Proof.
  unfold fetchTradesForOrder.
  destruct order as [order|]; [|exists [], s; repeat split].
  destruct (o_associate_trades order) as [[|tradeId rest] |];
    try solve [exists [], s; repeat split].
  destruct (fetchTrades_loop_outcome ctx (tradeId :: rest) [] s)
    as (more & s' & Hloop & _ & Hposts & Hm & Hf).
  exists more, s'. repeat split; assumption.
Qed.

(** The polling loop never throws and submits nothing.  A snapshot it
    returns carries an order that [getOrder] gave, its status, and the fill
    computed from the trades it lists; and the order it leaves with is one
    that [getOrder] gave, or the one it started with. *)
Lemma poll_loop_outcome (fuel : nat) :
  forall (ctx : ClobContext) (orderId : string)
         (maxWaitMs pollIntervalMs : float) (preferTrades : bool)
         (started : float) (lastOrder : option Order) (trades : list Trade)
         (s : St W),
  (forall order, lastOrder = Some order ->
                 exists w, fst (getOrder X (client ctx) orderId w)
                           = Ok (Some order)) ->
  exists r s',
    poll_loop X fuel ctx orderId maxWaitMs pollIntervalMs preferTrades
              started lastOrder trades s = (r, s') /\
    order_posts (trace s') = order_posts (trace s) /\
    clobContextPromise s' = clobContextPromise s /\
    match r with
    | Throw _ => False
    | OutOfFuel => True
    | Normal (Returned snap) =>
        fill_agrees_with_trades snap /\
        exists order,
          snap_order snap = Some order /\
          snap_status snap = o_status order /\
          exists w, fst (getOrder X (client ctx) orderId w) = Ok (Some order)
    | Normal (Left last _) =>
        forall order, last = Some order ->
                      exists w, fst (getOrder X (client ctx) orderId w)
                                = Ok (Some order)
    end.
Proof.
  induction fuel as [|fuel IH];
    intros ctx orderId maxWaitMs pollIntervalMs preferTrades started
           lastOrder trades s Hlast.
  - exists OutOfFuel, s. repeat split.
  - simpl. unfold bind at 1. unfold world_read at 1.
    destruct (Date_now X (world s)) as [now w1].
    destruct (now - started <=? maxWaitMs).
    2:{ eexists _, _. split; [reflexivity|]. repeat split. exact Hlast. }
    unfold bind at 1. unfold try_catch at 1, client_call at 1. simpl.
    destruct (getOrder X (client ctx) orderId w1) as [[order | e] w2] eqn:Hget;
      simpl.
    + (* the order was fetched *)
      assert (Hnew : forall o, order = Some o ->
                exists w, fst (getOrder X (client ctx) orderId w)
                          = Ok (Some o)).
      { intros o Ho. exists w1. rewrite Hget, Ho. reflexivity. }
      destruct (has_associate_trades order) eqn:Htrades.
      * unfold bind at 1. unfold bind at 1.
        match goal with
        | |- context [fetchTradesForOrder X ctx order ?st] =>
            destruct (fetchTradesForOrder_frame ctx order st)
              as (fetched & s3 & Hfetch & Hp3 & Hm3 & _)
        end.
        rewrite Hfetch. simpl in Hp3, Hm3.
        rewrite order_posts_snoc in Hp3 by reflexivity.
        destruct (gtb (filledSize (computeFillFromTrades fetched)) 0
                  || not_live match order with
                              | Some o => o_status o
                              | None => None
                              end).
        -- eexists _, _. split; [reflexivity|].
           split; [exact Hp3|]. split; [exact Hm3|].
           split; [split; reflexivity|]. simpl.
           destruct order as [o|]; [|discriminate Htrades].
           exists o. split; [reflexivity|]. split; [reflexivity|].
           apply Hnew. reflexivity.
        -- unfold ret at 1.
           destruct (left_live order && negb preferTrades).
           ++ eexists _, _. split; [reflexivity|].
              repeat split; assumption.
           ++ run_monad.
              match goal with
              | |- context [poll_loop X fuel ?c ?o ?m ?p ?pt ?st ?lo ?tr ?s0] =>
                  destruct (IH c o m p pt st lo tr s0 Hnew)
                    as (r & s' & Hloop & Hp & Hm & Hr)
              end.
              rewrite Hloop. exists r, s'. split; [reflexivity|].
              simpl in Hp, Hm. rewrite order_posts_snoc in Hp by reflexivity.
              repeat split; try congruence; exact Hr.
      * unfold bind at 1. unfold ret at 1.
        destruct (left_live order && negb preferTrades).
        -- eexists _, _. split; [reflexivity|]. simpl.
           rewrite order_posts_snoc by reflexivity. repeat split.
           exact Hnew.
        -- run_monad.
           match goal with
           | |- context [poll_loop X fuel ?c ?o ?m ?p ?pt ?st ?lo ?tr ?s0] =>
               destruct (IH c o m p pt st lo tr s0 Hnew)
                 as (r & s' & Hloop & Hp & Hm & Hr)
           end.
           rewrite Hloop. exists r, s'. split; [reflexivity|].
           simpl in Hp, Hm. rewrite !order_posts_snoc in Hp by reflexivity.
           repeat split; try congruence; exact Hr.
    + (* the fetch threw *)
      run_monad.
      match goal with
      | |- context [poll_loop X fuel ?c ?o ?m ?p ?pt ?st ?lo ?tr ?s0] =>
          destruct (IH c o m p pt st lo tr s0)
            as (r & s' & Hloop & Hp & Hm & Hr); [discriminate|]
      end.
      rewrite Hloop. exists r, s'. split; [reflexivity|].
      simpl in Hp, Hm. rewrite !order_posts_snoc in Hp by reflexivity.
      repeat split; try congruence; exact Hr.
Qed.

(** What a snapshot of [fetchOrderFills] holds. *)
Lemma fetchOrderFills_outcome (fuel : nat) (config : Config)
    (orderId : string) (opts : FillOpts) (s : St W) :
  exists r s',
    fetchOrderFills X fuel config orderId opts s = (r, s') /\
    order_posts (trace s') = order_posts (trace s) /\
    match r with
    | Throw _ => False
    | OutOfFuel => True
    | Normal None => True
    | Normal (Some snap) =>
        (fo_preferTrades opts = Some true -> fill_agrees_with_trades snap) /\
        (snap = unknown_snapshot \/
         exists ctx order,
           fst (getClobContext X config s) = Normal (Some ctx) /\
           snap_order snap = Some order /\
           (exists w, fst (getOrder X (client ctx) orderId w)
                      = Ok (Some order)) /\
           status_from_order order snap /\
           (fill_agrees_with_trades snap \/
            (fo_preferTrades opts <> Some true /\
             fill_from_order order snap)))
    end.
Proof.
  unfold fetchOrderFills. unfold bind at 1.
  destruct (getClobContext_no_post X config s) as (c & s1 & Hctx & Hp1).
  rewrite Hctx. destruct c as [ctx|].
  2:{ eexists _, _. split; [reflexivity|]. split; [exact Hp1 | exact I]. }
  unfold bind at 1. unfold world_read at 1.
  destruct (Date_now X (world s1)) as [started w0].
  unfold bind at 1.
  match goal with
  | |- context [poll_loop X fuel ?c ?o ?m ?p ?pt ?st ?lo ?tr ?s0] =>
      destruct (poll_loop_outcome fuel c o m p pt st lo tr s0)
        as (r & s2 & Hloop & Hp2 & _ & Hr); [discriminate|]
  end.
  rewrite Hloop. simpl in Hp2.
  destruct r as [[snap | lastOrder trades] | e |]; simpl.
  - destruct Hr as (Hfill & order & Horder & Hstatus & Hfetched).
    eexists _, _. split; [reflexivity|]. split; [congruence|].
    split; [intros _; exact Hfill|]. right.
    exists ctx, order. repeat split; try assumption.
    + left. exact Hstatus.
    + left. exact Hfill.
  - destruct lastOrder as [lastOrder|].
    + pose proof (Hr lastOrder eq_refl) as Hfetched.
      assert (Hstatus : forall snap,
                snap_status snap = status_or_unknown (o_status lastOrder) ->
                status_from_order lastOrder snap).
      { intros snap Hs. unfold status_from_order. rewrite Hs.
        destruct (o_status lastOrder); [left | right; split]; reflexivity. }
      destruct (fo_preferTrades opts) as [[|]|]; simpl.
      * eexists _, _. split; [reflexivity|]. split; [congruence|].
        split; [intros _; split; reflexivity|]. right.
        exists ctx, lastOrder. repeat split; try assumption.
        -- apply Hstatus. reflexivity.
        -- left. split; reflexivity.
      * eexists _, _. split; [reflexivity|]. split; [congruence|].
        split; [discriminate|]. right.
        exists ctx, lastOrder. repeat split; try assumption.
        -- apply Hstatus. reflexivity.
        -- right. split; [discriminate | split; reflexivity].
      * eexists _, _. split; [reflexivity|]. split; [congruence|].
        split; [discriminate|]. right.
        exists ctx, lastOrder. repeat split; try assumption.
        -- apply Hstatus. reflexivity.
        -- right. split; [discriminate | split; reflexivity].
    + eexists _, _. split; [reflexivity|]. split; [congruence|].
      split; [intros _; split; reflexivity | left; reflexivity].
  - contradiction.
  - eexists _, _. split; [reflexivity|]. split; [congruence | exact I].
Qed.

(** X13: [fetchOrderFills] never throws: a failing [getOrder] or trade fetch is
    absorbed, whatever the exchange does.  It only reads: no order is
    submitted while it polls. *)
Theorem fetchOrderFills_never_throws (fuel : nat) (config : Config)
    (orderId : string) (opts : FillOpts) (s : St W) :
  (forall e, fst (fetchOrderFills X fuel config orderId opts s) <> Throw e) /\
  order_posts (trace (snd (fetchOrderFills X fuel config orderId opts s)))
    = order_posts (trace s).
Proof.
  destruct (fetchOrderFills_outcome fuel config orderId opts s)
    as (r & s' & Hrun & Hposts & Hr).
  rewrite Hrun. simpl. split; [|exact Hposts].
  intros e He. subst r. exact Hr.
Qed.


(** X15: a bound [maxWaitMs] that is NaN admits no iteration: the comparison
    with NaN fails at once, and [fetchOrderFills] returns the "unknown"
    snapshot without asking the exchange for the order and without
    sleeping. *)
Theorem fetchOrderFills_nan_wait (fuel : nat) (config : Config)
    (orderId : string) (opts : FillOpts) (s s1 : St W) (ctx : ClobContext) :
  getClobContext X config s = (Normal (Some ctx), s1) ->
  fo_maxWaitMs opts = Some nan ->
  exists s',
    fetchOrderFills X (S fuel) config orderId opts s
      = (Normal (Some unknown_snapshot), s') /\
    trace s' = trace s1.
Proof.
  intros Hctx Hnan. unfold fetchOrderFills. rewrite Hnan.
  unfold bind at 1. rewrite Hctx.
  unfold bind at 1. unfold world_read at 1.
  destruct (Date_now X (world s1)) as [started w0].
  simpl. run_monad.
  destruct (Date_now X w0) as [now w1]. simpl.
  rewrite leb_nan_r. simpl.
  eexists. split; reflexivity.
Qed.


End FillTracking.


End FillFacts.

(** ** Cancelling, fetching an order, balances *)

Module AccountFacts.

Import JS Trading TradingAccount TradingFacts SessionFacts SubmissionFacts.
Import FloatOrderFacts.
Local Open Scope float_scope.

Section Account.

Context {W : Type} (X : Exchange W) (A : Account W).

Ltac run_account := unfold account_call; run_monad.

(** X17: [cancelOrder] and [fetchOrder] never throw.  [cancelOrder] returns true
    exactly when a session was obtained and the client's call returned;
    [fetchOrder] returns an order exactly when a session was obtained and
    the client's call returned that order.  Without a session neither asks
    the exchange: the state is the one [getClobContext] left. *)
Theorem cancel_and_fetch_fail_softly (config : Config) (orderId : string)
    (s : St W) :
  (exists b s',
      cancelOrder X A config orderId s = (Normal b, s') /\
      (b = true <->
       exists ctx,
         fst (getClobContext X config s) = Normal (Some ctx) /\
         fst (client_cancelOrder A (client ctx) orderId
                (world (snd (getClobContext X config s)))) = Ok tt) /\
      (fst (getClobContext X config s) = Normal None ->
       s' = snd (getClobContext X config s))) /\
  (exists o s',
      fetchOrder X config orderId s = (Normal o, s') /\
      (forall order,
          o = Some order <->
          exists ctx,
            fst (getClobContext X config s) = Normal (Some ctx) /\
            fst (getOrder X (client ctx) orderId
                   (world (snd (getClobContext X config s))))
              = Ok (Some order)) /\
      (fst (getClobContext X config s) = Normal None ->
       s' = snd (getClobContext X config s))).
Proof.
  destruct (getClobContext_no_post X config s) as (c & s1 & Hctx & _).
  split.
  - unfold cancelOrder. unfold bind at 1. rewrite Hctx. simpl.
    destruct c as [ctx|].
    + run_account.
      destruct (client_cancelOrder A (client ctx) orderId (world s1))
        as [[[] | e] w1] eqn:Hcall; simpl.
      * eexists _, _. split; [reflexivity|]. split; [|discriminate].
        split; [intros _ | reflexivity].
        exists ctx. split; [reflexivity|]. rewrite Hcall. reflexivity.
      * eexists _, _. split; [reflexivity|]. split; [|discriminate].
        split; [discriminate|].
        intros (ctx' & Hsame & Hok). inversion Hsame; subst ctx'.
        rewrite Hcall in Hok. discriminate.
    + eexists _, _. split; [reflexivity|]. split; [|reflexivity].
      split; [discriminate|]. intros (ctx' & Hsame & _). discriminate.
  - unfold fetchOrder. unfold bind at 1. rewrite Hctx. simpl.
    destruct c as [ctx|].
    + run_monad.
      destruct (getOrder X (client ctx) orderId (world s1))
        as [[o | e] w1] eqn:Hcall; simpl.
      * eexists _, _. split; [reflexivity|]. split; [|discriminate].
        intros order. split.
        -- intros Ho. subst o. exists ctx. split; [reflexivity|].
           rewrite Hcall. reflexivity.
        -- intros (ctx' & Hsame & Hok). inversion Hsame; subst ctx'.
           rewrite Hcall in Hok. inversion Hok. reflexivity.
      * eexists _, _. split; [reflexivity|]. split; [|discriminate].
        intros order. split; [discriminate|].
        intros (ctx' & Hsame & Hok). inversion Hsame; subst ctx'.
        rewrite Hcall in Hok. discriminate.
    + eexists _, _. split; [reflexivity|]. split; [|reflexivity].
      intros order. split; [discriminate|].
      intros (ctx' & Hsame & _). discriminate.
Qed.

Lemma context_or_session_returns (config : Config)
    (ctx : option ClobContext) (s : St W) :
  exists c s1,
    context_or_session X config ctx s = (Normal c, s1) /\
    order_posts (trace s1) = order_posts (trace s).
Proof.
  unfold context_or_session. destruct ctx as [ctx|].
  - exists (Some ctx), s. split; reflexivity.
  - apply getClobContext_no_post.
Qed.

Lemma balance_of_outcome (res : option BalanceAllowance) (s : St W) :
  balance_outcome (fst (balance_of (W := W) res s)) /\
  snd (balance_of (W := W) res s) = s.
Proof.
  unfold balance_of. destruct res as [res|]; simpl; [|split; reflexivity].
  unfold Number_isFinite. split; [|reflexivity].
  destruct (is_finite match ba_balance res with
                      | Some v => v
                      | None => 0
                      end) eqn:Hfin.
  - split; [exact Hfin | reflexivity].
  - split; reflexivity.
Qed.

Lemma fetchCollateralBalance_outcome (config : Config)
    (ctx : option ClobContext) (s : St W) :
  exists r s',
    fetchCollateralBalance X A config ctx s = (r, s') /\
    balance_outcome r /\ order_posts (trace s') = order_posts (trace s).
Proof.
  destruct (context_or_session_returns config ctx s)
    as (c & s1 & Hctx & Hp1).
  unfold fetchCollateralBalance. unfold bind at 1. rewrite Hctx.
  destruct c as [clob|];
    [|eexists _, _; split; [reflexivity|]; split; [exact I | exact Hp1]].
  run_account.
  destruct (client_getBalanceAllowance A (client clob) COLLATERAL None
                                       (world s1)) as [[res | e] w1];
    simpl.
  - match goal with
    | |- context [balance_of res ?st] =>
        destruct (balance_of_outcome res st) as (Hout & Hst);
        destruct (balance_of res st) as [r s2]
    end.
    simpl in *. subst s2.
    eexists _, _. split; [reflexivity|]. split; [exact Hout | exact Hp1].
  - eexists _, _. split; [reflexivity|]. split; [exact I|]. simpl.
    rewrite order_posts_app. unfold order_posts at 2. simpl. lia.
Qed.

Lemma fetchConditionalBalance_outcome (config : Config) (tokenId : string)
    (ctx : option ClobContext) (s : St W) :
  exists r s',
    fetchConditionalBalance X A config tokenId ctx s = (r, s') /\
    balance_outcome r /\ order_posts (trace s') = order_posts (trace s).
Proof.
  destruct (context_or_session_returns config ctx s)
    as (c & s1 & Hctx & Hp1).
  unfold fetchConditionalBalance. unfold bind at 1. rewrite Hctx.
  destruct c as [clob|];
    [|eexists _, _; split; [reflexivity|]; split; [exact I | exact Hp1]].
  destruct (is_empty tokenId);
    [eexists _, _; split; [reflexivity|]; split; [exact I | exact Hp1]|].
  run_account.
  destruct (client_getBalanceAllowance A (client clob) CONDITIONAL
                                       (Some tokenId) (world s1))
    as [[res | e] w1]; simpl.
  - match goal with
    | |- context [balance_of res ?st] =>
        destruct (balance_of_outcome res st) as (Hout & Hst);
        destruct (balance_of res st) as [r s2]
    end.
    simpl in *. subst s2.
    eexists _, _. split; [reflexivity|]. split; [exact Hout | exact Hp1].
  - eexists _, _. split; [reflexivity|]. split; [exact I|]. simpl.
    rewrite order_posts_app. unfold order_posts at 2. simpl. lia.
Qed.

(** X18: a balance function returns a balance, returns null (no session, or the
    client threw), or throws a TypeError (the client answered with nothing):
    an exception of the client never reaches the caller.  In a balance it
    returns, [available] is always finite: it is [balance] when that is
    finite and 0 otherwise.  Reading a balance submits no order. *)
Theorem balances_available_finite (config : Config)
    (ctx : option ClobContext) (tokenId : string) (s : St W) :
  balance_outcome (fst (fetchCollateralBalance X A config ctx s)) /\
  balance_outcome (fst (fetchConditionalBalance X A config tokenId ctx s)) /\
  order_posts (trace (snd (fetchCollateralBalance X A config ctx s)))
    = order_posts (trace s) /\
  order_posts (trace (snd (fetchConditionalBalance X A config tokenId ctx s)))
    = order_posts (trace s).
Proof.
  destruct (fetchCollateralBalance_outcome config ctx s)
    as (r1 & s1' & E1 & H1 & H2).
  destruct (fetchConditionalBalance_outcome config tokenId ctx s)
    as (r2 & s2' & E2 & H3 & H4).
  rewrite E1, E2. repeat split; assumption.
Qed.

(** With an empty token identifier [fetchConditionalBalance] returns null
    without asking the client; and a balance function that is handed a
    context does not look at the configuration: it neither acquires a
    session nor checks that trading is enabled. *)
Theorem balance_shortcuts (config config' : Config) (ctx : ClobContext)
    (tokenId : string) (s : St W) :
  fetchConditionalBalance X A config EmptyString (Some ctx) s
    = (Normal None, s) /\
  fetchConditionalBalance X A config EmptyString None s
    = (Normal None, snd (getClobContext X config s)) /\
  fetchCollateralBalance X A config (Some ctx) s
    = fetchCollateralBalance X A config' (Some ctx) s /\
  fetchConditionalBalance X A config tokenId (Some ctx) s
    = fetchConditionalBalance X A config' tokenId (Some ctx) s.
Proof.
  repeat split.
  unfold fetchConditionalBalance, context_or_session. unfold bind at 1.
  destruct (getClobContext_no_post X config s) as (c & s1 & Hctx & _).
  rewrite Hctx. destruct c; reflexivity.
Qed.

End Account.

(** A balance of 3 shares. *)
Example balance_of_three_shares :
  let X := Scripted.exchange (Ok Scripted.signer) (Ok Scripted.api_creds)
                             (Ok None) (Ok None) (Ok None) in
  let A := ScriptedAccount.account (Ok tt)
             (Ok (Some ScriptedAccount.three_shares)) in
  fst (fetchConditionalBalance X A Scripted.config_on "T" None Scripted.ready)
  = Normal (Some {| bal_balance := 3; bal_allowance := 1000;
                    bal_available := 3 |}).
Proof. reflexivity. Qed.

End AccountFacts.

(** ** The request parsers and the guard of the handlers *)

Module ParsingFacts.

Import JS Trading TradingAccount RequestParsing RequestParsingMore.
Import TradingFacts SessionFacts.
Local Open Scope string_scope.

Lemma space_lead (c1 : ascii) :
  is_space c1 = true ->
  forall c2 c3, is_space2 c1 c2 = false /\ is_space3 c1 c2 c3 = false.
Proof.
  destruct c1 as [[] [] [] [] [] [] [] []]; intros H; try discriminate H;
    intros c2 c3; split; reflexivity.
Qed.

Lemma space2_lead (c1 c2 : ascii) :
  is_space2 c1 c2 = true ->
  is_space c1 = false /\ forall c3, is_space3 c1 c2 c3 = false.
Proof.
  unfold is_space2. intros H. apply andb_true_iff in H. destruct H as [H1 _].
  revert H1.
  destruct c1 as [[] [] [] [] [] [] [] []]; intros H; try discriminate H.
  split; [reflexivity | intros c3; reflexivity].
Qed.

Lemma space3_lead (c1 c2 c3 : ascii) :
  is_space3 c1 c2 c3 = true ->
  is_space c1 = false /\ is_space2 c1 c2 = false.
Proof.
  destruct c1 as [[] [] [] [] [] [] [] []]; intros H; try discriminate H;
    split; reflexivity.
Qed.

Lemma append_nil_r (s : string) : s ++ EmptyString = s.
Proof. induction s; simpl; congruence. Qed.

Lemma append_assoc (a b c : string) : (a ++ b) ++ c = a ++ b ++ c.
Proof. induction a; simpl; congruence. Qed.

Lemma is_white_not_empty (w : string) : is_white w = true -> w <> EmptyString.
Proof. intros H Hw. subst w. discriminate H. Qed.

(** One step of [trimStart]: a white-space character at the start is
    dropped; a text that does not start with one is left as it is. *)
Lemma trimStart_step (s : string) :
  (exists w r, is_white w = true /\ s = w ++ r /\ trimStart s = trimStart r) \/
  (trimStart s = s /\ ~ starts_with_space s).
Proof.
  destruct s as [|c1 r1]; [right; split; [reflexivity|]|].
  { intros (w & r & Hw & Hs). destruct w; [discriminate Hw | discriminate Hs]. }
  destruct (is_space c1) eqn:H1.
  { left. exists (String c1 EmptyString), r1. simpl. rewrite H1. repeat split. }
  destruct r1 as [|c2 r2].
  { right. simpl. rewrite H1. split; [reflexivity|].
    intros (w & r & Hw & Hs).
    destruct w as [|a [|b w]]; simpl in Hs; try discriminate.
    inversion Hs; subst. simpl in Hw. congruence. }
  destruct (is_space2 c1 c2) eqn:H2.
  { left. exists (String c1 (String c2 EmptyString)), r2. simpl. rewrite H1, H2.
    repeat split. }
  destruct r2 as [|c3 r3].
  { right. simpl. rewrite H1, H2. split; [reflexivity|].
    intros (w & r & Hw & Hs).
    destruct w as [|a [|b [|c w]]]; simpl in Hs; try discriminate;
      inversion Hs; subst; simpl in Hw; congruence. }
  destruct (is_space3 c1 c2 c3) eqn:H3.
  { left. exists (String c1 (String c2 (String c3 EmptyString))), r3. simpl.
    rewrite H1, H2, H3. repeat split. }
  right. simpl. rewrite H1, H2, H3. split; [reflexivity|].
  intros (w & r & Hw & Hs).
  destruct w as [|a [|b [|c [|d w]]]]; simpl in Hs; try discriminate;
    inversion Hs; subst; simpl in Hw; congruence.
Qed.

Lemma append_length (a b : string) :
  String.length (a ++ b) = (String.length a + String.length b)%nat.
Proof. induction a; simpl; congruence. Qed.

(** What [trimStart] drops is a run of white space, and what it leaves
    does not start with white space. *)
Lemma trimStart_spec (s : string) :
  (exists pre, s = pre ++ trimStart s /\ blank pre) /\
  ~ starts_with_space (trimStart s).
Proof.
  remember (String.length s) as n eqn:Hn.
  revert s Hn. induction n as [n IH] using lt_wf_ind. intros s Hn.
  destruct (trimStart_step s) as [(w & r & Hw & Hs & Ht) | [Heq Hno]].
  - assert (Hlt : (String.length r < n)%nat).
    { subst s n. rewrite append_length.
      destruct w; [discriminate Hw | simpl; lia]. }
    destruct (IH _ Hlt r eq_refl) as ((pre & Hr & Hpre) & Hno).
    rewrite Ht. split; [|exact Hno].
    exists (w ++ pre). split.
    + rewrite append_assoc, <- Hr. exact Hs.
    + constructor; assumption.
  - rewrite Heq. split; [|exact Hno].
    exists EmptyString. split; [reflexivity | constructor].
Qed.

Lemma trimStart_white (w r : string) :
  is_white w = true -> trimStart (w ++ r) = trimStart r.
Proof.
  intros Hw.
  destruct w as [|c1 [|c2 [|c3 [|c4 w]]]]; try discriminate Hw; simpl in Hw.
  - simpl. rewrite Hw. reflexivity.
  - destruct (space2_lead _ _ Hw) as (H1 & _).
    simpl. rewrite H1, Hw. reflexivity.
  - destruct (space3_lead _ _ _ Hw) as (H1 & H2).
    simpl. rewrite H1, H2, Hw. reflexivity.
Qed.

Lemma trimStart_blank (s : string) : blank s -> trimStart s = EmptyString.
Proof.
  induction 1 as [|w r Hw _ IH]; [reflexivity|].
  rewrite trimStart_white by exact Hw. exact IH.
Qed.

Lemma trimEnd_cons (c : ascii) (r : string) :
  trimEnd (String c r) =
  if is_white (String c (trimEnd r)) then EmptyString else String c (trimEnd r).
Proof. reflexivity. Qed.

(** What [trimEnd] drops is a run of white space, and what it leaves does
    not end with white space. *)
Lemma trimEnd_spec (s : string) :
  (exists post, s = trimEnd s ++ post /\ blank post) /\
  ~ ends_with_space (trimEnd s).
Proof.
  induction s as [|c r ((post & Hr & Hpost) & Hno)].
  - split; [exists EmptyString; split; [reflexivity | constructor]|].
    intros (w & x & Hw & Hs). destruct x; simpl in Hs; [|discriminate].
    subst w. discriminate Hw.
  - rewrite trimEnd_cons.
    destruct (is_white (String c (trimEnd r))) eqn:Hk.
    + split.
      * exists (String c (trimEnd r) ++ post). split.
        -- cbn [append]. congruence.
        -- constructor; assumption.
      * intros (w & x & Hw & Hs). destruct x; simpl in Hs; [|discriminate].
        subst w. discriminate Hw.
    + split.
      * exists post. split; [cbn [append]; congruence | exact Hpost].
      * intros (w & x & Hw & Hs). destruct x as [|a x]; cbn [append] in Hs.
        -- subst w. congruence.
        -- inversion Hs; subst. apply Hno. exists w, x. split; assumption.
Qed.

Lemma trimEnd_idempotent (s : string) : trimEnd (trimEnd s) = trimEnd s.
Proof.
  induction s as [|c r IH]; [reflexivity|].
  rewrite trimEnd_cons.
  destruct (is_white (String c (trimEnd r))) eqn:Hk; [reflexivity|].
  rewrite trimEnd_cons, IH, Hk. reflexivity.
Qed.

(** [trim] drops a run of white space on either side, and what it leaves
    neither starts nor ends with white space. *)
Lemma String_trim_spec (s : string) :
  (exists pre post,
      s = pre ++ String_trim s ++ post /\ blank pre /\ blank post) /\
  ~ starts_with_space (String_trim s) /\
  ~ ends_with_space (String_trim s).
Proof.
  unfold String_trim.
  destruct (trimStart_spec s) as ((pre & Hs & Hpre) & Hstart).
  destruct (trimEnd_spec (trimStart s)) as ((post & Ht & Hpost) & Hend).
  split; [|split; [|exact Hend]].
  - exists pre, post. rewrite <- Ht. repeat split; assumption.
  - intros (w & r & Hw & Hv). apply Hstart.
    exists w, (r ++ post). split; [exact Hw|].
    rewrite Ht at 1. rewrite Hv. apply append_assoc.
Qed.

(** Trimming a trimmed string changes nothing. *)
Lemma String_trim_idempotent (s : string) :
  String_trim (String_trim s) = String_trim s.
Proof.
  destruct (String_trim_spec s) as (_ & Hstart & _).
  unfold String_trim in *.
  destruct (trimStart_step (trimEnd (trimStart s)))
    as [(w & r & Hw & Hv & _) | [Heq _]].
  - exfalso. apply Hstart. exists w, r. split; assumption.
  - rewrite Heq. apply trimEnd_idempotent.
Qed.

Lemma String_trim_blank (s : string) : blank s -> String_trim s = EmptyString.
Proof. intros H. unfold String_trim. rewrite trimStart_blank by exact H. reflexivity. Qed.

Lemma includes_In (allowed : list string) (v : string) :
  includes allowed v = true -> In v allowed.
Proof.
  unfold includes. intros H. apply existsb_exists in H.
  destruct H as (x & Hin & Heq). apply String.eqb_eq in Heq. subst x.
  exact Hin.
Qed.

Section WithConversions.

Variable NumberToString : float -> string.

(** X19: [parseString] accepts strings only, and the value it gives is the
    string without the white space around it: what was dropped before and
    after the value is white space only, and the value is not empty, does
    not start and does not end with a white-space character, and is left
    as it is by another [trim].  A string of white space only is refused,
    and so is anything that is not a string. *)
Theorem parseString_accepts_trimmed (value : jsval) (label v : string) :
  parseString value label = inr v ->
  (exists s pre post,
      value = JStr s /\ s = pre ++ v ++ post /\ blank pre /\ blank post) /\
  v <> EmptyString /\
  ~ starts_with_space v /\
  ~ ends_with_space v /\
  String_trim v = v /\
  (forall other,
      (forall s, other = JStr s -> blank s) ->
      parseString other label = inl (label ++ " is required")).
Proof.
  intros Hparse. split; [|split; [|split; [|split; [|split]]]].
  - unfold parseString in Hparse.
    destruct value as [| | b | n | s | text]; simpl in Hparse;
      try discriminate.
    destruct (is_empty (String_trim s)) eqn:Hempty; [discriminate|].
    inversion Hparse; subst v.
    destruct (String_trim_spec s) as ((pre & post & Hs & Hpre & Hpost) & _).
    exists s, pre, post. repeat split; assumption.
  - unfold parseString in Hparse.
    destruct value as [| | b | n | s | text]; simpl in Hparse;
      try discriminate.
    destruct (is_empty (String_trim s)) eqn:Hempty; [discriminate|].
    inversion Hparse; subst v.
    intros Heq. rewrite Heq in Hempty. discriminate.
  - unfold parseString in Hparse.
    destruct value as [| | b | n | s | text]; simpl in Hparse;
      try discriminate.
    destruct (is_empty (String_trim s)); [discriminate|].
    inversion Hparse; subst v. apply String_trim_spec.
  - unfold parseString in Hparse.
    destruct value as [| | b | n | s | text]; simpl in Hparse;
      try discriminate.
    destruct (is_empty (String_trim s)); [discriminate|].
    inversion Hparse; subst v. apply String_trim_spec.
  - unfold parseString in Hparse.
    destruct value as [| | b | n | s | text]; simpl in Hparse;
      try discriminate.
    destruct (is_empty (String_trim s)); [discriminate|].
    inversion Hparse; subst v. apply String_trim_idempotent.
  - intros other Hother. unfold parseString.
    destruct other as [| | b | n | s | text]; try reflexivity.
    rewrite (String_trim_blank s (Hother s eq_refl)). reflexivity.
Qed.

(** X20: what the other parsers accept lies in the set each of them allows:
    [parseSide] gives "BUY" or "SELL", from a truthy value only;
    [parseTickSize] gives one of the four tick sizes; [parseOrderType] gives
    the fallback for a falsy value and otherwise one of the order types of
    the SDK; [parseBool] gives a boolean for a boolean, or for a string that
    reads "true" or "false" once trimmed and lower-cased. *)
Theorem parsers_accept_allowed_values :
  (forall value v,
      parseSide NumberToString value = inr v ->
      truthy value = true /\ (v = "BUY" \/ v = "SELL") /\
      v = toUpperCase (String_ NumberToString value)) /\
  (forall value v,
      parseTickSize NumberToString value = inr v ->
      v = "0.1" \/ v = "0.01" \/ v = "0.001" \/ v = "0.0001") /\
  (forall values value fallback r,
      parseOrderType NumberToString values value fallback = inr r ->
      (truthy value = false /\ r = fallback) \/
      (truthy value = true /\ exists v, r = Some v /\ In v values)) /\
  (forall value label b,
      parseBool value label = inr b ->
      value = JBool b \/
      exists s, value = JStr s /\
                toLowerCase (String_trim s) = if b then "true" else "false").
Proof.
  split; [|split; [|split]].
  - intros value v. unfold parseSide.
    destruct (truthy value); simpl; [|discriminate].
    destruct (String.eqb _ "BUY") eqn:Hbuy; simpl.
    + intros H. inversion H; subst v. apply String.eqb_eq in Hbuy.
      repeat split. left. exact Hbuy.
    + destruct (String.eqb _ "SELL") eqn:Hsell; [|discriminate].
      intros H. inversion H; subst v. apply String.eqb_eq in Hsell.
      repeat split. right. exact Hsell.
  - intros value v. unfold parseTickSize.
    match goal with
    | |- (if is_empty ?t then _ else _) = _ -> _ =>
        destruct (is_empty t); [discriminate|];
        destruct (includes allowed_tick_sizes t) eqn:Hin; simpl;
        [|discriminate];
        intros H; inversion H; subst v;
        apply includes_In in Hin; simpl in Hin
    end.
    intuition auto.
  - intros values value fallback r. unfold parseOrderType.
    destruct (truthy value); simpl.
    + destruct (includes values _) eqn:Hin; simpl; [|discriminate].
      intros H. inversion H; subst r. right. split; [reflexivity|].
      eexists. split; [reflexivity|]. apply includes_In. exact Hin.
    + intros H. inversion H; subst r. left. split; reflexivity.
  - intros value label b. unfold parseBool.
    destruct value as [| | b' | n | s | text]; try discriminate.
    + intros H. inversion H; subst. left. reflexivity.
    + destruct (String.eqb _ "true") eqn:Htrue.
      * intros H. inversion H; subst b. right. exists s.
        split; [reflexivity|]. apply String.eqb_eq. exact Htrue.
      * destruct (String.eqb _ "false") eqn:Hfalse; [|discriminate].
        intros H. inversion H; subst b. right. exists s.
        split; [reflexivity|]. apply String.eqb_eq. exact Hfalse.
Qed.

End WithConversions.

Section Guard.

Context {W : Type} (X : Exchange W).

(** X21: the guard of the handlers and the gate of the session agree: the guard
    lets a request through exactly when trading is enabled and a key is
    configured; a request it stops is answered with status 403 and would
    have found no session; and for a request it lets through
    [getClobContext] logs no missing-key warning and leaves the flag
    clear. *)
Theorem guard_agrees_with_session (config : Config) (s : St W) :
  (ensureTradingEnabled config = None <->
   enabled config = true /\ is_empty (privateKey config) = false) /\
  (forall response,
      ensureTradingEnabled config = Some response ->
      http_status response = 403%Z /\
      fst (getClobContext X config s) = Normal None /\
      world (snd (getClobContext X config s)) = world s /\
      clobContextPromise (snd (getClobContext X config s))
        = clobContextPromise s) /\
  (ensureTradingEnabled config = None ->
   warnedMissingKey (snd (getClobContext X config s)) = false /\
   missing_key_warnings (trace (snd (getClobContext X config s)))
     = missing_key_warnings (trace s)).
Proof.
  unfold ensureTradingEnabled.
  destruct (enabled config) eqn:Hon; simpl.
  - destruct (is_empty (privateKey config)) eqn:Hkey; simpl.
    + split; [split; [discriminate | intros [_ H]; discriminate]|].
      split; [|discriminate].
      intros response H. inversion H; subst response.
      destruct (getClobContext_missing_key_effect X config s Hon Hkey)
        as (Hres & Hworld & Hmemo & _).
      repeat split; assumption.
    + split; [split; [intros _; split; reflexivity | reflexivity]|].
      split; [discriminate|]. intros _.
      destruct (getClobContext_with_key_effect X config s Hon Hkey)
        as (_ & Hflag & Hwarn).
      split; assumption.
  - split; [split; [discriminate | intros [H _]; discriminate]|].
    split; [|discriminate].
    intros response H. inversion H; subst response.
    rewrite (getClobContext_disabled X config s Hon). repeat split.
Qed.

End Guard.

End ParsingFacts.

(** ** Preflight and submission in the limit route *)

Module SubmitFacts.

Import JS Utils LimitRoute Trading TradingAccount RequestParsing.
Import LimitRouteSubmit TradingFacts SessionFacts SubmissionFacts AccountFacts.
Import FloatOrderFacts.
Local Open Scope float_scope.

Section Submit.

Context {W : Type} (X : Exchange W) (A : Account W).

(** X22: a limit order below the minimum size (5 shares) or the minimum
    notional (1 dollar), the epsilon of [isBelowMin] apart, is answered with
    status 409 and the trading module is not called: the state is
    untouched.  Any other limit order is handed to [placeLimitOrder] with
    the token, price, size, side, order type, tick size, negative-risk flag
    and post-only flag of the request and with [returnError] set: what the
    branch gives and the state it leaves are those of that call, which
    always gives a record back, never [null], and submits at most one
    order. *)
Theorem limit_order_preflight (config : Config) (tokenId side : string)
    (size price : float) (orderType tickSize : option string)
    (negRisk : option bool) (postOnly : bool) (s : St W) :
  (isBelowMin size MIN_ORDER_SHARES = true \/
   isBelowMin (size * price) MIN_ORDER_NOTIONAL_USD = true ->
   exists response,
     limit_order X config tokenId side size price orderType tickSize negRisk
                 postOnly s = (Normal (inl response), s) /\
     http_status response = 409%Z) /\
  (isBelowMin size MIN_ORDER_SHARES = false ->
   isBelowMin (size * price) MIN_ORDER_NOTIONAL_USD = false ->
   exists placed s',
     placeLimitOrder X config
       {| lo_tokenId := tokenId; lo_price := price; lo_size := size;
          lo_side := side; lo_orderType := orderType;
          lo_tickSize := tickSize; lo_negRisk := negRisk;
          lo_postOnly := postOnly; lo_returnError := true |} s
       = (Normal (Some placed), s') /\
     limit_order X config tokenId side size price orderType tickSize negRisk
                 postOnly s = (Normal (inr (Some placed)), s') /\
     well_reported true (Some placed) /\
     (order_posts (trace s') <= order_posts (trace s) + 1)%nat).
Proof.
  unfold limit_order. split.
  - intros [Hsize | Hnotional].
    + rewrite Hsize. eexists. split; reflexivity.
    + destruct (isBelowMin size MIN_ORDER_SHARES);
        [|rewrite Hnotional]; eexists; split; reflexivity.
  - intros Hsize Hnotional. rewrite Hsize, Hnotional.
    unfold limit_opts.
    match goal with
    | |- context [placeLimitOrder X config ?opts s] =>
        destruct (placeLimitOrder_outcome X config opts s)
          as (r & s' & Hplace & Hreported & Hposts)
    end.
    unfold bind. rewrite Hplace.
    destruct r as [placed|]; [|simpl in Hreported; discriminate].
    exists placed, s'. repeat split; assumption.
Qed.

(** X23: a market order reaches the exchange only after its preflight, and
    with the amount the preflight computed.  Whenever the market branch
    submits an order, it has read the balance, and what it gives and the
    state it leaves are those of [placeMarketOrder] called, in the state
    the balance was read in, with the token, side, order type, price, tick
    size and negative-risk flag of the request, [returnError] set and as
    amount the one computed from the balance.  For a SELL that amount is
    [floorTo(adjustSellAmountToAvoidDust(amount, available, price), 2)],
    finite, strictly positive, not below 5 shares and not below 1 dollar of
    notional; for a BUY it is [floorTo(Math.min(amount, available), 2)], not
    below 1 dollar and not below 5 shares at the price. *)
Theorem market_order_submits_after_preflight (config : Config)
    (tokenId side : string) (amount price : float)
    (orderType tickSize : option string) (negRisk : option bool)
    (s s' : St W) (r : SubmitResult) :
  market_order X A config tokenId side amount price orderType tickSize negRisk
               s = (Normal r, s') ->
  (order_posts (trace s) < order_posts (trace s'))%nat ->
  let submitted := fun submit : float =>
    {| mo_tokenId := tokenId; mo_amount := submit; mo_side := side;
       mo_orderType := orderType; mo_price := Some price;
       mo_tickSize := tickSize; mo_negRisk := negRisk;
       mo_returnError := true |} in
  let result := fun (placed : option OrderResult) (submit available : float)
                    (assetType : string) =>
    {| sr_orderId :=
         match placed with Some p => res_orderId p | None => JUndefined end;
       sr_status :=
         match placed with Some p => res_status p | None => JUndefined end;
       sr_error := match placed with Some p => res_error p | None => None end;
       sr_requestedAmount := Some amount; sr_submittedAmount := Some submit;
       sr_requestedShares := None; sr_submittedShares := None;
       sr_available := Some available;
       sr_availableAssetType := Some assetType |} in
  (side = "SELL"%string ->
   exists balance s1 placed,
     fetchConditionalBalance X A config tokenId None s
       = (Normal (Some balance), s1) /\
     order_posts (trace s1) = order_posts (trace s) /\
     let available := bal_available balance in
     let submit :=
       floorTo (adjustSellAmountToAvoidDust amount available price) 2 in
     placeMarketOrder X config (submitted submit) s1 = (Normal placed, s') /\
     r = result placed submit available "CONDITIONAL"%string /\
     is_finite submit = true /\
     (0 <? submit) = true /\
     isBelowMin submit MIN_ORDER_SHARES = false /\
     isBelowMin (submit * price) MIN_ORDER_NOTIONAL_USD = false) /\
  (side = "BUY"%string ->
   exists balance s1 placed,
     fetchCollateralBalance X A config None s = (Normal (Some balance), s1) /\
     order_posts (trace s1) = order_posts (trace s) /\
     let available := bal_available balance in
     let submit := floorTo (Math_min amount available) 2 in
     placeMarketOrder X config (submitted submit) s1 = (Normal placed, s') /\
     r = result placed submit available "COLLATERAL"%string /\
     isBelowMin submit MIN_ORDER_NOTIONAL_USD = false /\
     isBelowMin (submit / price) MIN_ORDER_SHARES = false).
Proof.
  intros Hrun Hposted submitted result. split; intros Hside;
    unfold submitted, result; subst side;
    unfold market_order in Hrun; simpl in Hrun.
  - (* SELL *)
    destruct (fetchConditionalBalance_outcome X A config tokenId None s)
      as (b & s1 & Hbal & _ & Hp1).
    unfold bind in Hrun at 1. rewrite Hbal in Hrun.
    destruct b as [[conditional|] | e |];
      try (inversion Hrun; subst; lia).
    exists conditional, s1.
    set (available := bal_available conditional) in *.
    set (submit := floorTo (adjustSellAmountToAvoidDust amount available
                                                        price) 2) in *.
    unfold Number_isFinite in Hrun.
    destruct (is_finite submit) eqn:Hfin; simpl in Hrun.
    2:{ inversion Hrun; subst; lia. }
    destruct (submit <=? 0) eqn:Hle; simpl in Hrun.
    { inversion Hrun; subst; lia. }
    destruct (isBelowMin submit MIN_ORDER_SHARES) eqn:Hsize.
    { inversion Hrun; subst; lia. }
    destruct (isBelowMin (submit * price) MIN_ORDER_NOTIONAL_USD)
      eqn:Hnotional.
    { inversion Hrun; subst; lia. }
    unfold place_market, market_opts, placed_result in Hrun.
    match type of Hrun with
    | context [placeMarketOrder X config ?opts] =>
        destruct (placeMarketOrder_outcome X config opts s1)
          as (placed & s2 & Hplace & _ & _)
    end.
    unfold bind in Hrun. rewrite Hplace in Hrun.
    inversion Hrun; subst r s2.
    exists placed. repeat split; try assumption.
    apply not_leb_ltb; [apply is_finite_not_nan; exact Hfin
                       | reflexivity | exact Hle].
  - (* BUY *)
    destruct (fetchCollateralBalance_outcome X A config None s)
      as (b & s1 & Hbal & _ & Hp1).
    unfold bind in Hrun at 1. rewrite Hbal in Hrun.
    destruct b as [[collateral|] | e |];
      try (inversion Hrun; subst; lia).
    exists collateral, s1.
    set (available := bal_available collateral) in *.
    set (submit := floorTo (Math_min amount available) 2) in *.
    destruct (isBelowMin submit MIN_ORDER_NOTIONAL_USD) eqn:Hnotional.
    { inversion Hrun; subst; lia. }
    destruct (isBelowMin (submit / price) MIN_ORDER_SHARES) eqn:Hsize.
    { inversion Hrun; subst; lia. }
    unfold place_market, market_opts, placed_result in Hrun.
    match type of Hrun with
    | context [placeMarketOrder X config ?opts] =>
        destruct (placeMarketOrder_outcome X config opts s1)
          as (placed & s2 & Hplace & _ & _)
    end.
    unfold bind in Hrun. rewrite Hplace in Hrun.
    inversion Hrun; subst r s2.
    exists placed. repeat split; assumption.
Qed.

End Submit.

(** The example of the design: 3 shares available, 3 to sell at 0.5. *)
Example market_sell_below_min_shares :
  let X := Scripted.exchange (Ok Scripted.signer) (Ok Scripted.api_creds)
                             (Ok (Some ScriptedAccount.accepted))
                             (Ok None) (Ok None) in
  let A := ScriptedAccount.account (Ok tt)
             (Ok (Some ScriptedAccount.three_shares)) in
  market_order X A Scripted.config_on "T" "SELL" 3 0.5 None None None
               Scripted.ready
  = (Normal (rejected size_message 3 3 3 "CONDITIONAL"),
     set_flag false Scripted.ready).
Proof. vm_compute. reflexivity. Qed.

(** 8 shares of 100 sold at 0.5: the order is submitted, for 8 shares. *)
Lemma market_order_submits_after_preflight_witness :
  let X := Scripted.exchange (Ok Scripted.signer) (Ok Scripted.api_creds)
                             (Ok (Some ScriptedAccount.accepted))
                             (Ok None) (Ok None) in
  let A := ScriptedAccount.account (Ok tt)
             (Ok (Some ScriptedAccount.hundred_shares)) in
  exists r s',
    market_order X A Scripted.config_on "T" "SELL" 8 0.5 None None None
                 Scripted.ready = (Normal r, s') /\
    order_posts (trace s') = 1%nat /\
    exists balance s1 placed,
      fetchConditionalBalance X A Scripted.config_on "T" None Scripted.ready
        = (Normal (Some balance), s1) /\
      bal_available balance = 100 /\
      placeMarketOrder X Scripted.config_on
        {| mo_tokenId := "T"; mo_amount := 8; mo_side := "SELL";
           mo_orderType := None; mo_price := Some 0.5; mo_tickSize := None;
           mo_negRisk := None; mo_returnError := true |} s1
        = (Normal placed, s') /\
      sr_submittedAmount r = Some 8.
Proof.
  intros X A.
  destruct (market_order X A Scripted.config_on "T" "SELL" 8 0.5 None None
                         None Scripted.ready)
    as [[r | e |] s'] eqn:Hrun; try (vm_compute in Hrun; discriminate).
  assert (Hposts : order_posts (trace s') = 1%nat).
  { vm_compute in Hrun. inversion Hrun. reflexivity. }
  exists r, s'. split; [reflexivity|]. split; [exact Hposts|].
  destruct (market_order_submits_after_preflight X A Scripted.config_on
              "T"%string "SELL"%string 8 0.5 None None None Scripted.ready
              s' r Hrun) as (Hsell & _).
  { rewrite Hposts. vm_compute. lia. }
  destruct (Hsell eq_refl)
    as (balance & s1 & placed & Hbal & _ & Hplace & Hr & _).
  exists balance, s1, placed.
  assert (Havail : bal_available balance = 100).
  { vm_compute in Hbal. inversion Hbal. reflexivity. }
  split; [exact Hbal|]. split; [exact Havail|].
  rewrite Havail in Hplace, Hr.
  assert (Hsubmit : floorTo (adjustSellAmountToAvoidDust 8 100 0.5) 2 = 8)
    by (vm_compute; reflexivity).
  rewrite Hsubmit in Hplace, Hr.
  split; [exact Hplace|]. rewrite Hr. reflexivity.
Defined.

End SubmitFacts.

(** ** The order route and the status route *)

Module RouteFacts.

Import JS Trading TradingAccount RequestParsing OtherRoutes.
Import TradingFacts SessionFacts SubmissionFacts.
Local Open Scope string_scope.

Section Routes.

Context {W : Type} (X : Exchange W).
Variable Order_json : Order -> json.

Lemma fetchOrder_returns (config : Config) (orderId : string) (s : St W) :
  exists o s', fetchOrder X config orderId s = (Normal o, s').
Proof.
  unfold fetchOrder. unfold bind at 1.
  destruct (getClobContext_no_post X config s) as (c & s1 & Hctx & _).
  rewrite Hctx. destruct c as [ctx|]; [|eexists _, _; reflexivity].
  run_monad.
  destruct (getOrder X (client ctx) orderId (world s1)) as [[o | e] w1];
    eexists _, _; reflexivity.
Qed.

(** X24: the order route always answers, with status 403, 400, 404 or 200.  A
    request stopped by the guard (403) or without a usable [orderId] (400)
    leaves the state untouched; the answer is 200 exactly when [fetchOrder]
    gave an order, and the body is then that order; every failure of the
    session or of the exchange shows as 404. *)
Theorem GET_order_answers (config : Config) (orderId : option string)
    (s : St W) :
  exists response s',
    GET_order X Order_json config orderId s = (Normal response, s') /\
    (http_status response = 403%Z \/ http_status response = 400%Z \/
     http_status response = 404%Z \/ http_status response = 200%Z) /\
    (http_status response = 403%Z \/ http_status response = 400%Z -> s' = s) /\
    (http_status response = 200%Z <->
     ensureTradingEnabled config = None /\
     exists id order,
       parseString (match orderId with Some v => JStr v | None => JNull end)
                   "orderId" = inr id /\
       fst (fetchOrder X config id s) = Normal (Some order) /\
       response = jsonResponse (Order_json order) 200).
Proof.
  unfold GET_order.
  destruct (ensureTradingEnabled config) as [guard|] eqn:Hguard.
  - assert (Hstatus : http_status guard = 403%Z).
    { unfold ensureTradingEnabled in Hguard.
      destruct (enabled config); [destruct (is_empty (privateKey config))|];
        inversion Hguard; reflexivity. }
    exists guard, s. split; [reflexivity|]. split; [left; exact Hstatus|].
    split; [reflexivity|]. rewrite Hstatus.
    split; [discriminate | intros [H _]; discriminate].
  - destruct (parseString _ "orderId") as [error | id] eqn:Hparse.
    + eexists _, s. split; [reflexivity|]. simpl.
      split; [right; left; reflexivity|]. split; [reflexivity|].
      split; [discriminate|].
      intros (_ & id & order & H & _). discriminate.
    + destruct (fetchOrder_returns config id s) as (o & s' & Hfetch).
      unfold bind. rewrite Hfetch. destruct o as [order|].
      * eexists _, s'. split; [reflexivity|]. simpl.
        split; [right; right; right; reflexivity|].
        split; [intros [H | H]; discriminate|].
        split; [intros _|reflexivity]. split; [reflexivity|].
        exists id, order. repeat split. rewrite Hfetch. reflexivity.
      * eexists _, s'. split; [reflexivity|]. simpl.
        split; [right; right; left; reflexivity|].
        split; [intros [H | H]; discriminate|].
        split; [discriminate|].
        intros (_ & id' & order & Hid & Hsome & _).
        inversion Hid; subst id'. rewrite Hfetch in Hsome. discriminate.
Qed.

(** X25: the status route always answers, with status 403, 502 or 200; it is 200
    exactly when trading is enabled, a key is configured and the session is
    obtained, and the body then holds the two addresses of the session.
    Because the guard comes first, the route never causes the missing-key
    warning to be logged. *)
Theorem GET_status_answers (config : Config) (s : St W) :
  exists response s',
    GET_status X config s = (Normal response, s') /\
    (http_status response = 403%Z \/ http_status response = 502%Z \/
     http_status response = 200%Z) /\
    (http_status response = 200%Z <->
     enabled config = true /\ is_empty (privateKey config) = false /\
     exists ctx,
       fst (getClobContext X config s) = Normal (Some ctx) /\
       response =
         jsonResponse
           (JsonObj [("ok", JsonBool true);
                     ("address", JsonStr (ctx_address ctx));
                     ("funderAddress", JsonStr (ctx_funderAddress ctx))])
           200) /\
    missing_key_warnings (trace s') = missing_key_warnings (trace s).
Proof.
  unfold GET_status, ensureTradingEnabled.
  destruct (enabled config) eqn:Hon; simpl.
  - destruct (is_empty (privateKey config)) eqn:Hkey; simpl.
    + eexists _, s. split; [reflexivity|]. simpl.
      split; [left; reflexivity|].
      split; [|reflexivity].
      split; [discriminate | intros (_ & H & _); discriminate].
    + destruct (getClobContext_with_key_effect X config s Hon Hkey)
        as ((c & Hres) & _ & Hwarn).
      destruct (getClobContext X config s) as [r s1] eqn:Hctx.
      simpl in Hres, Hwarn. subst r.
      unfold bind. rewrite Hctx. destruct c as [ctx|].
      * eexists _, s1. split; [reflexivity|]. simpl.
        split; [right; right; reflexivity|].
        split; [|exact Hwarn].
        split; [intros _|reflexivity].
        repeat split. exists ctx. split; reflexivity.
      * eexists _, s1. split; [reflexivity|]. simpl.
        split; [right; left; reflexivity|].
        split; [|exact Hwarn].
        split; [discriminate|].
        intros (_ & _ & ctx & H & _). discriminate.
  - eexists _, s. split; [reflexivity|]. simpl.
    split; [left; reflexivity|].
    split; [|reflexivity].
    split; [discriminate | intros (H & _); discriminate].
Qed.

End Routes.

End RouteFacts.

(** ** Truncation of the diagnostic text *)

Module TruncateFacts.

Import JS Trading.
Local Open Scope string_scope.





End TruncateFacts.

(** ** Instances of the properties above *)

Module MoreWitnesses.

Import JS Utils LimitRoute Trading TradingAccount RequestParsing.
Import RequestParsingMore LimitRouteSubmit FillFacts ParsingFacts SubmitFacts.
Local Open Scope float_scope.

(** A bound that is NaN: the unknown snapshot, and nothing asked. *)
Lemma fetchOrderFills_nan_wait_witness :
  let X := Scripted.exchange (Ok Scripted.signer) (Ok Scripted.api_creds)
                             (Ok None) (Ok (Some Scripted.matched_order))
                             (Ok None) in
  exists s',
    fetchOrderFills X 1 Scripted.config_on "O"%string
                    (Scripted.fill_opts nan false) Scripted.ready
    = (Normal (Some unknown_snapshot), s') /\
    trace s' = [].
Proof.
  intros X.
  apply (fetchOrderFills_nan_wait X 0 Scripted.config_on "O"%string
           (Scripted.fill_opts nan false) Scripted.ready
           (set_flag false Scripted.ready) Scripted.context eq_refl eq_refl).
Defined.


Lemma parseString_accepts_trimmed_witness :
  let padded :=
    (bytes [194; 160; 32]%nat ++ "0xabc"
     ++ bytes [226; 128; 131; 10]%nat)%string in
  parseString (JStr padded) "orderId" = inr "0xabc"%string /\
  ~ starts_with_space "0xabc" /\
  ~ ends_with_space "0xabc" /\
  String_trim "0xabc" = "0xabc"%string.
Proof.
  intros padded.
  split; [reflexivity|].
  destruct (parseString_accepts_trimmed (JStr padded) "orderId" "0xabc"
                                        eq_refl)
    as (_ & _ & Hstart & Hend & Hidem & _).
  repeat split; assumption.
Defined.

(** A limit order of 4 shares is stopped; one of 10 shares at 0.5 goes on. *)
Lemma limit_order_preflight_witness :
  let X := Scripted.exchange (Ok Scripted.signer) (Ok Scripted.api_creds)
                             (Ok (Some ScriptedAccount.accepted))
                             (Ok None) (Ok None) in
  isBelowMin 4 MIN_ORDER_SHARES = true /\
  (exists response,
      limit_order X Scripted.config_on "T" "BUY" 4 0.5 None None None false
                  Scripted.ready = (Normal (inl response), Scripted.ready) /\
      http_status response = 409%Z) /\
  isBelowMin 10 MIN_ORDER_SHARES = false /\
  isBelowMin (10 * 0.5) MIN_ORDER_NOTIONAL_USD = false /\
  (exists placed s',
      placeLimitOrder X Scripted.config_on
        {| lo_tokenId := "T"; lo_price := 0.5; lo_size := 10;
           lo_side := "BUY"; lo_orderType := None; lo_tickSize := None;
           lo_negRisk := None; lo_postOnly := false; lo_returnError := true |}
        Scripted.ready
        = (Normal (Some placed), s') /\
      limit_order X Scripted.config_on "T" "BUY" 10 0.5 None None None false
                  Scripted.ready = (Normal (inr (Some placed)), s') /\
      res_orderId placed = JStr "0xabc").
Proof.
  intros X. split; [reflexivity|].
  split.
  { destruct (limit_order_preflight X Scripted.config_on "T"%string
                "BUY"%string 4 0.5 None None None false Scripted.ready)
      as (Hstop & _).
    apply Hstop. left. reflexivity. }
  split; [reflexivity|]. split; [reflexivity|].
  destruct (limit_order_preflight X Scripted.config_on "T"%string
              "BUY"%string 10 0.5 None None None false Scripted.ready)
    as (_ & Hpass).
  destruct (Hpass eq_refl eq_refl) as (placed & s' & Hplace & Hlimit & _).
  exists placed, s'. split; [exact Hplace|]. split; [exact Hlimit|].
  vm_compute in Hplace. inversion Hplace. reflexivity.
Defined.

End MoreWitnesses.
